(** * aiomysql/connection.py: the MySQL client protocol core

    A shallow embedding of [aiomysql.connection] (class [Connection] and
    class [MySQLResult]) together with the properties of its packet
    framer, handshake parser, command dispatcher and result decoder.

    Python objects are modelled by records, attribute assignment by
    record update, coroutines by a state-and-exception monad over a
    [World] that holds the one [Connection] under study, the store of
    [MySQLResult] objects it shares with its cursors, the network
    environment and the log of packets received and frames sent. *)

From Stdlib Require Import ZArith List Strings.Byte Ascii String Bool Lia.
From Stdlib Require Import DecimalString.
From stdpp Require Import base option list gmap strings.
Import ListNotations.

Local Open Scope Z_scope.

(** ** Bytes, integers and [struct] *)

Abbreviation bytes := (list byte).

Definition byte_of_Z (z : Z) : byte :=
  match Byte.of_N (Z.to_N (z mod 256)) with
  | Some b => b
  | None => x00
  end.

Definition Z_of_byte (b : byte) : Z := Z.of_N (Byte.to_N b).

(** [len(b)] as a Python integer. *)
Definition len {A : Type} (l : list A) : Z := Z.of_nat (length l).

(** Python slicing [l[lo:hi]]: a negative bound counts from the end and
    both bounds are clamped to the sequence. *)
Definition slice_bound {A : Type} (l : list A) (x : Z) : Z :=
  if x <? 0 then Z.max 0 (x + len l) else Z.min x (len l).

Definition py_slice {A : Type} (l : list A) (lo hi : Z) : list A :=
  let lo' := slice_bound l lo in
  let hi' := slice_bound l hi in
  if lo' <? hi' then firstn (Z.to_nat (hi' - lo')) (skipn (Z.to_nat lo') l)
  else [].

(** [l[lo:]] and [l[:hi]]. *)
Definition py_slice_from {A : Type} (l : list A) (lo : Z) : list A :=
  py_slice l lo (len l).

Definition py_slice_to {A : Type} (l : list A) (hi : Z) : list A :=
  py_slice l 0 hi.

(** [data.find(b, start)] for a one-byte needle: the first index at or
    after [start] holding [b], or -1. *)
Fixpoint find_from (b : byte) (l : bytes) (idx : Z) : Z :=
  match l with
  | [] => -1
  | x :: r => if Byte.eqb x b then idx else find_from b r (idx + 1)
  end.

Definition py_find (data : bytes) (b : byte) (start : Z) : Z :=
  let s := slice_bound data start in
  find_from b (skipn (Z.to_nat s) data) s.

(** Little-endian layout of an unsigned integer on [n] bytes. *)
Fixpoint le_bytes (n : nat) (z : Z) : bytes :=
  match n with
  | O => []
  | S n' => byte_of_Z z :: le_bytes n' (z / 256)
  end.

Fixpoint le_value (bs : bytes) : Z :=
  match bs with
  | [] => 0
  | b :: r => Z_of_byte b + 256 * le_value r
  end.

(** ** Exceptions *)

Inductive exn : Type :=
| InterfaceError (msg : string)
| OperationalError (code : Z) (msg : string)
| DatabaseError (data : bytes)        (* raise_mysql_exception(data) *)
| MySQLError (msg : string)           (* pymysql.err.Error *)
| ValueError (msg : string)
| AttributeError (attr : string)
| UnboundLocalError (name : string)
| AssertionError (msg : string)
| TypeError (msg : string)
| KeyError (msg : string)
| UnicodeError (msg : string)
| StructError
| IncompleteReadError
| OSError (msg : string).       (* str(e) of an OSError or a subclass *)

(** Only [OSError] is caught by the two [except OSError] clauses: none of
    the other exceptions above derives from it. *)
Definition is_OSError (e : exn) : bool :=
  match e with OSError _ => true | _ => false end.

(** [str(e)] of the exception that an [except OSError as e] clause binds. *)
Definition os_error_text (e : exn) : string :=
  match e with OSError msg => msg | _ => EmptyString end.

(** [struct.pack] and [struct.unpack] for the formats the module uses. *)
Definition pack_i32 (v : Z) : exn + bytes :=        (* '<i' *)
  if (-2147483648 <=? v) && (v <=? 2147483647)
  then inr (le_bytes 4 (v mod 4294967296)) else inl StructError.

Definition pack_u32 (v : Z) : exn + bytes :=        (* '<I' *)
  if (0 <=? v) && (v <=? 4294967295)
  then inr (le_bytes 4 v) else inl StructError.

Definition int2byte (v : Z) : exn + bytes :=        (* '>B' *)
  if (0 <=? v) && (v <=? 255) then inr [byte_of_Z v] else inl StructError.

Definition byte2int (b : bytes) : exn + Z :=        (* '!B' *)
  match b with
  | [x] => inr (Z_of_byte x)
  | _ => inl StructError
  end.

Definition unpack_uint (width : nat) (b : bytes) : exn + Z :=
  if Nat.eqb (length b) width then inr (le_value b) else inl StructError.

(** [struct.unpack('<BHHB', b)]. *)
Definition unpack_BHHB (b : bytes) : exn + (Z * Z * Z * Z) :=
  match b with
  | [b0; b1; b2; b3; b4; b5] =>
      inr (Z_of_byte b0, le_value [b1; b2], le_value [b3; b4], Z_of_byte b5)
  | _ => inl StructError
  end.

(** [pymysql.connections.pack_int24]: [struct.pack('<I', n)[:3]]. *)
Definition pack_int24 (n : Z) : exn + bytes :=
  match pack_u32 n with
  | inr b => inr (py_slice_to b 3)
  | inl e => inl e
  end.

(** latin1 maps every byte to the code point of the same number, so on
    8-bit strings [decode('latin1')] and [encode('latin1')] are total. *)
Definition decode_latin1 (b : bytes) : string := string_of_list_byte b.
Definition encode_latin1 (s : string) : bytes := list_byte_of_string s.

(** ** Data exchanged with the PyMySQL library

    [aiomysql.connection] imports its packet classes, character-set
    tables, converters and scrambling primitives from PyMySQL.  Their
    data is modelled by the records below and their behaviour is taken
    as an interface, [Imports], that every property quantifies over; it
    also holds what the module takes from [configparser], [getpass] and
    [sys]. *)

Record Charset : Type := {
  cs_id : Z;
  cs_name : string;
  cs_encoding : string;
  cs_is_binary : bool
}.

(** A [MysqlPacket]: the logical packet and its read cursor. *)
Record Packet : Type := {
  pk_data : bytes;
  pk_position : Z
}.

Record OKPacket : Type := {
  ok_affected_rows : option Z;
  ok_insert_id : option Z;
  ok_server_status : Z;
  ok_warning_count : Z;
  ok_message : bytes;
  ok_has_next : Z
}.

Record EOFPacket : Type := {
  eof_warning_count : Z;
  eof_has_next : Z
}.

Record FieldDescriptor : Type := {
  fd_table_name : string;
  fd_name : string;
  charsetnr : Z;
  fd_length : Z;
  type_code : Z;
  fd_flags : Z;
  fd_scale : Z
}.

(** A decoded column value. *)
#[local] Set Warnings "-register-all".
Inductive pyval : Type :=
| VNone
| VBytes (b : bytes)
| VStr (s : string)
| VInt (z : Z)
| VBool (b : bool)
| VTuple (items : list pyval).

Definition converter : Type := pyval -> exn + pyval.

(** A value that the caller may pass as [str] or as [bytes]. *)
Inductive text : Type :=
| Str (s : string)
| Bytes (b : bytes).

Class Imports : Type := {
  (* pymysql.connections.MysqlPacket *)
  is_ok_packet : Packet -> bool;
  is_eof_packet : Packet -> bool;
  check_error : Packet -> option exn;
  read_length_encoded_integer : Packet -> exn + (option Z * Packet);
  read_length_coded_string : Packet -> exn + (option bytes * Packet);
  OKPacketWrapper : Packet -> exn + OKPacket;
  EOFPacketWrapper : Packet -> exn + EOFPacket;
  (* FieldDescriptorPacket(data, encoding) and its description() *)
  FieldDescriptorPacket : bytes -> string -> exn + FieldDescriptor;
  description : FieldDescriptor -> pyval;
  (* pymysql.connections, pymysql.charset, pymysql.converters *)
  TEXT_TYPES : list Z;
  DEFAULT_CHARSET : string;
  charset_by_id : Z -> exn + Charset;
  charset_by_name : string -> option Charset;
  decoders : gmap Z converter;
  escape_item : pyval -> string -> exn + string;
  _scramble : bytes -> bytes -> bytes;
  _scramble_323 : bytes -> bytes -> bytes;
  (* pymysql.constants.CLIENT and SERVER_STATUS *)
  CAPABILITIES : Z;
  MULTI_STATEMENTS : Z;
  MULTI_RESULTS : Z;
  CONNECT_WITH_DB : Z;
  SERVER_STATUS_AUTOCOMMIT : Z;
  SERVER_STATUS_NO_BACKSLASH_ESCAPES : Z;
  escape_string : string -> string;
  (* the codecs behind bytes.decode and str.encode *)
  py_decode : string -> bytes -> exn + string;
  py_encode : string -> string -> exn + bytes;
  (* repr(s) of a str, as the %r conversion writes it *)
  py_repr : string -> string;
  (* int(s) on a configuration value, getpass.getuser() *)
  py_int : string -> exn + Z;
  DEFAULT_USER : string;
  (* cfg.read(file) then cfg.get(group, key); sys.platform is Windows *)
  config_get : string -> string -> string -> option string;
  platform_win : bool
}.

(** Modelled from the spec: PyMySQL's [MAX_PACKET_LEN], the maximum frame
    size 0xFFFFFF of the packet framer. *)
Definition MAX_PACKET_LEN : Z := 16777215.

(** Modelled from the spec: the command codes of PyMySQL's
    [constants.COMMAND] that the module sends. *)
Definition COM_QUIT : Z := 1.
Definition COM_INIT_DB : Z := 2.
Definition COM_QUERY : Z := 3.
Definition COM_PROCESS_KILL : Z := 12.
Definition COM_PING : Z := 14.

(** ** The objects of the module *)

(** The transport: what the peer will still send before the stream ends
    ([StreamReader]) and the identity of the socket ([StreamWriter]). *)
Inductive stream_end : Type :=
| PeerClosed
| PeerReset (cause : string).   (* the stream breaks with OSError(cause) *)

Record StreamReader : Type := {
  buffer : bytes;
  ending : stream_end
}.

Record StreamWriter : Type := {
  transport : nat
}.

(** The attributes that [_get_server_information] assigns; until then
    reading one raises [AttributeError]. *)
Record Handshake : Type := {
  protocol_version : option Z;
  server_version : option string;
  server_thread_id : option Z;
  salt : option bytes;
  server_capabilities : option Z;
  server_language : option Z;
  server_charset : option string;
  server_status : option Z
}.

(** The attributes that the constructor sets; of the methods, only
    [set_charset] reassigns two of them. *)
Record Settings : Type := {
  host : string;
  port : Z;
  password : string;
  no_delay : bool;
  unix_socket : option string;
  charset : string;
  use_unicode : bool;
  encoding : string;
  connect_timeout : option Z;
  sql_mode : option string;
  init_command : option string;
  conn_decoders : gmap Z converter
}.

Record Connection : Type := {
  settings : Settings;
  user : option text;
  db : option text;
  client_flag : Z;
  _result : option nat;            (* a reference into the result store *)
  _affected_rows : option Z;
  host_info : string;
  autocommit_mode : option bool;
  _reader : option StreamReader;
  _writer : option StreamWriter;
  handshake : Handshake;
  connected_time : option Z
}.

(** [MySQLResult.connection] is either [None] or the Connection. *)
Inductive conn_ref : Type := TheConnection.

Record MySQLResult : Type := {
  connection : option conn_ref;
  affected_rows : option Z;
  insert_id : option Z;
  result_server_status : option Z;
  warning_count : Z;
  message : option bytes;
  field_count : option Z;
  result_description : option (list pyval);
  rows : option (list (list pyval));
  has_next : option Z;
  unbuffered_active : bool;
  fields : option (list FieldDescriptor)   (* unset by __init__ *)
}.

Inductive event : Type :=
| Opened (t : nat)
| Received (packet : bytes)
| Sent (t : nat) (data : bytes)
| Closed (t : nat).

(** The world: the Connection, the store of result objects (a result is
    shared between [Connection._result] and the cursor that pulls from
    it), the outcome of the connection attempts still to come ([None] is
    a refused connection, which fails with [OSError(refusal)]), the
    outcome of the calls of [StreamWriter.drain] still to come ([Some e]
    is a connection found lost, for which [drain] raises [e]), the loop's
    clock and the log of the packets received and the frames written. *)
Record World : Type := {
  conn : Connection;
  results : list MySQLResult;
  network : list (option StreamReader);
  refusal : string;
  drains : list (option exn);
  opened : nat;
  clock : Z;
  trace : list event
}.

(** ** Attribute assignment *)

Definition set_server_status (v : option Z) (h : Handshake) : Handshake :=
  Build_Handshake (protocol_version h) (server_version h) (server_thread_id h)
    (salt h) (server_capabilities h) (server_language h) (server_charset h) v.

Definition set_user (v : option text) (c : Connection) : Connection :=
  Build_Connection (settings c) v (db c) (client_flag c) (_result c)
    (_affected_rows c) (host_info c) (autocommit_mode c) (_reader c)
    (_writer c) (handshake c) (connected_time c).

Definition set_db (v : option text) (c : Connection) : Connection :=
  Build_Connection (settings c) (user c) v (client_flag c) (_result c)
    (_affected_rows c) (host_info c) (autocommit_mode c) (_reader c)
    (_writer c) (handshake c) (connected_time c).

Definition set_client_flag (v : Z) (c : Connection) : Connection :=
  Build_Connection (settings c) (user c) (db c) v (_result c)
    (_affected_rows c) (host_info c) (autocommit_mode c) (_reader c)
    (_writer c) (handshake c) (connected_time c).

Definition set_result (v : option nat) (c : Connection) : Connection :=
  Build_Connection (settings c) (user c) (db c) (client_flag c) v
    (_affected_rows c) (host_info c) (autocommit_mode c) (_reader c)
    (_writer c) (handshake c) (connected_time c).

Definition set_affected_rows (v : option Z) (c : Connection) : Connection :=
  Build_Connection (settings c) (user c) (db c) (client_flag c) (_result c)
    v (host_info c) (autocommit_mode c) (_reader c)
    (_writer c) (handshake c) (connected_time c).

Definition set_host_info (v : string) (c : Connection) : Connection :=
  Build_Connection (settings c) (user c) (db c) (client_flag c) (_result c)
    (_affected_rows c) v (autocommit_mode c) (_reader c)
    (_writer c) (handshake c) (connected_time c).

Definition set_autocommit_mode (v : option bool) (c : Connection) : Connection :=
  Build_Connection (settings c) (user c) (db c) (client_flag c) (_result c)
    (_affected_rows c) (host_info c) v (_reader c)
    (_writer c) (handshake c) (connected_time c).

Definition set_reader (v : option StreamReader) (c : Connection) : Connection :=
  Build_Connection (settings c) (user c) (db c) (client_flag c) (_result c)
    (_affected_rows c) (host_info c) (autocommit_mode c) v
    (_writer c) (handshake c) (connected_time c).

Definition set_writer (v : option StreamWriter) (c : Connection) : Connection :=
  Build_Connection (settings c) (user c) (db c) (client_flag c) (_result c)
    (_affected_rows c) (host_info c) (autocommit_mode c) (_reader c)
    v (handshake c) (connected_time c).

Definition set_handshake (v : Handshake) (c : Connection) : Connection :=
  Build_Connection (settings c) (user c) (db c) (client_flag c) (_result c)
    (_affected_rows c) (host_info c) (autocommit_mode c) (_reader c)
    (_writer c) v (connected_time c).

Definition set_connected_time (v : option Z) (c : Connection) : Connection :=
  Build_Connection (settings c) (user c) (db c) (client_flag c) (_result c)
    (_affected_rows c) (host_info c) (autocommit_mode c) (_reader c)
    (_writer c) (handshake c) v.

(** [set_charset] is the one method that reassigns two of the settings. *)
Definition set_settings (v : Settings) (c : Connection) : Connection :=
  Build_Connection v (user c) (db c) (client_flag c) (_result c)
    (_affected_rows c) (host_info c) (autocommit_mode c) (_reader c)
    (_writer c) (handshake c) (connected_time c).

Definition set_charset_name (v : string) (s : Settings) : Settings :=
  Build_Settings (host s) (port s) (password s) (no_delay s) (unix_socket s)
    v (use_unicode s) (encoding s) (connect_timeout s) (sql_mode s)
    (init_command s) (conn_decoders s).

Definition set_encoding (v : string) (s : Settings) : Settings :=
  Build_Settings (host s) (port s) (password s) (no_delay s) (unix_socket s)
    (charset s) (use_unicode s) v (connect_timeout s) (sql_mode s)
    (init_command s) (conn_decoders s).

Definition set_conn (c : Connection) (w : World) : World :=
  Build_World c (results w) (network w) (refusal w) (drains w) (opened w)
    (clock w) (trace w).

Definition set_results (rs : list MySQLResult) (w : World) : World :=
  Build_World (conn w) rs (network w) (refusal w) (drains w) (opened w)
    (clock w) (trace w).

Definition log (e : event) (w : World) : World :=
  Build_World (conn w) (results w) (network w) (refusal w) (drains w)
    (opened w) (clock w) (trace w ++ [e]).

(** ** Coroutines: state that survives a raised exception *)

Inductive outcome (A : Type) : Type :=
| Return (a : A)
| Raise (e : exn)
| Stuck.                (* no Python behaviour: fuel spent, dangling reference *)

Arguments Return {A} a.
Arguments Raise {A} e.
Arguments Stuck {A}.

Definition M (A : Type) : Type := World -> outcome A * World.

Definition ret {A : Type} (a : A) : M A := fun w => (Return a, w).

Definition raise {A : Type} (e : exn) : M A := fun w => (Raise e, w).

Definition stuck {A : Type} : M A := fun w => (Stuck, w).

Definition bind {A B : Type} (m : M A) (k : A -> M B) : M B :=
  fun w =>
    match m w with
    | (Return a, w') => k a w'
    | (Raise e, w') => (Raise e, w')
    | (Stuck, w') => (Stuck, w')
    end.

Notation "'let*' x ':=' m 'in' k" := (bind m (fun x => k))
  (at level 10, x name, m at level 100, k at level 200).

Notation "m ';;;' k" := (bind m (fun _ => k))
  (at level 100, k at level 200, right associativity).

(** A result of [struct], of a codec or of a PyMySQL call. *)
Definition lift {A : Type} (r : exn + A) : M A :=
  match r with
  | inr a => ret a
  | inl e => raise e
  end.

Definition get : M World := fun w => (Return w, w).

Definition gets {A : Type} (f : World -> A) : M A := fun w => (Return (f w), w).

Definition modify (f : World -> World) : M unit := fun w => (Return tt, f w).

(** [self.attr = v] on the Connection. *)
Definition assign (f : Connection -> Connection) : M unit :=
  modify (fun w => set_conn (f (conn w)) w).

(** Reading an attribute that may not have been assigned yet. *)
Definition attribute {A : Type} (name : string) (v : option A) : M A :=
  match v with
  | Some a => ret a
  | None => raise (AttributeError name)
  end.

(** [try: m except <sel>: h]. *)
Definition try_except {A : Type} (m : M A) (sel : exn -> bool)
    (h : exn -> M A) : M A :=
  fun w =>
    match m w with
    | (Raise e, w') => if sel e then h e w' else (Raise e, w')
    | r => r
    end.

(** [try: m finally: f]. *)
Definition try_finally {A : Type} (m : M A) (f : M unit) : M A :=
  fun w =>
    match m w with
    | (Return a, w') => (f ;;; ret a) w'
    | (Raise e, w') => (f ;;; raise e) w'
    | (Stuck, w') => (Stuck, w')
    end.

(** ** The transport *)

(** Python truth of an attribute that holds an object or [None]. *)
Definition truthy {A : Type} (v : option A) : bool :=
  match v with Some _ => true | None => false end.

Definition nonempty (v : option text) : bool :=
  match v with
  | Some (Str s) => negb (String.eqb s EmptyString)
  | Some (Bytes b) => negb (Nat.eqb (length b) 0)
  | None => false
  end.

(** [StreamReader.readexactly(n)]: the next [n] bytes, or the failure
    with which the stream ends when the peer sends fewer. *)
Definition readexactly (n : Z) : M bytes :=
  let* w := get in
  let* rd := attribute "readexactly" (_reader (conn w)) in
  if n <=? len (buffer rd) then
    assign (set_reader (Some (Build_StreamReader
                                (skipn (Z.to_nat n) (buffer rd)) (ending rd)))) ;;;
    ret (firstn (Z.to_nat n) (buffer rd))
  else
    assign (set_reader (Some (Build_StreamReader [] (ending rd)))) ;;;
    raise (match ending rd with
           | PeerClosed => IncompleteReadError
           | PeerReset cause => OSError cause
           end).

(** [asyncio.open_connection] and [asyncio.open_unix_connection]. *)
Definition open_connection : M (StreamReader * StreamWriter) :=
  fun w =>
    match network w with
    | Some rd :: rest =>
        (Return (rd, Build_StreamWriter (opened w)),
         Build_World (conn w) (results w) rest (refusal w) (drains w)
           (S (opened w)) (clock w) (trace w ++ [Opened (opened w)]))
    | None :: rest =>
        (Raise (OSError (refusal w)),
         Build_World (conn w) (results w) rest (refusal w) (drains w)
           (opened w) (clock w) (trace w))
    | [] => (Raise (OSError (refusal w)), w)
    end.

(** [StreamWriter.drain()]: it returns once the write buffer is flushed;
    on a connection found lost it raises the reader's exception, or
    [ConnectionResetError]. *)
Definition drain : M unit :=
  fun w =>
    match drains w with
    | Some e :: rest =>
        (Raise e,
         Build_World (conn w) (results w) (network w) (refusal w) rest
           (opened w) (clock w) (trace w))
    | None :: rest =>
        (Return tt,
         Build_World (conn w) (results w) (network w) (refusal w) rest
           (opened w) (clock w) (trace w))
    | [] => (Return tt, w)
    end.

(** ** Connection: the packet framer *)

Definition MysqlPacket (data : bytes) (enc : string) : exn + Packet :=
  inr (Build_Packet data 0).

Section Framer.
Context {lib : Imports}.

(** The [while True] loop of [_read_packet]; every round takes a header
    from the reader, so the length of its buffer bounds the rounds. *)
Fixpoint read_frames (fuel : nat) (buff : bytes) : M bytes :=
  match fuel with
  | O => stuck
  | S fuel' =>
      let* packet_header := readexactly 4 in
      let packet_length_bin := py_slice_to packet_header 3 in
      (* byte2int(packet_header[3]): the sequence id, read and dropped *)
      let bin_length := packet_length_bin ++ [x00] in
      let* bytes_to_read := lift (unpack_uint 4 bin_length) in
      let* recv_data := readexactly bytes_to_read in
      let buff := buff ++ recv_data in
      if bytes_to_read <? MAX_PACKET_LEN then ret buff
      else read_frames fuel' buff
  end.

Definition pending (w : World) : nat :=
  match _reader (conn w) with
  | Some rd => length (buffer rd)
  | None => O
  end.

Definition _read_packet {P : Type} (packet_type : bytes -> string -> exn + P)
    : M P :=
  let* buff :=
    try_except
      (let* w := get in read_frames (S (pending w)) [])
      is_OSError
      (fun e =>
         raise (OperationalError 2006
                  ("MySQL server has gone away (" ++ os_error_text e ++ ")")))
  in
  modify (log (Received buff)) ;;;
  let* w := get in
  let* packet := lift (packet_type buff (encoding (settings (conn w)))) in
  match check_error (Build_Packet buff 0) with
  | Some e => raise e
  | None => ret packet
  end.

Definition _write_bytes (data : bytes) : M unit :=
  let* w := get in
  let* wr := attribute "write" (_writer (conn w)) in
  modify (log (Sent (transport wr) data)).

End Framer.

(** ** MySQLResult *)

Definition set_connection (v : option conn_ref) (r : MySQLResult) : MySQLResult :=
  Build_MySQLResult v (affected_rows r) (insert_id r) (result_server_status r)
    (warning_count r) (message r) (field_count r) (result_description r)
    (rows r) (has_next r) (unbuffered_active r) (fields r).

Definition set_result_affected_rows (v : option Z) (r : MySQLResult) : MySQLResult :=
  Build_MySQLResult (connection r) v (insert_id r) (result_server_status r)
    (warning_count r) (message r) (field_count r) (result_description r)
    (rows r) (has_next r) (unbuffered_active r) (fields r).

Definition set_insert_id (v : option Z) (r : MySQLResult) : MySQLResult :=
  Build_MySQLResult (connection r) (affected_rows r) v (result_server_status r)
    (warning_count r) (message r) (field_count r) (result_description r)
    (rows r) (has_next r) (unbuffered_active r) (fields r).

Definition set_result_server_status (v : option Z) (r : MySQLResult) : MySQLResult :=
  Build_MySQLResult (connection r) (affected_rows r) (insert_id r) v
    (warning_count r) (message r) (field_count r) (result_description r)
    (rows r) (has_next r) (unbuffered_active r) (fields r).

Definition set_warning_count (v : Z) (r : MySQLResult) : MySQLResult :=
  Build_MySQLResult (connection r) (affected_rows r) (insert_id r)
    (result_server_status r) v (message r) (field_count r)
    (result_description r) (rows r) (has_next r) (unbuffered_active r)
    (fields r).

Definition set_message (v : option bytes) (r : MySQLResult) : MySQLResult :=
  Build_MySQLResult (connection r) (affected_rows r) (insert_id r)
    (result_server_status r) (warning_count r) v (field_count r)
    (result_description r) (rows r) (has_next r) (unbuffered_active r)
    (fields r).

Definition set_field_count (v : option Z) (r : MySQLResult) : MySQLResult :=
  Build_MySQLResult (connection r) (affected_rows r) (insert_id r)
    (result_server_status r) (warning_count r) (message r) v
    (result_description r) (rows r) (has_next r) (unbuffered_active r)
    (fields r).

Definition set_description (v : option (list pyval)) (r : MySQLResult) : MySQLResult :=
  Build_MySQLResult (connection r) (affected_rows r) (insert_id r)
    (result_server_status r) (warning_count r) (message r) (field_count r)
    v (rows r) (has_next r) (unbuffered_active r) (fields r).

Definition set_rows (v : option (list (list pyval))) (r : MySQLResult) : MySQLResult :=
  Build_MySQLResult (connection r) (affected_rows r) (insert_id r)
    (result_server_status r) (warning_count r) (message r) (field_count r)
    (result_description r) v (has_next r) (unbuffered_active r) (fields r).

Definition set_has_next (v : option Z) (r : MySQLResult) : MySQLResult :=
  Build_MySQLResult (connection r) (affected_rows r) (insert_id r)
    (result_server_status r) (warning_count r) (message r) (field_count r)
    (result_description r) (rows r) v (unbuffered_active r) (fields r).

Definition set_unbuffered_active (v : bool) (r : MySQLResult) : MySQLResult :=
  Build_MySQLResult (connection r) (affected_rows r) (insert_id r)
    (result_server_status r) (warning_count r) (message r) (field_count r)
    (result_description r) (rows r) (has_next r) v (fields r).

Definition set_fields (v : option (list FieldDescriptor)) (r : MySQLResult) : MySQLResult :=
  Build_MySQLResult (connection r) (affected_rows r) (insert_id r)
    (result_server_status r) (warning_count r) (message r) (field_count r)
    (result_description r) (rows r) (has_next r) (unbuffered_active r) v.

(** The object behind a reference, and [self.attr = v] on it. *)
Definition deref (self : nat) : M MySQLResult :=
  fun w =>
    match results w !! self with
    | Some r => (Return r, w)
    | None => (Stuck, w)
    end.

Definition update (self : nat) (f : MySQLResult -> MySQLResult) : M unit :=
  modify (fun w => set_results (alter f self (results w)) w).

Module MySQLResult.
Section Methods.
Context {lib : Imports}.

(** [MySQLResult(connection)]: a new object in the store. *)
Definition __init__ : M nat :=
  fun w =>
    (Return (length (results w)),
     set_results
       (results w ++
        [Build_MySQLResult (Some TheConnection) None None None 0 None
           (Some 0) None None None false None]) w).


(** [self.connection._read_packet(...)]. *)
Definition connection_read_packet {P : Type} (self : nat)
    (packet_type : bytes -> string -> exn + P) : M P :=
  let* r := deref self in
  let* _ := attribute "_read_packet" (connection r) in
  _read_packet packet_type.

Definition _read_ok_packet (self : nat) (first_packet : Packet) : M unit :=
  let* ok_packet := lift (OKPacketWrapper first_packet) in
  update self (set_result_affected_rows (ok_affected_rows ok_packet)) ;;;
  update self (set_insert_id (ok_insert_id ok_packet)) ;;;
  update self (set_result_server_status (Some (ok_server_status ok_packet))) ;;;
  update self (set_warning_count (ok_warning_count ok_packet)) ;;;
  update self (set_message (Some (ok_message ok_packet))) ;;;
  update self (set_has_next (Some (ok_has_next ok_packet))).

Definition _check_packet_is_eof (self : nat) (packet : Packet) : M bool :=
  if is_eof_packet packet then
    let* eof_packet := lift (EOFPacketWrapper packet) in
    update self (set_warning_count (eof_warning_count eof_packet)) ;;;
    update self (set_has_next (Some (eof_has_next eof_packet))) ;;;
    ret true
  else ret false.

(** The body of the [for field in self.fields] loop for one column. *)
Definition decode_column (use_unicode : bool) (decs : gmap Z converter)
    (field : FieldDescriptor) (data : option bytes) : exn + pyval :=
  match data with
  | None => inr VNone
  | Some raw =>
      let field_type := type_code field in
      let decoded : exn + pyval :=
        if use_unicode then
          if bool_decide (field_type ∈ TEXT_TYPES) then
            match charset_by_id (charsetnr field) with
            | inl e => inl e
            | inr charset =>
                if use_unicode && negb (cs_is_binary charset) then
                  match py_decode (cs_encoding charset) raw with
                  | inr s => inr (VStr s)
                  | inl e => inl e
                  end
                else inr (VBytes raw)
            end
          else
            match py_decode "utf-8" raw with
            | inr s => inr (VStr s)
            | inl e => inl e
            end
        else inr (VBytes raw)
      in
      match decoded with
      | inl e => inl e
      | inr data =>
          match decs !! field_type with
          | Some converter => converter data
          | None => inr data
          end
      end
  end.

Fixpoint read_columns (use_unicode : bool) (decs : gmap Z converter)
    (fields : list FieldDescriptor) (packet : Packet) : exn + list pyval :=
  match fields with
  | [] => inr []
  | field :: rest =>
      match read_length_coded_string packet with
      | inl e => inl e
      | inr (data, packet') =>
          match decode_column use_unicode decs field data with
          | inl e => inl e
          | inr v =>
              match read_columns use_unicode decs rest packet' with
              | inl e => inl e
              | inr row => inr (v :: row)
              end
          end
      end
  end.

Definition _read_row_from_packet (self : nat) (packet : Packet)
    : M (list pyval) :=
  let* r := deref self in
  let* _ := attribute "use_unicode" (connection r) in
  let* w := get in
  let use_unicode := use_unicode (settings (conn w)) in
  let* fields := attribute "fields" (fields r) in
  lift (read_columns use_unicode (conn_decoders (settings (conn w)))
          fields packet).

(** [for i in range(self.field_count)] of [_get_descriptions]. *)
Fixpoint read_descriptions (self : nat) (n : nat) (description0 : list pyval)
    : M (list pyval) :=
  match n with
  | O => ret description0
  | S n' =>
      let* field := connection_read_packet self FieldDescriptorPacket in
      let* r := deref self in
      let* fs := attribute "fields" (fields r) in
      update self (set_fields (Some (fs ++ [field]))) ;;;
      read_descriptions self n' (description0 ++ [description field])
  end.

Definition _get_descriptions (self : nat) : M unit :=
  update self (set_fields (Some [])) ;;;
  let* r := deref self in
  let* count :=
    match field_count r with
    | Some n => ret n
    | None => raise (TypeError "'NoneType' object cannot be interpreted as an integer")
    end in
  let* description0 := read_descriptions self (Z.to_nat count) [] in
  let* eof_packet := connection_read_packet self MysqlPacket in
  if is_eof_packet eof_packet then
    update self (set_description (Some description0))
  else raise (AssertionError "Protocol error, expecting EOF").

(** The [while True] loop of [_read_rowdata_packet]. *)
Fixpoint read_rows (fuel : nat) (self : nat) (rows : list (list pyval))
    : M (list (list pyval)) :=
  match fuel with
  | O => stuck
  | S fuel' =>
      let* packet := connection_read_packet self MysqlPacket in
      let* eof := _check_packet_is_eof self packet in
      if eof then
        update self (set_connection None) ;;;
        ret rows
      else
        let* row := _read_row_from_packet self packet in
        read_rows fuel' self (rows ++ [row])
  end.

Definition _read_rowdata_packet (self : nat) : M unit :=
  let* w := get in
  let* rows := read_rows (S (pending w)) self [] in
  update self (set_result_affected_rows (Some (len rows))) ;;;
  update self (set_rows (Some rows)).

Definition _read_result_packet (self : nat) (first_packet : Packet) : M unit :=
  let* n := lift (read_length_encoded_integer first_packet) in
  update self (set_field_count (fst n)) ;;;
  _get_descriptions self ;;;
  _read_rowdata_packet self.

Definition read (self : nat) : M unit :=
  try_finally
    (let* first_packet := connection_read_packet self MysqlPacket in
     if is_ok_packet first_packet then _read_ok_packet self first_packet
     else _read_result_packet self first_packet)
    (update self (set_connection None)).

Definition init_unbuffered_query (self : nat) : M unit :=
  update self (set_unbuffered_active true) ;;;
  let* first_packet := connection_read_packet self MysqlPacket in
  if is_ok_packet first_packet then
    _read_ok_packet self first_packet ;;;
    update self (set_unbuffered_active false) ;;;
    update self (set_connection None)
  else
    let* n := lift (read_length_encoded_integer first_packet) in
    update self (set_field_count (fst n)) ;;;
    (* self._get_descriptions() without yield from: the coroutine object
       is built and dropped, its body never runs *)
    let _coroutine := _get_descriptions self in
    update self (set_result_affected_rows (Some 18446744073709551615)).

Definition _read_rowdata_packet_unbuffered (self : nat)
    : M (option (list pyval)) :=
  let* r := deref self in
  if negb (unbuffered_active r) then ret None
  else
    let* packet := connection_read_packet self MysqlPacket in
    let* eof := _check_packet_is_eof self packet in
    if eof then
      update self (set_unbuffered_active false) ;;;
      update self (set_connection None) ;;;
      update self (set_rows None) ;;;
      ret None
    else
      let* row := _read_row_from_packet self packet in
      update self (set_result_affected_rows (Some 1)) ;;;
      update self (set_rows (Some [row])) ;;;
      ret (Some row).

(** The [while self.unbuffered_active] loop of [_finish_unbuffered_query]. *)
Fixpoint finish_loop (fuel : nat) (self : nat) : M unit :=
  match fuel with
  | O => stuck
  | S fuel' =>
      let* r := deref self in
      if unbuffered_active r then
        let* packet := connection_read_packet self MysqlPacket in
        let* eof := _check_packet_is_eof self packet in
        (if eof then
           update self (set_unbuffered_active false) ;;;
           update self (set_connection None)
         else ret tt) ;;;
        finish_loop fuel' self
      else ret tt
  end.

Definition _finish_unbuffered_query (self : nat) : M unit :=
  let* w := get in
  finish_loop (S (S (pending w))) self.

End Methods.
End MySQLResult.

(** ** Connection *)

(** The keyword arguments of [Connection(...)]. *)
Record InitArgs : Type := {
  arg_host : string;
  arg_user : option string;
  arg_password : option string;
  arg_db : option string;
  arg_port : Z;
  arg_unix_socket : option string;
  arg_charset : string;
  arg_sql_mode : option string;
  arg_read_default_file : option string;
  arg_conv : gmap Z converter;
  arg_use_unicode : option bool;
  arg_client_flag : Z;
  arg_init_command : option string;
  arg_connect_timeout : option Z;
  arg_read_default_group : option string;
  arg_no_delay : bool;
  arg_autocommit : option bool
}.

(** Python truth of a [str] that may be [None]. *)
Definition truthy_str (v : option string) : bool :=
  match v with
  | Some s => negb (String.eqb s EmptyString)
  | None => false
  end.

(** [s.replace("'", "''")]. *)
Fixpoint double_quotes (s : string) : string :=
  match s with
  | EmptyString => EmptyString
  | String c r =>
      if Ascii.eqb c "'"%char then String c (String c (double_quotes r))
      else String c (double_quotes r)
  end.

(** ["%d" % n]. *)
Definition format_d (n : Z) : string :=
  DecimalString.NilZero.string_of_int (Z.to_int n).

Module Connection.
Section Methods.
Context {lib : Imports}.

(** The local [_config(key, default)]: the value of the configuration
    file when one was read and has the key, the argument otherwise. *)
Definition _config {A : Type} (overrides : option (string -> option string))
    (key : string) (dflt : A) (inj : string -> A) : A :=
  match overrides with
  | Some cfg => match cfg key with Some v => inj v | None => dflt end
  | None => dflt
  end.

Definition __init__ (a : InitArgs) : exn + Connection :=
  (* sys.version_info[0] > 2 *)
  let use_unicode0 :=
    match arg_use_unicode a with None => Some true | v => v end in
  let read_default_file :=
    if truthy_str (arg_read_default_group a)
       && negb (truthy_str (arg_read_default_file a))
    then Some (if platform_win then "c:\my.ini" else "/etc/my.cnf")%string
    else arg_read_default_file a in
  let overrides : option (string -> option string) :=
    if truthy_str read_default_file then
      let read_default_group :=
        if negb (truthy_str (arg_read_default_group a)) then "client"%string
        else default ""%string (arg_read_default_group a) in
      Some (config_get (default ""%string read_default_file) read_default_group)
    else None in
  let user0 := _config overrides "user"%string (arg_user a) Some in
  let password0 := _config overrides "password"%string (arg_password a) Some in
  let host0 := _config overrides "host"%string (arg_host a) id in
  let db0 := _config overrides "database"%string (arg_db a) Some in
  let unix_socket0 :=
    _config overrides "socket"%string (arg_unix_socket a) Some in
  match _config overrides "port"%string (inr (arg_port a)) py_int with
  | inl e => inl e
  | inr port0 =>
      let charset0 :=
        _config overrides "default-character-set"%string (arg_charset a) id in
      let self_user := if truthy_str user0 then user0 else Some DEFAULT_USER in
      let self_password :=
        if truthy_str password0 then default ""%string password0
        else ""%string in
      let self_charset :=
        if negb (String.eqb charset0 "") then charset0 else DEFAULT_CHARSET in
      let self_use_unicode :=
        match use_unicode0 with
        | Some u => u
        | None => negb (String.eqb charset0 "")
        end in
      match charset_by_name self_charset with
      | None => inl (AttributeError "encoding")
      | Some cs =>
          let client_flag0 :=
            Z.lor (Z.lor (arg_client_flag a) CAPABILITIES) MULTI_STATEMENTS in
          let client_flag1 :=
            if truthy_str db0 then Z.lor client_flag0 CONNECT_WITH_DB
            else client_flag0 in
          inr (Build_Connection
                 (Build_Settings host0 port0 self_password (arg_no_delay a)
                    unix_socket0 self_charset self_use_unicode
                    (cs_encoding cs) (arg_connect_timeout a) (arg_sql_mode a)
                    (arg_init_command a) (arg_conv a))
                 (option_map Str self_user) (option_map Str db0) client_flag1
                 None (Some 0) "Not connected"%string (arg_autocommit a)
                 None None
                 (Build_Handshake None None None None None None None None)
                 None)
      end
  end.

Definition close : M unit :=
  let* w := get in
  let* wr := attribute "transport" (_writer (conn w)) in
  modify (log (Closed (transport wr))) ;;;
  assign (set_writer None).

Definition open : M bool :=
  let* w := get in ret (truthy (_writer (conn w))).

Definition assign_server_status (v : Z) : M unit :=
  assign (fun c => set_handshake (set_server_status (Some v) (handshake c)) c).

Definition get_autocommit : M bool :=
  let* w := get in
  let* st := attribute "server_status" (server_status (handshake (conn w))) in
  ret (negb (Z.land st SERVER_STATUS_AUTOCOMMIT =? 0)).

Definition _read_ok_packet : M bool :=
  let* pkt := _read_packet MysqlPacket in
  if negb (is_ok_packet pkt) then
    raise (OperationalError 2014 "Command Out of Sync")
  else
    let* ok := lift (OKPacketWrapper pkt) in
    assign_server_status (ok_server_status ok) ;;;
    ret true.

(** The [while True] loop of [_execute_command]: the continuation
    frames of an oversized command. *)
Fixpoint send_rest (fuel : nat) (seq_id : Z) (sql : bytes) : M unit :=
  match fuel with
  | O => stuck
  | S fuel' =>
      let chunk_size := Z.min MAX_PACKET_LEN (len sql) in
      let* packed := lift (pack_i32 chunk_size) in
      let prelude := py_slice_to packed 3 in
      let* seq := lift (int2byte (seq_id mod 256)) in
      let data := prelude ++ seq ++ py_slice_to sql chunk_size in
      _write_bytes data ;;;
      let sql := py_slice_from sql chunk_size in
      if Nat.eqb (length sql) 0 && (chunk_size <? MAX_PACKET_LEN) then ret tt
      else send_rest fuel' (seq_id + 1) sql
  end.

(** The second half of [_execute_command]: the command is encoded and
    written, in one frame or in several. *)
Definition send_command (command : Z) (sql : text) : M unit :=
  let* w := get in
  let* sql :=
    match sql with
    | Str s => lift (py_encode (encoding (settings (conn w))) s)
    | Bytes b => ret b
    end in
  let chunk_size := Z.min MAX_PACKET_LEN (len sql + 1) in  (* +1 is for command *)
  let* packed := lift (pack_i32 chunk_size) in
  let* cmd := lift (int2byte command) in
  let prelude := packed ++ cmd in
  _write_bytes (prelude ++ py_slice_to sql (chunk_size - 1)) ;;;
  if chunk_size <? MAX_PACKET_LEN then ret tt
  else
    let seq_id := 1 in
    let sql := py_slice_from sql (chunk_size - 1) in
    send_rest (S (length sql)) seq_id sql.

Definition _execute_command (command : Z) (sql : text) : M unit :=
  let* w := get in
  if negb (truthy (_writer (conn w))) then
    raise (InterfaceError "(0, 'Not connected')")
  else
    (* If the last query was unbuffered, make sure it finishes before
       sending new commands *)
    match _result (conn w) with
    | Some result =>
        let* r := deref result in
        if unbuffered_active r then MySQLResult._finish_unbuffered_query result
        else ret tt
    | None => ret tt
    end ;;;
    send_command command sql.

Definition _read_query_result (unbuffered : bool) : M unit :=
  let* result :=
    if unbuffered then
      let* result := MySQLResult.__init__ in
      try_except (MySQLResult.init_unbuffered_query result)
        (fun _ => true)
        (fun e =>
           update result (set_unbuffered_active false) ;;;
           update result (set_connection None) ;;;
           raise e) ;;;
      ret result
    else
      let* result := MySQLResult.__init__ in
      MySQLResult.read result ;;;
      ret result
  in
  assign (set_result (Some result)) ;;;
  let* r := deref result in
  assign (set_affected_rows (affected_rows r)) ;;;
  match result_server_status r with
  | Some st => assign_server_status st
  | None => ret tt
  end.

Definition query (sql : text) (unbuffered : bool) : M (option Z) :=
  _execute_command COM_QUERY sql ;;;
  _read_query_result unbuffered ;;;
  let* w := get in ret (_affected_rows (conn w)).

Definition next_result : M (option Z) :=
  _read_query_result false ;;;
  let* w := get in ret (_affected_rows (conn w)).

Definition escape_string_ (s : string) : M string :=
  let* w := get in
  let* st := attribute "server_status" (server_status (handshake (conn w))) in
  if negb (Z.land st SERVER_STATUS_NO_BACKSLASH_ESCAPES =? 0)
  then ret (double_quotes s)
  else ret (escape_string s).

Definition escape (obj : pyval) : M string :=
  match obj with
  | VStr s => let* e := escape_string_ s in ret ("'" ++ e ++ "'")%string
  | _ => let* w := get in lift (escape_item obj (charset (settings (conn w))))
  end.

Definition _send_autocommit_mode : M unit :=
  let* w := get in
  let mode :=
    match autocommit_mode (conn w) with
    | Some b => VBool b
    | None => VNone
    end in
  let* e := escape mode in
  _execute_command COM_QUERY (Str ("SET AUTOCOMMIT = " ++ e)) ;;;
  _read_ok_packet ;;; ret tt.

Definition autocommit (value : bool) : M unit :=
  assign (set_autocommit_mode (Some value)) ;;;
  let* current := get_autocommit in
  if negb (Bool.eqb value current) then _send_autocommit_mode else ret tt.

Definition begin : M unit :=
  _execute_command COM_QUERY (Str "BEGIN") ;;; _read_ok_packet ;;; ret tt.

Definition commit : M unit :=
  _execute_command COM_QUERY (Str "COMMIT") ;;; _read_ok_packet ;;; ret tt.

Definition rollback : M unit :=
  _execute_command COM_QUERY (Str "ROLLBACK") ;;; _read_ok_packet ;;; ret tt.

Definition select_db (db : text) : M unit :=
  _execute_command COM_INIT_DB db ;;; _read_ok_packet ;;; ret tt.

Definition kill (thread_id : Z) : M unit :=
  let* arg := lift (pack_u32 thread_id) in
  _execute_command COM_PROCESS_KILL (Bytes arg) ;;; _read_ok_packet ;;; ret tt.


Definition assign_handshake (f : Handshake -> Handshake) : M unit :=
  assign (fun c => set_handshake (f (handshake c)) c).

Definition _get_server_information : M unit :=
  let i := 0 in
  let* packet := _read_packet MysqlPacket in
  let data := pk_data packet in
  let* v := lift (byte2int (py_slice data i (i + 1))) in
  assign_handshake (fun h =>
    Build_Handshake (Some v) (server_version h) (server_thread_id h) (salt h)
      (server_capabilities h) (server_language h) (server_charset h)
      (server_status h)) ;;;
  let i := i + 1 in

  let server_end := py_find data x00 i in
  assign_handshake (fun h =>
    Build_Handshake (protocol_version h)
      (Some (decode_latin1 (py_slice data i server_end)))
      (server_thread_id h) (salt h) (server_capabilities h)
      (server_language h) (server_charset h) (server_status h)) ;;;
  let i := server_end + 1 in

  let* tid := lift (unpack_uint 4 (py_slice data i (i + 4))) in
  assign_handshake (fun h =>
    Build_Handshake (protocol_version h) (server_version h) (Some tid)
      (salt h) (server_capabilities h) (server_language h) (server_charset h)
      (server_status h)) ;;;
  let i := i + 4 in

  assign_handshake (fun h =>
    Build_Handshake (protocol_version h) (server_version h)
      (server_thread_id h) (Some (py_slice data i (i + 8)))
      (server_capabilities h) (server_language h) (server_charset h)
      (server_status h)) ;;;
  let i := i + 9 in  (* 8 + 1(filler) *)

  let* caps := lift (unpack_uint 2 (py_slice data i (i + 2))) in
  assign_handshake (fun h =>
    Build_Handshake (protocol_version h) (server_version h)
      (server_thread_id h) (salt h) (Some caps) (server_language h)
      (server_charset h) (server_status h)) ;;;
  let i := i + 2 in

  (* [salt_len] is a local that only the branch below binds *)
  let* branch :=
    if len data >=? i + 6 then
      let* t := lift (unpack_BHHB (py_slice data i (i + 6))) in
      let '(lang, stat, cap_h, salt_len) := t in
      let i := i + 6 in
      assign_handshake (fun h =>
        Build_Handshake (protocol_version h) (server_version h)
          (server_thread_id h) (salt h) (server_capabilities h) (Some lang)
          (server_charset h) (server_status h)) ;;;
      let* cs := lift (charset_by_id lang) in
      assign_handshake (fun h =>
        Build_Handshake (protocol_version h) (server_version h)
          (server_thread_id h) (salt h) (server_capabilities h)
          (server_language h) (Some (cs_name cs)) (server_status h)) ;;;
      assign_server_status stat ;;;
      assign_handshake (fun h =>
        Build_Handshake (protocol_version h) (server_version h)
          (server_thread_id h) (salt h)
          (Some (Z.lor caps (Z.shiftl cap_h 16))) (server_language h)
          (server_charset h) (server_status h)) ;;;
      ret (i, Some (Z.max 12 (salt_len - 9)))
    else ret (i, None) in
  let '(i, salt_len) := branch in

  (* reserved *)
  let i := i + 10 in

  let* salt_len :=
    match salt_len with
    | Some n => ret n
    | None => raise (UnboundLocalError "salt_len")
    end in
  if len data >=? i + salt_len then
    (* salt_len includes auth_plugin_data_part_1 and filler *)
    let* w := get in
    let* salt0 := attribute "salt" (salt (handshake (conn w))) in
    assign_handshake (fun h =>
      Build_Handshake (protocol_version h) (server_version h)
        (server_thread_id h) (Some (salt0 ++ py_slice data i (i + salt_len)))
        (server_capabilities h) (server_language h) (server_charset h)
        (server_status h))
  else ret tt.

Definition _request_authentication : M unit :=
  assign (fun c => set_client_flag (Z.lor (client_flag c) CAPABILITIES) c) ;;;
  let* w := get in
  let* version :=
    attribute "server_version" (server_version (handshake (conn w))) in
  (if String.prefix "5" version then
     assign (fun c => set_client_flag (Z.lor (client_flag c) MULTI_RESULTS) c)
   else ret tt) ;;;

  let* w := get in
  match user (conn w) with
  | None => raise (ValueError "Did not specify a username")
  | Some user0 =>
      let* charset_id :=
        attribute "id"
          (option_map cs_id (charset_by_name (charset (settings (conn w))))) in
      let* user1 :=
        match user0 with
        | Str s =>
            let* b := lift (py_encode (encoding (settings (conn w))) s) in
            assign (set_user (Some (Bytes b))) ;;; ret b
        | Bytes b => ret b
        end in

      let* w := get in
      let* flags := lift (pack_i32 (client_flag (conn w))) in
      let* one := lift (pack_u32 1) in
      let* cs := lift (int2byte charset_id) in
      let* zero := lift (int2byte 0) in
      let data_init := flags ++ one ++ cs ++ concat (repeat zero 23) in

      let next_packet := 1 in

      let* salt0 := attribute "salt" (salt (handshake (conn w))) in
      let data :=
        data_init ++ user1 ++ [x00] ++
        _scramble (encode_latin1 (password (settings (conn w)))) salt0 in

      let* data :=
        if nonempty (db (conn w)) then
          let* db1 :=
            match db (conn w) with
            | Some (Str s) =>
                let* b := lift (py_encode (encoding (settings (conn w))) s) in
                assign (set_db (Some (Bytes b))) ;;; ret b
            | Some (Bytes b) => ret b
            | None => ret []
            end in
          ret (data ++ db1 ++ zero)
        else ret data in

      let* size := lift (pack_int24 (len data)) in
      let* seq := lift (int2byte next_packet) in
      let data := size ++ seq ++ data in
      let next_packet := next_packet + 2 in
      _write_bytes data ;;;

      let* auth_packet := _read_packet MysqlPacket in

      (* if old_passwords is enabled the packet will be 1 byte long and
         have the octet 254 *)
      if is_eof_packet auth_packet then
        (* send legacy handshake *)
        let* w := get in
        let* salt1 := attribute "salt" (salt (handshake (conn w))) in
        let data :=
          _scramble_323 (encode_latin1 (password (settings (conn w)))) salt1
          ++ [x00] in
        let* size := lift (pack_int24 (len data)) in
        let* seq := lift (int2byte next_packet) in
        let data := size ++ seq ++ data in
        _write_bytes data ;;;
        (* auth_packet = self._read_packet() without yield from: the
           coroutine object is built and dropped *)
        let _coroutine := _read_packet MysqlPacket in
        ret tt
      else ret tt
  end.

Definition connect : M unit :=
  try_except
    (let* w := get in
     let cfg := settings (conn w) in
     (if truthy_str (unix_socket cfg)
         && (String.eqb (host cfg) "localhost"
             || String.eqb (host cfg) "127.0.0.1")
      then
        let* rw := open_connection in
        assign (set_reader (Some (fst rw))) ;;;
        assign (set_writer (Some (snd rw))) ;;;
        assign (set_host_info
                  ("Localhost via UNIX socket: "
                   ++ default "" (unix_socket cfg))%string)
      else
        let* rw := open_connection in
        assign (set_reader (Some (fst rw))) ;;;
        assign (set_writer (Some (snd rw))) ;;;
        assign (set_host_info
                  ("socket " ++ host cfg ++ ":" ++ format_d (port cfg))%string)) ;;;
     _get_server_information ;;;
     _request_authentication ;;;

     let* w := get in
     assign (set_connected_time (Some (clock w))) ;;;

     match sql_mode cfg with
     | Some mode => query (Str ("SET sql_mode=" ++ mode)) false ;;; ret tt
     | None => ret tt
     end ;;;

     match init_command cfg with
     | Some command => query (Str command) false ;;; commit
     | None => ret tt
     end ;;;

     let* w := get in
     match autocommit_mode (conn w) with
     | Some mode => autocommit mode
     | None => ret tt
     end)
    is_OSError
    (fun e =>
       assign (set_reader None) ;;;
       assign (set_writer None) ;;;
       let* w := get in
       raise (OperationalError 2003
                ("Can't connect to MySQL server on "
                 ++ py_repr (host (settings (conn w)))
                 ++ " (" ++ os_error_text e ++ ")")))%string.

(** [ping] calls itself once, with [reconnect=False]; [depth] bounds the
    nesting of the calls. *)
Fixpoint ping_at (depth : nat) (reconnect : bool) : M unit :=
  match depth with
  | O => stuck
  | S depth' =>
      let* w := get in
      let* reconnect :=
        if truthy (_writer (conn w)) && negb (truthy (_reader (conn w))) then
          if reconnect then connect ;;; ret false
          else raise (MySQLError "Already closed")
        else ret reconnect in
      try_except
        (_execute_command COM_PING (Str "") ;;; _read_ok_packet ;;; ret tt)
        (fun _ => true)
        (fun e =>
           if reconnect then connect ;;; ping_at depth' false
           else raise e)
  end.

Definition ping (reconnect : bool) : M unit := ping_at 2 reconnect.

(** [close_async]: the quit message is written and drained, then the
    transport is closed; no reply is awaited. *)
Definition close_async : M unit :=
  let* packed := lift (pack_i32 1) in
  let* cmd := lift (int2byte COM_QUIT) in
  let send_data := packed ++ cmd in
  let* w := get in
  let* wr := attribute "write" (_writer (conn w)) in
  modify (log (Sent (transport wr) send_data)) ;;;
  let* w := get in
  let* _ := attribute "drain" (_writer (conn w)) in
  drain ;;;
  close.

Definition literal (obj : pyval) : M string := escape obj.

Definition set_charset (charset : string) : M unit :=
  (* Make sure charset is supported. *)
  let* encoding :=
    attribute "encoding" (option_map cs_encoding (charset_by_name charset)) in
  let* e := escape (VStr charset) in
  _execute_command COM_QUERY (Str ("SET NAMES " ++ e)) ;;;
  let* _ := _read_packet MysqlPacket in
  assign (fun c => set_settings (set_charset_name charset (settings c)) c) ;;;
  assign (fun c => set_settings (set_encoding encoding (settings c)) c).

Definition thread_id : M Z :=
  let* w := get in
  attribute "server_thread_id" (server_thread_id (handshake (conn w))).

Definition character_set_name : M string :=
  let* w := get in ret (charset (settings (conn w))).

Definition get_host_info : M string :=
  let* w := get in ret (host_info (conn w)).

Definition get_proto_info : M Z :=
  let* w := get in
  attribute "protocol_version" (protocol_version (handshake (conn w))).

Definition get_server_info : M string :=
  let* w := get in
  attribute "server_version" (server_version (handshake (conn w))).

(** [affected_rows()] and [insert_id()]: the counters of the last
    result.  A result object is always true, so [insert_id] is 0 only
    while there has been no result. *)
Definition affected_rows : M (option Z) :=
  let* w := get in ret (_affected_rows (conn w)).

Definition insert_id : M (option Z) :=
  let* w := get in
  match _result (conn w) with
  | Some result => let* r := deref result in ret (insert_id r)
  | None => ret (Some 0)
  end.

End Methods.
End Connection.

(** The module's [connect(...)]: the Connection is constructed and
    connected, and returned once connected. *)
Definition connect `{Imports} (a : InitArgs) : M Connection :=
  let* c := lift (Connection.__init__ a) in
  modify (set_conn c) ;;;
  Connection.connect ;;;
  let* w := get in ret (conn w).

(** ** A reference instance of the imports

    PyMySQL's packet layer as the wire format describes it, with small
    character-set and converter tables.  The closed examples below run
    the module against it. *)

Module Reference.

Definition first_byte_is (b : byte) (p : Packet) : bool :=
  match py_slice (pk_data p) 0 1 with
  | [x] => Byte.eqb x b
  | _ => false
  end.

(** [MysqlPacket.read(size)]. *)
Definition read (p : Packet) (size : Z) : exn + (bytes * Packet) :=
  let result := py_slice (pk_data p) (pk_position p) (pk_position p + size) in
  if len result =? size
  then inr (result, Build_Packet (pk_data p) (pk_position p + size))
  else inl (AssertionError "Result length not requested length").

Definition advance (p : Packet) (length : Z) : exn + Packet :=
  let new_position := pk_position p + length in
  if (new_position <? 0) || (len (pk_data p) <? new_position)
  then inl (AssertionError "Invalid advance amount")
  else inr (Build_Packet (pk_data p) new_position).

Definition read_uint (p : Packet) (width : Z) : exn + (Z * Packet) :=
  match read p width with
  | inr (b, p') => inr (le_value b, p')
  | inl e => inl e
  end.

Definition is_ok_packet (p : Packet) : bool := first_byte_is x00 p.

Definition is_eof_packet (p : Packet) : bool :=
  (len (pk_data p) <? 9) && first_byte_is xfe p.

Definition is_error_packet (p : Packet) : bool := first_byte_is xff p.

Definition check_error (p : Packet) : option exn :=
  if is_error_packet p then
    match read (Build_Packet (pk_data p) 1) 2 with
    | inr _ => Some (DatabaseError (pk_data p))
    | inl e => Some e
    end
  else None.

Definition read_length_encoded_integer (p : Packet)
    : exn + (option Z * Packet) :=
  match read p 1 with
  | inl e => inl e
  | inr (b, p1) =>
      let c := le_value b in
      if c =? 251 then inr (None, p1)
      else if c <? 251 then inr (Some c, p1)
      else
        let width :=
          if c =? 252 then Some 2
          else if c =? 253 then Some 3
          else if c =? 254 then Some 8
          else None in
        match width with
        | None => inr (None, p1)
        | Some n =>
            match read_uint p1 n with
            | inr (v, p2) => inr (Some v, p2)
            | inl e => inl e
            end
        end
  end.

Definition read_length_coded_string (p : Packet)
    : exn + (option bytes * Packet) :=
  match read_length_encoded_integer p with
  | inl e => inl e
  | inr (None, p1) => inr (None, p1)
  | inr (Some length, p1) =>
      match read p1 length with
      | inr (b, p2) => inr (Some b, p2)
      | inl e => inl e
      end
  end.

Definition SERVER_MORE_RESULTS_EXISTS : Z := 8.

Definition OKPacketWrapper (p : Packet) : exn + OKPacket :=
  if negb (is_ok_packet p) then
    inl (ValueError "Cannot create OKPacketWrapper object from invalid packet type")
  else
    match advance p 1 with
    | inl e => inl e
    | inr p0 =>
    match read_length_encoded_integer p0 with
    | inl e => inl e
    | inr (affected, p1) =>
    match read_length_encoded_integer p1 with
    | inl e => inl e
    | inr (ins, p2) =>
    match read_uint p2 2 with
    | inl e => inl e
    | inr (status, p3) =>
    match read_uint p3 2 with
    | inl e => inl e
    | inr (warnings, p4) =>
        inr (Build_OKPacket affected ins status warnings
               (py_slice_from (pk_data p4) (pk_position p4))
               (Z.land status SERVER_MORE_RESULTS_EXISTS))
    end end end end end.

(** [struct.unpack('<h', ...)]: two bytes as a signed integer. *)
Definition signed16 (v : Z) : Z := if v <? 32768 then v else v - 65536.

Definition EOFPacketWrapper (p : Packet) : exn + EOFPacket :=
  if negb (is_eof_packet p) then
    inl (ValueError "Cannot create EOFPacketWrapper object from invalid packet type")
  else
    match advance p 1 with
    | inl e => inl e
    | inr p0 =>
    match read_uint p0 2 with
    | inl e => inl e
    | inr (warnings, p1) =>
    match read_uint p1 2 with
    | inl e => inl e
    | inr (status, p2) =>
        inr (Build_EOFPacket (signed16 warnings)
               (Z.land (signed16 status) SERVER_MORE_RESULTS_EXISTS))
    end end end.

(** The codecs: latin1 is total; ASCII text decodes to itself under
    every other codec, and a byte above 0x7f, which would start a
    multi-byte sequence outside the 8-bit strings used here, is
    reported as a decoding error. *)
Definition is_latin1 (enc : string) : bool :=
  String.eqb enc "latin1" || String.eqb enc "latin-1".

Definition all_ascii (b : bytes) : bool :=
  forallb (fun x => Z_of_byte x <? 128) b.

Definition py_decode (enc : string) (b : bytes) : exn + string :=
  if is_latin1 enc || all_ascii b then inr (string_of_list_byte b)
  else inl (UnicodeError "can't decode byte").

Definition py_encode (enc : string) (s : string) : exn + bytes :=
  if is_latin1 enc || all_ascii (list_byte_of_string s)
  then inr (list_byte_of_string s)
  else inl (UnicodeError "can't encode character").

Definition text_column (p : Packet) (enc : string) : exn + (string * Packet) :=
  match read_length_coded_string p with
  | inl e => inl e
  | inr (None, _) => inl (AttributeError "decode")
  | inr (Some b, p') =>
      match py_decode enc b with
      | inr s => inr (s, p')
      | inl e => inl e
      end
  end.

Definition FieldDescriptorPacket (data : bytes) (enc : string)
    : exn + FieldDescriptor :=
  let p := Build_Packet data 0 in
  match read_length_coded_string p with          (* catalog *)
  | inl e => inl e
  | inr (_, p) =>
  match read_length_coded_string p with          (* db *)
  | inl e => inl e
  | inr (_, p) =>
  match text_column p enc with                   (* table_name *)
  | inl e => inl e
  | inr (table_name, p) =>
  match text_column p enc with                   (* org_table *)
  | inl e => inl e
  | inr (_, p) =>
  match text_column p enc with                   (* name *)
  | inl e => inl e
  | inr (name, p) =>
  match text_column p enc with                   (* org_name *)
  | inl e => inl e
  | inr (_, p) =>
  match advance p 1 with                         (* non-null filler *)
  | inl e => inl e
  | inr p =>
  match read_uint p 2 with
  | inl e => inl e
  | inr (charsetnr, p) =>
  match read_uint p 4 with
  | inl e => inl e
  | inr (length, p) =>
  match read_uint p 1 with
  | inl e => inl e
  | inr (type_code, p) =>
  match read_uint p 2 with
  | inl e => inl e
  | inr (flags, p) =>
  match read_uint p 1 with
  | inl e => inl e
  | inr (scale, p) =>
  match advance p 2 with                         (* filler *)
  | inl e => inl e
  | inr _ =>
      inr (Build_FieldDescriptor table_name name charsetnr length type_code
             flags scale)
  end end end end end end end end end end end end end.

Definition VAR_STRING : Z := 253.

Definition MBLENGTH (charsetnr : Z) : Z :=
  if charsetnr =? 8 then 1
  else if charsetnr =? 33 then 3
  else if (charsetnr =? 88) || (charsetnr =? 91) then 2
  else 1.

Definition get_column_length (f : FieldDescriptor) : Z :=
  if type_code f =? VAR_STRING then fd_length f / MBLENGTH (charsetnr f)
  else fd_length f.

Definition description (f : FieldDescriptor) : pyval :=
  VTuple [VStr (fd_name f); VInt (type_code f); VNone;
          VInt (get_column_length f); VInt (get_column_length f);
          VInt (fd_scale f); VBool (fd_flags f mod 2 =? 0)].

Definition TEXT_TYPES : list Z := [16; 252; 251; 250; 254; 249; 253; 15].

Definition latin1_swedish_ci : Charset := Build_Charset 8 "latin1" "latin1" false.
Definition utf8_general_ci : Charset := Build_Charset 33 "utf8" "utf8" false.
Definition binary : Charset := Build_Charset 63 "binary" "binary" true.

Definition charset_by_id (id : Z) : exn + Charset :=
  if id =? 8 then inr latin1_swedish_ci
  else if id =? 33 then inr utf8_general_ci
  else if id =? 63 then inr binary
  else inl (KeyError "charset id").

Definition charset_by_name (name : string) : option Charset :=
  if String.eqb name "latin1" then Some latin1_swedish_ci
  else if String.eqb name "utf8" then Some utf8_general_ci
  else if String.eqb name "binary" then Some binary
  else None.

(** [int(s)] on a run of decimal digits after an optional sign. *)
Fixpoint digits (s : string) (acc : Z) : option Z :=
  match s with
  | EmptyString => Some acc
  | String c r =>
      let d := Z.of_N (N_of_ascii c) - 48 in
      if (0 <=? d) && (d <=? 9) then digits r (10 * acc + d) else None
  end.

Definition unsigned (s : string) : option Z :=
  match s with
  | EmptyString => None
  | _ => digits s 0
  end.

Definition py_int (s : string) : exn + Z :=
  let parsed :=
    match s with
    | String c r =>
        if Ascii.eqb c "-" then option_map Z.opp (unsigned r)
        else if Ascii.eqb c "+" then unsigned r
        else unsigned s
    | EmptyString => None
    end in
  match parsed with
  | Some n => inr n
  | None => inl (ValueError "invalid literal for int()")
  end.

(** The converter of FIELD_TYPE.LONG. *)
Definition convert_int : converter :=
  fun v =>
    match v with
    | VStr s => match py_int s with inr n => inr (VInt n) | inl e => inl e end
    | VBytes b =>
        match py_int (string_of_list_byte b) with
        | inr n => inr (VInt n)
        | inl e => inl e
        end
    | _ => inl (TypeError "int() argument")
    end.

Definition decoders : gmap Z converter := {[ 3 := convert_int ]}.

Definition escape_item (v : pyval) (charset : string) : exn + string :=
  match v with
  | VBool true => inr "1"%string
  | VBool false => inr "0"%string
  | VNone => inr "NULL"%string
  | VInt n => inr (format_d n)
  | _ => inl (KeyError "encoder")
  end.

(** Stand-ins for the SHA1 challenge response and for the 323 one, of
    which they keep the length: the empty password scrambles to the
    single byte 0, any other to the length byte 20 and twenty bytes;
    the 323 response has one byte per byte of the first eight of the
    message. *)
Definition _scramble (password message : bytes) : bytes :=
  match password with
  | [] => [x00]
  | _ => x14 :: repeat x00 20
  end.

Definition _scramble_323 (password message : bytes) : bytes :=
  repeat x00 (Nat.min 8 (length message)).

Definition PROTOCOL_CAPABILITIES : Z := 41477.

Definition escape_string (s : string) : string := s.

Definition config_get (file group key : string) : option string := None.

(** [repr(s)] of a str of Latin-1 characters: the quote is the double
    one when [s] holds a single quote and no double one; backslash, the
    quote and the characters that are not printable are escaped. *)
Definition hex_digit (n : N) : ascii :=
  ascii_of_N (if (n <? 10)%N then 48 + n else 87 + n)%N.

Definition backslash : ascii := ascii_of_N 92.
Definition single_quote : ascii := ascii_of_N 39.
Definition double_quote : ascii := ascii_of_N 34.

Definition escaped (c : ascii) : string :=
  String backslash (String c EmptyString).

Definition repr_char (quote c : ascii) : string :=
  let n := N_of_ascii c in
  if Ascii.eqb c backslash then escaped backslash
  else if Ascii.eqb c quote then escaped quote
  else if (n =? 9)%N then escaped "t"
  else if (n =? 10)%N then escaped "n"
  else if (n =? 13)%N then escaped "r"
  else if (n <? 32)%N || ((126 <? n)%N && (n <? 161)%N) || (n =? 173)%N
  then String backslash
         (String "x" (String (hex_digit (n / 16))
                        (String (hex_digit (n mod 16)) EmptyString)))
  else String c EmptyString.

Fixpoint repr_body (quote : ascii) (s : string) : string :=
  match s with
  | EmptyString => EmptyString
  | String c r => (repr_char quote c ++ repr_body quote r)%string
  end.

Fixpoint has_char (c : ascii) (s : string) : bool :=
  match s with
  | EmptyString => false
  | String x r => Ascii.eqb x c || has_char c r
  end.

Definition py_repr (s : string) : string :=
  let quote : ascii :=
    if has_char single_quote s && negb (has_char double_quote s)
    then double_quote else single_quote in
  String quote (repr_body quote s ++ String quote EmptyString).

#[export] Instance imports : Imports :=
  Build_Imports is_ok_packet is_eof_packet check_error
    read_length_encoded_integer read_length_coded_string
    OKPacketWrapper EOFPacketWrapper FieldDescriptorPacket description
    TEXT_TYPES "latin1" charset_by_id charset_by_name decoders escape_item
    _scramble _scramble_323
    PROTOCOL_CAPABILITIES 65536 131072 8 2 512 escape_string
    py_decode py_encode py_repr py_int "root" config_get false.

End Reference.

(** ** Vocabulary of the properties *)

(** The world after the reader's buffer became [b], after the events
    [es] were logged, and after the result store became [rs]. *)
Definition with_buffer (b : bytes) (w : World) : World :=
  match _reader (conn w) with
  | Some rd =>
      set_conn (set_reader (Some (Build_StreamReader b (ending rd))) (conn w)) w
  | None => w
  end.

Definition logs (es : list event) (w : World) : World :=
  Build_World (conn w) (results w) (network w) (refusal w) (drains w)
    (opened w) (clock w) (trace w ++ es).

(** What a computation establishes from [w]: a predicate on its outcome
    and on the world it leaves. *)
Definition spec {A : Type} (m : M A) (w : World)
    (Q : outcome A -> World -> Prop) : Prop :=
  Q (m w).1 (m w).2.

(** The frames of a payload made of [n] chunks of the maximum size: one
    frame per chunk, numbered from [seq_id], and the closing empty one. *)
Fixpoint full_frames (n : nat) (seq_id : Z) (p : bytes) : list bytes :=
  match n with
  | O => [le_bytes 3 0 ++ [byte_of_Z seq_id]]
  | S n' =>
      (le_bytes 3 MAX_PACKET_LEN ++ [byte_of_Z seq_id]
       ++ firstn (Z.to_nat MAX_PACKET_LEN) p)
      :: full_frames n' (seq_id + 1) (skipn (Z.to_nat MAX_PACKET_LEN) p)
  end.

(** No streaming result of the Connection is waiting to be drained. *)
Definition idle (w : World) : Prop :=
  match _result (conn w) with
  | Some a => exists r, results w !! a = Some r /\ unbuffered_active r = false
  | None => True
  end.

(** Concrete servers and connections for the closed examples. *)
Module Sample.

(** One frame as the server sends it. *)
Definition frame (seq_id : Z) (payload : bytes) : bytes :=
  le_bytes 3 (len payload) ++ [byte_of_Z seq_id] ++ payload.

(** A length-coded string. *)
Definition lcs (s : string) : bytes :=
  byte_of_Z (len (list_byte_of_string s)) :: list_byte_of_string s.

Definition settings : Settings :=
  Build_Settings "localhost" 3306 "" false None "latin1" true "latin1"
    None None None Reference.decoders.

(** A Connection as [__init__] leaves it, for the user "root". *)
Definition fresh : Connection :=
  Build_Connection settings (Some (Str "root")) None 107013 None (Some 0)
    "Not connected" (Some false) None None
    (Build_Handshake None None None None None None None None) None.

(** The same Connection once connected over transport 0 to a server
    that will send [input] and then close. *)
Definition connected (input : bytes) : Connection :=
  set_writer (Some (Build_StreamWriter 0))
    (set_reader (Some (Build_StreamReader input PeerClosed)) fresh).

(** The text of the [OSError] of a refused connection attempt. *)
Definition refused : string :=
  "[Errno 111] Connect call failed ('127.0.0.1', 3306)".

Definition world (input : bytes) : World :=
  Build_World (connected input) [] [] refused [] 1 0 [].

(** A world in which the Connection was never connected, or was closed. *)
Definition disconnected : World :=
  Build_World fresh [] [] refused [] 0 0 [].

(** The greeting of a server of protocol 10, version 5.7.10, thread 42,
    with an 8-byte salt and nothing after the low capability bytes. *)
Definition short_greeting : bytes :=
  [x0a] ++ list_byte_of_string "5.7.10" ++ [x00] ++ [x2a; x00; x00; x00]
  ++ list_byte_of_string "abcdefgh" ++ [x00] ++ [xff; xf7].

(** The same greeting with the extended block: charset 8, status 2,
    high capabilities, salt length 21, ten reserved bytes and the second
    part of the salt. *)
Definition greeting : bytes :=
  short_greeting ++ [x08; x02; x00; x0f; x80; x15] ++ repeat x00 10
  ++ list_byte_of_string "ijklmnopqrst" ++ [x00].

(** An OK packet: no affected row, no insert id, status 2. *)
Definition ok : bytes := [x00; x00; x00; x02; x00; x00; x00].

(** An EOF marker: no warning, status 2. *)
Definition eof : bytes := [xfe; x00; x00; x02; x00].

(** The descriptor of a VAR_STRING column [c] of table [t] in latin1. *)
Definition column : bytes :=
  lcs "def" ++ lcs "" ++ lcs "t" ++ lcs "t" ++ lcs "c" ++ lcs "c" ++ [x0c]
  ++ [x08; x00] ++ [x01; x00; x00; x00] ++ [xfd] ++ [x00; x00] ++ [x00]
  ++ [x00; x00].

(** A result set of one column and the two rows ("1",) and ("22",). *)
Definition resultset : bytes :=
  frame 1 [x01] ++ frame 2 column ++ frame 3 eof
  ++ frame 4 (lcs "1") ++ frame 5 (lcs "22") ++ frame 6 eof.

(** A streaming result that is still active, and a drained one. *)
Definition streaming : MySQLResult :=
  Build_MySQLResult (Some TheConnection) (Some 18446744073709551615) None None
    0 None (Some 1) None None None true None.

Definition drained : MySQLResult :=
  Build_MySQLResult None (Some 18446744073709551615) None None
    0 None (Some 1) None None (Some 0) false None.

(** The world of a Connection whose current result is [r]. *)
Definition world_with (r : MySQLResult) (input : bytes) : World :=
  Build_World (set_result (Some 0%nat) (connected input)) [r] [] refused []
    1 0 [].

Definition text_field : FieldDescriptor :=
  Build_FieldDescriptor "t" "c" 8 1 253 0 0.

Definition long_field : FieldDescriptor :=
  Build_FieldDescriptor "t" "n" 63 11 3 0 0.

(** A result as [MySQLResult(connection)] creates it. *)
Definition created : MySQLResult :=
  Build_MySQLResult (Some TheConnection) None None None 0 None (Some 0) None
    None None false None.

(** A buffered result whose descriptors have been read, about to read
    its rows. *)
Definition described : MySQLResult :=
  Build_MySQLResult (Some TheConnection) None None None 0 None (Some 1)
    (Some [Reference.description text_field]) None (Some 0) false
    (Some [text_field]).

(** The row packets of [resultset] and their EOF marker. *)
Definition rowdata : bytes :=
  frame 4 (lcs "1") ++ frame 5 (lcs "22") ++ frame 6 eof.

(** A world whose store holds [rs] while the Connection has no current
    result. *)
Definition store (rs : list MySQLResult) (input : bytes) : World :=
  Build_World (connected input) rs [] refused [] 1 0 [].

(** The arguments of [connect()] when the caller names no user, the
    packets with which a server accepts the login and the autocommit
    command that follows it, and the world in which that server is the
    next one to answer. *)
Definition arguments : InitArgs :=
  Build_InitArgs "localhost" None None None 3306 None "" None None
    Reference.decoders None 0 None None None false (Some false).

Definition server : bytes :=
  frame 0 greeting ++ frame 2 ok ++ frame 1 ok.

Definition start (c : Connection) : World :=
  Build_World c [] [Some (Build_StreamReader server PeerClosed)] refused []
    0 0 [].

End Sample.

(** Handing a value to the converter registered for the field's type
    code, if there is one; and the same for a decoded text. *)
Definition hand_over (decs : gmap Z converter) (field : FieldDescriptor)
    (v : pyval) : exn + pyval :=
  match decs !! type_code field with
  | Some convert => convert v
  | None => inr v
  end.

Definition hand_over_text (decs : gmap Z converter) (field : FieldDescriptor)
    (decoded : exn + string) : exn + pyval :=
  match decoded with
  | inr s => hand_over decs field (VStr s)
  | inl e => inl e
  end.

(** A greeting that stops after the low capability bytes. *)
Definition greeting_without_extension (version : string) (thread_id : bytes)
    (salt1 : bytes) (filler cap0 cap1 : byte) : bytes :=
  [x0a] ++ list_byte_of_string version ++ [x00] ++ thread_id ++ salt1
  ++ [filler; cap0; cap1].

(** A received packet that is not an EOF marker. *)
Definition not_eof `{Imports} (p : bytes) : Prop :=
  is_eof_packet (Build_Packet p 0) = false.




(** The rows that a list of row packets decodes to, for the result [r]
    of a Connection with the settings [cfg]. *)
Definition decodes_to `{Imports} (cfg : Settings) (r : MySQLResult)
    (pkts : list bytes) (decoded : list (list pyval)) : Prop :=
  Forall2
    (fun p row =>
       exists fs,
         fields r = Some fs
         /\ MySQLResult.read_columns (use_unicode cfg) (conn_decoders cfg) fs
              (Build_Packet p 0) = inr row)
    pkts decoded.

(** A step that neither opens nor closes a transport: the network and
    the count of opened transports are as before, the writer is the
    same, the reader is still there if it was, and the log only grew by
    packets received and frames sent. *)
Definition packet_event (e : event) : Prop :=
  match e with
  | Received _ | Sent _ _ => True
  | Opened _ | Closed _ => False
  end.

Definition quiet (w w' : World) : Prop :=
  network w' = network w
  /\ opened w' = opened w
  /\ _writer (conn w') = _writer (conn w)
  /\ truthy (_reader (conn w')) = truthy (_reader (conn w))
  /\ exists es, trace w' = trace w ++ es /\ Forall packet_event es.

Definition quietly {A : Type} (m : M A) : Prop :=
  forall w, quiet w (m w).2.

(** The state that the guard at the head of [ping] tests for: a writer
    but no reader. *)
Definition half_open (w : World) : bool :=
  truthy (_writer (conn w)) && negb (truthy (_reader (conn w))).

(** The body of the [try] of [ping]: one PING command and its reply. *)
Definition ping_attempt `{Imports} : M unit :=
  Connection._execute_command COM_PING (Str "") ;;;
  Connection._read_ok_packet ;;;
  ret tt.

(** The exceptions with which reading a packet fails before any packet
    is complete. *)
Definition transport_error (e : exn) : Prop :=
  match e with
  | AttributeError _ | IncompleteReadError | OSError _
  | OperationalError _ _ => True
  | _ => False
  end.

(** A computation after which the Connection is not half open, unless
    it raised the OSError that [connect] answers by dropping both the
    reader and the writer. *)
Definition settles {A : Type} (m : M A) : Prop :=
  forall w,
    match (m w).1 with
    | Raise e => is_OSError e = true \/ half_open (m w).2 = false
    | _ => half_open (m w).2 = false
    end.

(** ** Vocabulary of the further properties *)

(** The frames of any payload: first the chunks of the maximum size,
    numbered from [seq_id], then a last frame with what is left, which
    is shorter than the maximum and may be empty.  [n] is the number of
    full chunks. *)
Fixpoint frames_of (n : nat) (seq_id : Z) (p : bytes) : list bytes :=
  match n with
  | O => [le_bytes 3 (len p) ++ [byte_of_Z seq_id] ++ p]
  | S n' =>
      (le_bytes 3 MAX_PACKET_LEN ++ [byte_of_Z seq_id]
       ++ firstn (Z.to_nat MAX_PACKET_LEN) p)
      :: frames_of n' (seq_id + 1) (skipn (Z.to_nat MAX_PACKET_LEN) p)
  end.

Definition chunks (p : bytes) : nat := Z.to_nat (len p / MAX_PACKET_LEN).



(** The bytes of a command's text: a [str] is encoded with the
    Connection's encoding, [bytes] are taken as they are. *)
Definition encoded `{Imports} (enc : string) (sql : text) : exn + bytes :=
  match sql with
  | Str s => py_encode enc s
  | Bytes b => inr b
  end.

(** The refusal of a command on a Connection that has no writer. *)
Definition not_connected : exn := InterfaceError "(0, 'Not connected')".

(** What a command that awaits an OK packet leaves behind when the
    payload [payload] is written over [wr] and the server's next packet
    is [reply], followed in the stream by [rest]: the frames of the
    payload were written, the one packet was received, and the outcome
    is read off the reply: a server error, a packet that is not an OK
    packet, or an OK packet whose status becomes the Connection's. *)
Definition after_reply `{Imports} (w : World) (wr : StreamWriter)
    (payload reply rest : bytes) : outcome unit * World :=
  let w1 :=
    logs (map (Sent (transport wr)) (frames_of (chunks payload) 0 payload)
          ++ [Received reply]) (with_buffer rest w) in
  match check_error (Build_Packet reply 0) with
  | Some e => (Raise e, w1)
  | None =>
      if is_ok_packet (Build_Packet reply 0) then
        match OKPacketWrapper (Build_Packet reply 0) with
        | inr ok =>
            (Return tt,
             set_conn
               (set_handshake
                  (set_server_status (Some (ok_server_status ok))
                     (handshake (conn w1))) (conn w1)) w1)
        | inl e => (Raise e, w1)
        end
      else (Raise (OperationalError 2014 "Command Out of Sync"), w1)
  end.

(** The assignments of [MySQLResult._read_ok_packet], as one update. *)
Definition ok_result (ok : OKPacket) (r : MySQLResult) : MySQLResult :=
  set_has_next (Some (ok_has_next ok))
    (set_message (Some (ok_message ok))
       (set_warning_count (ok_warning_count ok)
          (set_result_server_status (Some (ok_server_status ok))
             (set_insert_id (ok_insert_id ok)
                (set_result_affected_rows (ok_affected_rows ok) r))))).

(** A result as [MySQLResult(connection)] creates it. *)
Definition new_result : MySQLResult :=
  Build_MySQLResult (Some TheConnection) None None None 0 None (Some 0) None
    None None false None.

(** The result object that an OK packet leaves: the packet's counters,
    no rows, no back-reference. *)
Definition result_of_ok (ok : OKPacket) : MySQLResult :=
  Build_MySQLResult None (ok_affected_rows ok) (ok_insert_id ok)
    (Some (ok_server_status ok)) (ok_warning_count ok) (Some (ok_message ok))
    (Some 0) None None (Some (ok_has_next ok)) false None.

(** The column descriptors that a list of descriptor packets parses to,
    under the encoding [enc]. *)
Definition descriptors_parsed `{Imports} (enc : string) (pkts : list bytes)
    (fs : list FieldDescriptor) : Prop :=
  Forall2 (fun p f => FieldDescriptorPacket p enc = inr f) pkts fs.

(** What the row loops leave alone in the result they fill. *)
Definition same_columns (r r' : MySQLResult) : Prop :=
  fields r' = fields r
  /\ result_description r' = result_description r
  /\ field_count r' = field_count r.

(** A step that neither creates a result object, nor changes which one
    is the Connection's, nor touches the Connection's settings. *)
Definition same_store (w w' : World) : Prop :=
  length (results w') = length (results w)
  /\ _result (conn w') = _result (conn w)
  /\ settings (conn w') = settings (conn w).

Definition steadily {A : Type} (m : M A) : Prop :=
  forall w, same_store w (m w).2.

(** A greeting with the extended block, field by field: protocol
    version, server version and its terminator, thread id, first part
    of the salt, filler, low capability bytes, then charset, status,
    high capability bytes, salt length, the reserved bytes, the second
    part of the salt and whatever follows. *)
Definition greeting_with_extension (pv : byte) (version : string)
    (thread_id salt1 : bytes) (filler : byte) (caps : bytes) (lang : byte)
    (status cap_h : bytes) (salt_len : byte) (reserved salt2 tail : bytes)
    : bytes :=
  [pv] ++ list_byte_of_string version ++ [x00] ++ thread_id ++ salt1
  ++ [filler] ++ caps ++ [lang] ++ status ++ cap_h ++ [salt_len]
  ++ reserved ++ salt2 ++ tail.

(** The flag word [flags] has every bit of [mask] set. *)
Definition has_flags (flags mask : Z) : Prop := Z.lor flags mask = flags.

(** The Connection's encoding is the one its charset names. *)
Definition encoding_matches `{Imports} (s : Settings) : Prop :=
  exists cs, charset_by_name (charset s) = Some cs /\ encoding s = cs_encoding cs.

(** Every quote of [s] is one of a pair of adjacent quotes. *)
Fixpoint quotes_paired (s : string) : bool :=
  match s with
  | EmptyString => true
  | String c r =>
      if Ascii.eqb c "'"%char then
        match r with
        | String c' r' => Ascii.eqb c' "'"%char && quotes_paired r'
        | EmptyString => false
        end
      else quotes_paired r
  end.

(** A Connection after the handshake, with the server status [st], on
    transport 0, whose server will send [input] and then close. *)
Definition ready (st : Z) (input : bytes) : World :=
  Build_World
    (set_handshake
       (Build_Handshake (Some 10) (Some "5.7.10"%string) (Some 42)
          (Some (list_byte_of_string "abcdefghijklmnopqrst")) (Some 63487)
          (Some 8) (Some "latin1"%string) (Some st))
       (Sample.connected input))
    [] [] Sample.refused [] 1 0 [].

(** What [connect] establishes from [w]: see X15. *)
Definition connected_or_refused `{Imports} (w : World) (o : outcome unit)
    (w' : World) : Prop :=
  match network w with
  | Some rd :: rest =>
      network w' = rest /\ opened w' = S (opened w)
      /\ (exists es,
            trace w' = trace w ++ Opened (opened w) :: es
            /\ Forall packet_event es)
      /\ (o = Return tt ->
          _writer (conn w') = Some (Build_StreamWriter (opened w))
          /\ truthy (_reader (conn w')) = true)
  | refused =>
      o = Raise (OperationalError 2003
                   ("Can't connect to MySQL server on "
                    ++ py_repr (host (settings (conn w)))
                    ++ " (" ++ refusal w ++ ")")%string)
      /\ _reader (conn w') = None /\ _writer (conn w') = None
      /\ network w' = tail refused /\ opened w' = opened w
      /\ trace w' = trace w
  end.




(** A result whose first packet counted one column, with the column
    descriptor and its EOF marker still to come, and a fresh result
    with the whole result set of [Sample.resultset] after its first
    packet still to come. *)
Definition counted : MySQLResult := set_field_count (Some 1) Sample.created.

Definition descriptors_to_come : World :=
  Sample.store [counted] (Sample.frame 2 Sample.column ++ Sample.frame 3 Sample.eof).

Definition result_set_to_come : World :=
  Sample.store [Sample.created]
    (Sample.frame 2 Sample.column ++ Sample.frame 3 Sample.eof ++ Sample.rowdata).

(** The data of the columns of a row packet: [n] length-coded strings,
    read from the packet one after the other ([None] is SQL NULL). *)
Fixpoint column_data `{Imports} (n : nat) (packet : Packet)
    : exn + list (option bytes) :=
  match n with
  | O => inr []
  | S n' =>
      match read_length_coded_string packet with
      | inl e => inl e
      | inr (data, packet') =>
          match column_data n' packet' with
          | inl e => inl e
          | inr rest => inr (data :: rest)
          end
      end
  end.

(** * Properties *)

(** ** Bytes and slices *)

Lemma Z_of_byte_range (b : byte) : 0 <= Z_of_byte b < 256.
Proof.
  unfold Z_of_byte. pose proof (Byte.to_N_bounded b). lia.
Qed.

Lemma Z_of_byte_of_Z (z : Z) : Z_of_byte (byte_of_Z z) = z mod 256.
Proof.
  unfold Z_of_byte, byte_of_Z.
  pose proof (Z.mod_pos_bound z 256 ltac:(lia)) as Hr.
  destruct (Byte.of_N (Z.to_N (z mod 256))) as [b|] eqn:E.
  - apply Byte.to_of_N in E. rewrite E. lia.
  - apply Byte.of_N_None_iff in E. lia.
Qed.

Lemma byte_of_Z_of_byte (b : byte) : byte_of_Z (Z_of_byte b) = b.
Proof.
  unfold byte_of_Z. pose proof (Z_of_byte_range b) as Hr.
  rewrite Z.mod_small by lia. unfold Z_of_byte.
  rewrite N2Z.id, Byte.of_to_N. reflexivity.
Qed.

Lemma le_bytes_length (n : nat) (z : Z) : length (le_bytes n z) = n.
Proof. revert z. induction n as [|n IH]; intros z; simpl; [|rewrite IH]; reflexivity. Qed.

Lemma le_value_le_bytes (n : nat) (z : Z) :
  0 <= z < 256 ^ Z.of_nat n -> le_value (le_bytes n z) = z.
Proof.
  revert z. induction n as [|n IH]; intros z Hz.
  - change (256 ^ Z.of_nat 0) with 1 in Hz. simpl. lia.
  - cbn [le_bytes le_value]. rewrite Z_of_byte_of_Z.
    rewrite Nat2Z.inj_succ, Z.pow_succ_r in Hz by lia.
    rewrite IH.
    + pose proof (Z.div_mod z 256 ltac:(lia)). lia.
    + split; [apply Z.div_pos; lia|].
      apply Z.div_lt_upper_bound; lia.
Qed.

Lemma le_bytes_snoc_zero (n : nat) (z : Z) :
  0 <= z < 256 ^ Z.of_nat n -> le_bytes (S n) z = le_bytes n z ++ [x00].
Proof.
  revert z. induction n as [|n IH]; intros z Hz.
  - change (256 ^ Z.of_nat 0) with 1 in Hz.
    assert (z = 0) by lia. subst. reflexivity.
  - change (le_bytes (S (S n)) z) with (byte_of_Z z :: le_bytes (S n) (z / 256)).
    rewrite Nat2Z.inj_succ, Z.pow_succ_r in Hz by lia.
    rewrite IH.
    + reflexivity.
    + split; [apply Z.div_pos; lia|].
      apply Z.div_lt_upper_bound; lia.
Qed.

Lemma len_nonneg {A : Type} (l : list A) : 0 <= len l.
Proof. unfold len. lia. Qed.

Lemma len_app {A : Type} (l1 l2 : list A) : len (l1 ++ l2) = len l1 + len l2.
Proof. unfold len. rewrite length_app. lia. Qed.

Lemma py_slice_to_firstn {A : Type} (l : list A) (n : Z) :
  0 <= n -> py_slice_to l n = firstn (Z.to_nat n) l.
Proof.
  intros Hn. unfold py_slice_to, py_slice, slice_bound, len.
  replace (0 <? 0) with false by reflexivity.
  destruct (n <? 0) eqn:E; [lia|].
  rewrite Z.min_l by lia.
  destruct (0 <? Z.min n (Z.of_nat (length l))) eqn:E1.
  - rewrite Z.sub_0_r. change (Z.to_nat 0) with 0%nat. rewrite skipn_O.
    destruct (Z.le_ge_cases n (Z.of_nat (length l))).
    + rewrite Z.min_l by lia. reflexivity.
    + rewrite Z.min_r by lia. rewrite Nat2Z.id.
      rewrite (firstn_all2 l (n:=length l)) by lia.
      rewrite (firstn_all2 l (n:=Z.to_nat n)) by lia. reflexivity.
  - destruct l as [|x l]; [by rewrite firstn_nil|].
    apply Z.ltb_ge in E1. rewrite length_cons in E1.
    assert (n = 0) by lia. subst. reflexivity.
Qed.

Lemma py_slice_from_skipn {A : Type} (l : list A) (n : Z) :
  0 <= n -> py_slice_from l n = skipn (Z.to_nat n) l.
Proof.
  intros Hn. unfold py_slice_from, py_slice, slice_bound, len.
  destruct (Z.ltb_spec n 0) as [?|_]; [lia|].
  destruct (Z.ltb_spec (Z.of_nat (length l)) 0) as [?|_]; [lia|].
  rewrite (Z.min_l (Z.of_nat (length l))) by lia.
  destruct (Z.ltb_spec (Z.min n (Z.of_nat (length l))) (Z.of_nat (length l))).
  - rewrite Z.min_l by lia.
    rewrite firstn_all2; [reflexivity|].
    rewrite length_skipn. lia.
  - rewrite skipn_all2; [reflexivity|]. lia.
Qed.

(** ** The monad *)

Lemma spec_intro {A : Type} (m : M A) (w : World) (Q : outcome A -> World -> Prop) :
  (forall o w', m w = (o, w') -> Q o w') -> spec m w Q.
Proof. intros HQ. unfold spec. apply HQ. by destruct (m w). Qed.

Lemma spec_elim {A : Type} (m : M A) (w : World) (Q : outcome A -> World -> Prop)
    (o : outcome A) (w' : World) :
  spec m w Q -> m w = (o, w') -> Q o w'.
Proof. unfold spec. intros HQ E. by rewrite E in HQ. Qed.

Lemma spec_mono {A : Type} (m : M A) (w : World) (Q Q' : outcome A -> World -> Prop) :
  spec m w Q -> (forall o w', Q o w' -> Q' o w') -> spec m w Q'.
Proof. unfold spec. auto. Qed.

Lemma spec_ret {A : Type} (a : A) (w : World) (Q : outcome A -> World -> Prop) :
  Q (Return a) w -> spec (ret a) w Q.
Proof. auto. Qed.

Lemma spec_raise {A : Type} (e : exn) (w : World) (Q : outcome A -> World -> Prop) :
  Q (Raise e) w -> spec (raise e) w Q.
Proof. auto. Qed.

Lemma spec_bind {A B : Type} (m : M A) (k : A -> M B) (w : World)
    (Q : outcome B -> World -> Prop) :
  spec m w (fun o w1 =>
    match o with
    | Return a => spec (k a) w1 Q
    | Raise e => Q (Raise e) w1
    | Stuck => Q Stuck w1
    end) ->
  spec (bind m k) w Q.
Proof.
  unfold spec, bind. destruct (m w) as [[a|e|] w1]; simpl; auto.
Qed.

Lemma spec_get (w : World) (Q : outcome World -> World -> Prop) :
  Q (Return w) w -> spec get w Q.
Proof. auto. Qed.

Lemma spec_modify (f : World -> World) (w : World) (Q : outcome unit -> World -> Prop) :
  Q (Return tt) (f w) -> spec (modify f) w Q.
Proof. auto. Qed.

Lemma spec_lift {A : Type} (r : exn + A) (w : World) (Q : outcome A -> World -> Prop) :
  match r with inr a => Q (Return a) w | inl e => Q (Raise e) w end ->
  spec (lift r) w Q.
Proof. destruct r; auto. Qed.

Lemma spec_attribute {A : Type} (name : string) (v : option A) (w : World)
    (Q : outcome A -> World -> Prop) :
  match v with Some a => Q (Return a) w | None => Q (Raise (AttributeError name)) w end ->
  spec (attribute name v) w Q.
Proof. destruct v; auto. Qed.

Lemma spec_try_except {A : Type} (m : M A) (sel : exn -> bool) (h : exn -> M A)
    (w : World) (Q : outcome A -> World -> Prop) :
  spec m w (fun o w1 =>
    match o with
    | Raise e => if sel e then spec (h e) w1 Q else Q (Raise e) w1
    | _ => Q o w1
    end) ->
  spec (try_except m sel h) w Q.
Proof.
  unfold spec, try_except. destruct (m w) as [[a|e|] w1]; simpl; auto.
  by destruct (sel e).
Qed.

Lemma spec_try_finally {A : Type} (m : M A) (f : M unit) (w : World)
    (Q : outcome A -> World -> Prop) :
  spec m w (fun o w1 =>
    match o with
    | Return a => spec (f ;;; ret a) w1 Q
    | Raise e => spec (f ;;; raise e) w1 Q
    | Stuck => Q Stuck w1
    end) ->
  spec (try_finally m f) w Q.
Proof.
  unfold spec, try_finally. destruct (m w) as [[a|e|] w1]; simpl; auto.
Qed.

(** ** The world *)

Lemma with_buffer_twice (b1 b2 : bytes) (w : World) :
  with_buffer b2 (with_buffer b1 w) = with_buffer b2 w.
Proof.
  unfold with_buffer. destruct w as [c rs nw op ck tr]; simpl.
  destruct c; simpl. destruct _reader0 as [rd|]; reflexivity.
Qed.

Lemma with_buffer_same (w : World) (rd : StreamReader) :
  _reader (conn w) = Some rd -> with_buffer (buffer rd) w = w.
Proof.
  unfold with_buffer. destruct w as [c rs nw op ck tr]; simpl.
  destruct c; simpl. intros ->. by destruct rd.
Qed.

Lemma with_buffer_closed (b : bytes) (w : World) :
  _reader (conn w) = None -> with_buffer b w = w.
Proof. unfold with_buffer. by intros ->. Qed.

Lemma with_buffer_logs (b : bytes) (es : list event) (w : World) :
  with_buffer b (logs es w) = logs es (with_buffer b w).
Proof.
  unfold with_buffer, logs; simpl. by destruct (_reader (conn w)).
Qed.

Lemma logs_logs (es1 es2 : list event) (w : World) :
  logs es2 (logs es1 w) = logs (es1 ++ es2) w.
Proof. unfold logs; simpl. by rewrite app_assoc. Qed.

Lemma logs_nil (w : World) : logs [] w = w.
Proof. unfold logs. destruct w; simpl. by rewrite app_nil_r. Qed.

Lemma log_logs (e : event) (w : World) : log e w = logs [e] w.
Proof. reflexivity. Qed.

Lemma pending_with_buffer (b : bytes) (w : World) :
  pending (with_buffer b w) = if truthy (_reader (conn w)) then length b else O.
Proof.
  unfold pending, with_buffer. by destruct (_reader (conn w)) eqn:E; simpl; rewrite ?E.
Qed.

Lemma pending_logs (es : list event) (w : World) : pending (logs es w) = pending w.
Proof. reflexivity. Qed.

Lemma results_with_buffer (b : bytes) (w : World) :
  results (with_buffer b w) = results w.
Proof. unfold with_buffer. by destruct (_reader (conn w)). Qed.

Lemma trace_with_buffer (b : bytes) (w : World) :
  trace (with_buffer b w) = trace w.
Proof. unfold with_buffer. by destruct (_reader (conn w)). Qed.

Lemma writer_with_buffer (b : bytes) (w : World) :
  _writer (conn (with_buffer b w)) = _writer (conn w).
Proof. unfold with_buffer. by destruct (_reader (conn w)). Qed.

Lemma result_with_buffer (b : bytes) (w : World) :
  _result (conn (with_buffer b w)) = _result (conn w).
Proof. unfold with_buffer. by destruct (_reader (conn w)). Qed.

Lemma settings_with_buffer (b : bytes) (w : World) :
  settings (conn (with_buffer b w)) = settings (conn w).
Proof. unfold with_buffer. by destruct (_reader (conn w)). Qed.

Lemma reader_with_buffer (b : bytes) (w : World) :
  truthy (_reader (conn (with_buffer b w))) = truthy (_reader (conn w)).
Proof. unfold with_buffer. by destruct (_reader (conn w)) eqn:E; simpl; rewrite ?E. Qed.

(** ** The packet reader *)

Lemma le_value_nonneg (b : bytes) : 0 <= le_value b.
Proof.
  induction b as [|x b IH]; simpl; [lia|].
  pose proof (Z_of_byte_range x). lia.
Qed.

Lemma readexactly_spec (n : Z) (w : World) :
  0 <= n ->
  spec (readexactly n) w (fun o w' =>
    match o with
    | Return d =>
        exists rd rest, _reader (conn w) = Some rd /\ buffer rd = d ++ rest
                        /\ len d = n /\ w' = with_buffer rest w
    | Raise e => transport_error e /\ exists b, w' = with_buffer b w
    | Stuck => False
    end).
Proof.
  intros Hn. unfold spec, readexactly, bind, get, attribute.
  destruct (_reader (conn w)) as [rd|] eqn:E; simpl.
  - destruct (Z.leb_spec n (len (buffer rd))) as [Hle|Hlt]; simpl.
    + exists rd, (skipn (Z.to_nat n) (buffer rd)).
      rewrite firstn_skipn. repeat split; try done.
      * unfold len in *. rewrite length_firstn. lia.
      * unfold with_buffer. by rewrite E.
    + split; [by destruct (ending rd)|].
      exists []. unfold with_buffer. by rewrite E.
  - split; [done|]. exists []. unfold with_buffer. by rewrite E.
Qed.

Section FramerFacts.
Context {lib : Imports}.

Lemma read_frames_spec (fuel : nat) (buff : bytes) (w : World) :
  (pending w < fuel)%nat ->
  spec (read_frames fuel buff) w (fun o w' =>
    match o with
    | Return out =>
        exists b, w' = with_buffer b w /\ (length b + 4 <= pending w)%nat
    | Raise e => transport_error e /\ exists b, w' = with_buffer b w
    | Stuck => False
    end).
Proof.
  revert buff w. induction fuel as [|fuel IH]; intros buff w Hfuel; [lia|].
  cbn [read_frames]. apply spec_bind.
  eapply spec_mono; [apply readexactly_spec; lia|].
  intros [header|e|] w1; [|by auto|done].
  intros (rd & rest & Hrd & Hbuf & Hlen & ->).
  assert (Hpend : pending w = (4 + length rest)%nat).
  { unfold pending. rewrite Hrd, Hbuf, length_app. unfold len in Hlen. lia. }
  apply spec_bind, spec_lift. unfold unpack_uint.
  assert (Hhdr : length header = 4%nat) by (unfold len in Hlen; lia).
  rewrite length_app, py_slice_to_firstn, length_firstn, Hhdr by lia.
  change (Nat.eqb _ 4) with true. cbv iota.
  apply spec_bind.
  eapply spec_mono; [apply readexactly_spec, le_value_nonneg|].
  intros [d|e|] w2;
    [|intros (He & b & ->); rewrite with_buffer_twice; by eauto|done].
  intros (rd1 & rest2 & Hrd1 & Hbuf1 & _ & ->). rewrite with_buffer_twice.
  assert (Hrest : (length rest2 <= length rest)%nat).
  { assert (Hp : pending (with_buffer rest w) = length rest)
      by (by rewrite pending_with_buffer, Hrd).
    unfold pending in Hp. rewrite Hrd1, Hbuf1, length_app in Hp. lia. }
  destruct (_ <? MAX_PACKET_LEN).
  - apply spec_ret. exists rest2. split; [done|lia].
  - eapply spec_mono; [apply IH|].
    + rewrite pending_with_buffer, Hrd. simpl. lia.
    + intros [out|e|] w3; [| |done].
      * intros (b & -> & Hb). rewrite with_buffer_twice. exists b. split; [done|].
        rewrite pending_with_buffer, Hrd in Hb. simpl in Hb. lia.
      * intros (He & b & ->). rewrite with_buffer_twice. eauto.
Qed.

Lemma read_packet_spec {P : Type} (packet_type : bytes -> string -> exn + P)
    (w : World) :
  spec (_read_packet packet_type) w (fun o w' =>
    exists b,
      match o with
      | Return p =>
          exists data,
            w' = logs [Received data] (with_buffer b w)
            /\ packet_type data (encoding (settings (conn w))) = inr p
            /\ check_error (Build_Packet data 0) = None
            /\ (length b + 4 <= pending w)%nat
      | Raise e =>
          (w' = with_buffer b w /\ transport_error e)
          \/ exists data, w' = logs [Received data] (with_buffer b w)
      | Stuck => False
      end).
Proof.
  unfold _read_packet. apply spec_bind, spec_try_except, spec_bind, spec_get.
  eapply spec_mono; [apply (read_frames_spec (S (pending w)) [] w); lia|].
  intros [buff|e|] w1; [| |done].
  2:{ intros (He & b & ->).
      destruct (is_OSError e); [apply spec_raise|]; exists b; by left. }
  intros (b & -> & Hb).
  apply spec_bind, spec_modify, spec_bind, spec_get, spec_bind, spec_lift.
  rewrite log_logs. cbn [conn logs]. rewrite settings_with_buffer.
  destruct (packet_type buff _) as [e|p] eqn:Ep.
  - exists b. right. eauto.
  - destruct (check_error _) as [e|] eqn:Ec.
    + apply spec_raise. exists b. right. eauto.
    + apply spec_ret. exists b, buff. done.
Qed.

End FramerFacts.

(** ** Framing a command and reading it back *)

Lemma MAX_PACKET_LEN_value : MAX_PACKET_LEN = 256 ^ 3 - 1.
Proof. reflexivity. Qed.

Lemma MAX_PACKET_LEN_bounds : 0 < MAX_PACKET_LEN < 256 ^ Z.of_nat 3.
Proof. rewrite MAX_PACKET_LEN_value. change (Z.of_nat 3) with 3. lia. Qed.

#[global] Opaque MAX_PACKET_LEN.

Lemma byte_of_Z_mod (z : Z) : byte_of_Z (z mod 256) = byte_of_Z z.
Proof. unfold byte_of_Z. by rewrite Z.mod_mod. Qed.

Lemma int2byte_mod (z : Z) : int2byte (z mod 256) = inr [byte_of_Z z].
Proof.
  unfold int2byte. pose proof (Z.mod_pos_bound z 256 ltac:(lia)).
  destruct (Z.leb_spec 0 (z mod 256)); [|lia].
  destruct (Z.leb_spec (z mod 256) 255); [|lia].
  simpl. by rewrite byte_of_Z_mod.
Qed.

Lemma int2byte_byte (z : Z) : 0 <= z <= 255 -> int2byte z = inr [byte_of_Z z].
Proof.
  intros Hz. unfold int2byte.
  destruct (Z.leb_spec 0 z); [|lia]. by destruct (Z.leb_spec z 255); [|lia].
Qed.


Lemma pack_i32_header (z : Z) :
  0 <= z <= MAX_PACKET_LEN ->
  pack_i32 z = inr (le_bytes 3 z ++ [x00])
  /\ unpack_uint 4 (le_bytes 3 z ++ [x00]) = inr z.
Proof.
  intros Hz. pose proof MAX_PACKET_LEN_bounds as Hm.
  assert (Hr : 0 <= z < 256 ^ Z.of_nat 3) by lia.
  change (Z.of_nat 3) with 3 in *.
  split.
  - unfold pack_i32.
    destruct (Z.leb_spec (-2147483648) z); [|lia].
    destruct (Z.leb_spec z 2147483647); [|lia].
    simpl andb. cbv iota. rewrite Z.mod_small by lia.
    by rewrite (le_bytes_snoc_zero 3).
  - unfold unpack_uint. rewrite length_app, le_bytes_length.
    change (Nat.eqb _ 4) with true. cbv iota.
    rewrite <- (le_bytes_snoc_zero 3) by done.
    rewrite le_value_le_bytes; [done|].
    change (Z.of_nat 4) with 4. lia.
Qed.

Lemma header_length_field (z : Z) (s : byte) :
  py_slice_to (le_bytes 3 z ++ [s]) 3 = le_bytes 3 z.
Proof.
  rewrite py_slice_to_firstn by lia. change (Z.to_nat 3) with 3%nat.
  rewrite firstn_app, le_bytes_length, Nat.sub_diag, firstn_O, app_nil_r.
  apply firstn_all2. by rewrite le_bytes_length.
Qed.

Lemma full_frames_length (n : nat) (seq_id : Z) (p : bytes) :
  length (full_frames n seq_id p) = S n.
Proof.
  revert seq_id p. induction n as [|n IH]; intros seq_id p; [done|].
  cbn [full_frames length]. by rewrite IH.
Qed.

Lemma full_frames_last (n : nat) (seq_id : Z) (p : bytes) :
  last (full_frames n seq_id p)
  = Some (le_bytes 3 0 ++ [byte_of_Z (seq_id + Z.of_nat n)]).
Proof.
  revert seq_id p. induction n as [|n IH]; intros seq_id p.
  - cbn [full_frames]. by rewrite Z.add_0_r.
  - cbn [full_frames]. rewrite last_cons, IH.
    by replace (seq_id + 1 + Z.of_nat n) with (seq_id + Z.of_nat (S n)) by lia.
Qed.

Lemma full_frames_bytes (n : nat) (seq_id : Z) (p : bytes) :
  (n <= length (concat (full_frames n seq_id p)))%nat.
Proof.
  revert seq_id p. induction n as [|n IH]; intros seq_id p; [lia|].
  cbn [full_frames concat]. rewrite !length_app, le_bytes_length.
  specialize (IH (seq_id + 1) (skipn (Z.to_nat MAX_PACKET_LEN) p)). lia.
Qed.

Lemma reader_with_buffer_open (b : bytes) (w : World) (rd : StreamReader) :
  _reader (conn w) = Some rd ->
  _reader (conn (with_buffer b w)) = Some (Build_StreamReader b (ending rd)).
Proof. intros E. unfold with_buffer. by rewrite E. Qed.

Lemma readexactly_app (w : World) (rd : StreamReader) (a b : bytes) :
  _reader (conn w) = Some rd -> buffer rd = a ++ b ->
  readexactly (len a) w = (Return a, with_buffer b w).
Proof.
  intros Hrd Hbuf. unfold readexactly, bind, get, attribute, with_buffer.
  rewrite Hrd. cbn [ret]. rewrite Hbuf, len_app.
  pose proof (len_nonneg b).
  destruct (Z.leb_spec (len a) (len a + len b)); [|lia].
  unfold assign, modify, ret, len. rewrite Nat2Z.id.
  rewrite skipn_app, firstn_app, Nat.sub_diag, firstn_O, skipn_O, app_nil_r.
  by rewrite firstn_all, skipn_all.
Qed.

Lemma bind_returns {A B : Type} (m : M A) (k : A -> M B) (w w1 : World) (a : A) :
  m w = (Return a, w1) -> bind m k w = k a w1.
Proof. intros E. unfold bind. by rewrite E. Qed.

Lemma bind_raises {A B : Type} (m : M A) (k : A -> M B) (w w1 : World) (e : exn) :
  m w = (Raise e, w1) -> bind m k w = (Raise e, w1).
Proof. intros E. unfold bind. by rewrite E. Qed.

Lemma bind_lift {A B : Type} (a : A) (k : A -> M B) (w : World) :
  bind (lift (inr a)) k w = k a w.
Proof. reflexivity. Qed.

Lemma logs_cons (e : event) (es : list event) (w : World) :
  logs es (logs [e] w) = logs (e :: es) w.
Proof. by rewrite logs_logs. Qed.

Section Framing.
Context {lib : Imports}.

Lemma write_bytes_open (data : bytes) (w : World) (wr : StreamWriter) :
  _writer (conn w) = Some wr ->
  _write_bytes data w = (Return tt, logs [Sent (transport wr) data] w).
Proof.
  intros E. unfold _write_bytes, bind, get, attribute. by rewrite E.
Qed.

(** The continuation loop on a payload of [n] full chunks writes the
    [n] frames and the closing empty frame. *)
Lemma send_rest_full (n : nat) :
  forall (fuel : nat) (seq_id : Z) (sql : bytes) (w : World) (wr : StreamWriter),
    _writer (conn w) = Some wr ->
    length sql = (n * Z.to_nat MAX_PACKET_LEN)%nat ->
    (n < fuel)%nat ->
    Connection.send_rest fuel seq_id sql w
    = (Return tt, logs (map (Sent (transport wr)) (full_frames n seq_id sql)) w).
Proof.
  pose proof MAX_PACKET_LEN_bounds as Hm.
  induction n as [|n IH]; intros fuel seq_id sql w wr Hw Hlen Hfuel;
    (destruct fuel as [|fuel]; [lia|]); cbn [Connection.send_rest].
  - apply length_zero_iff_nil in Hlen. subst sql.
    change (len []) with 0. rewrite Z.min_r by lia.
    destruct (pack_i32_header 0 ltac:(lia)) as [-> _]. rewrite bind_lift.
    rewrite header_length_field, int2byte_mod, bind_lift.
    erewrite bind_returns by (by apply write_bytes_open).
    rewrite py_slice_to_firstn, py_slice_from_skipn by lia.
    change (Z.to_nat 0) with 0%nat. rewrite firstn_O, skipn_O, app_nil_r.
    cbn [length Nat.eqb andb]. destruct (Z.ltb_spec 0 MAX_PACKET_LEN); [|lia].
    reflexivity.
  - assert (Hlen' : len sql = MAX_PACKET_LEN + Z.of_nat n * MAX_PACKET_LEN)
      by (unfold len; lia).
    assert (0 <= Z.of_nat n * MAX_PACKET_LEN) by lia.
    rewrite Z.min_l by lia.
    destruct (pack_i32_header MAX_PACKET_LEN ltac:(lia)) as [-> _].
    rewrite bind_lift, header_length_field, int2byte_mod, bind_lift.
    erewrite bind_returns by (by apply write_bytes_open).
    rewrite py_slice_to_firstn, py_slice_from_skipn by lia.
    destruct (Z.ltb_spec MAX_PACKET_LEN MAX_PACKET_LEN); [lia|].
    rewrite andb_false_r.
    rewrite (IH fuel (seq_id + 1) _ _ wr); [| done | | lia].
    + by rewrite logs_cons.
    + rewrite length_skipn. lia.
Qed.

(** Reading those frames back reassembles the payload. *)
Lemma read_frames_full (n : nat) :
  forall (fuel : nat) (seq_id : Z) (p buff rest : bytes) (w : World)
         (rd : StreamReader),
    _reader (conn w) = Some rd ->
    buffer rd = concat (full_frames n seq_id p) ++ rest ->
    length p = (n * Z.to_nat MAX_PACKET_LEN)%nat ->
    (n < fuel)%nat ->
    read_frames fuel buff w = (Return (buff ++ p), with_buffer rest w).
Proof.
  pose proof MAX_PACKET_LEN_bounds as Hm.
  induction n as [|n IH]; intros fuel seq_id p buff rest w rd Hrd Hbuf Hlen Hfuel;
    (destruct fuel as [|fuel]; [lia|]); cbn [read_frames].
  - apply length_zero_iff_nil in Hlen. subst p.
    cbn [full_frames concat] in Hbuf. rewrite app_nil_r in Hbuf.
    erewrite bind_returns
      by (by apply (readexactly_app w rd (le_bytes 3 0 ++ [byte_of_Z seq_id]) rest)).
    rewrite header_length_field.
    destruct (pack_i32_header 0 ltac:(lia)) as [_ ->]. rewrite bind_lift.
    erewrite bind_returns.
    2:{ apply (readexactly_app _ (Build_StreamReader rest (ending rd)) [] rest);
          [by apply reader_with_buffer_open|done]. }
    rewrite with_buffer_twice.
    destruct (Z.ltb_spec 0 MAX_PACKET_LEN); [|lia]. reflexivity.
  - cbn [full_frames concat] in Hbuf. rewrite <- !app_assoc in Hbuf.
    erewrite bind_returns.
    2:{ apply (readexactly_app w rd (le_bytes 3 MAX_PACKET_LEN ++ [byte_of_Z seq_id])).
        - done.
        - rewrite Hbuf. by rewrite <- !app_assoc. }
    rewrite header_length_field.
    destruct (pack_i32_header MAX_PACKET_LEN ltac:(lia)) as [_ ->].
    rewrite bind_lift.
    assert (Hfirst : len (firstn (Z.to_nat MAX_PACKET_LEN) p) = MAX_PACKET_LEN).
    { unfold len. rewrite length_firstn. lia. }
    rewrite <- Hfirst at 1.
    erewrite bind_returns.
    2:{ eapply readexactly_app; [by apply reader_with_buffer_open|done]. }
    rewrite with_buffer_twice.
    destruct (Z.ltb_spec MAX_PACKET_LEN MAX_PACKET_LEN); [lia|].
    erewrite (IH fuel (seq_id + 1) (skipn (Z.to_nat MAX_PACKET_LEN) p) _ rest).
    + by rewrite with_buffer_twice, <- app_assoc, firstn_skipn.
    + by apply reader_with_buffer_open.
    + done.
    + rewrite length_skipn. lia.
    + lia.
Qed.

End Framing.

Lemma bind_get {B : Type} (k : World -> M B) (w : World) :
  bind get k w = k w w.
Proof. reflexivity. Qed.

Lemma bind_ret {A B : Type} (a : A) (k : A -> M B) (w : World) :
  bind (ret a) k w = k a w.
Proof. reflexivity. Qed.

Section Dispatcher.
Context {lib : Imports}.

(** With no streaming result pending, the guard of [_execute_command]
    reads nothing. *)
Lemma drain_guard_idle (w : World) :
  idle w ->
  match _result (conn w) with
  | Some result =>
      let* r := deref result in
      if unbuffered_active r then MySQLResult._finish_unbuffered_query result
      else ret tt
  | None => ret tt
  end w = (Return tt, w).
Proof.
  unfold idle. destruct (_result (conn w)) as [a|]; [|done].
  intros (r & Hr & Hact). unfold bind, deref. by rewrite Hr, Hact.
Qed.

Lemma execute_command_full (w : World) (wr : StreamWriter) (command : Z)
    (sql : bytes) (n : nat) :
  _writer (conn w) = Some wr -> idle w -> 0 <= command <= 255 ->
  length (byte_of_Z command :: sql) = (S n * Z.to_nat MAX_PACKET_LEN)%nat ->
  Connection._execute_command command (Bytes sql) w
  = (Return tt,
     logs (map (Sent (transport wr))
             (full_frames (S n) 0 (byte_of_Z command :: sql))) w).
Proof.
  intros Hw Hidle Hcmd Hlen. pose proof MAX_PACKET_LEN_bounds as Hm.
  destruct (Z.to_nat MAX_PACKET_LEN) as [|m] eqn:Em; [lia|].
  assert (Hm1 : Z.to_nat (MAX_PACKET_LEN - 1) = m) by lia.
  cbn [length] in Hlen.
  assert (Hsql : length sql = (m + n * S m)%nat) by lia.
  unfold Connection._execute_command.
  rewrite bind_get, Hw. cbn [truthy negb].
  erewrite bind_returns by (by apply drain_guard_idle).
  unfold Connection.send_command. rewrite bind_get, bind_ret.
  assert (Hchunk : Z.min MAX_PACKET_LEN (len sql + 1) = MAX_PACKET_LEN).
  { apply Z.min_l. unfold len. nia. }
  rewrite Hchunk.
  destruct (pack_i32_header MAX_PACKET_LEN ltac:(lia)) as [-> _].
  rewrite bind_lift, int2byte_byte, bind_lift by done.
  erewrite bind_returns by (by apply write_bytes_open).
  destruct (Z.ltb_spec MAX_PACKET_LEN MAX_PACKET_LEN); [lia|].
  rewrite py_slice_to_firstn, py_slice_from_skipn, Hm1 by lia.
  rewrite (send_rest_full n _ 1 _ _ wr); [| done | | ].
  - rewrite logs_cons. cbn [full_frames map]. rewrite Em.
    cbn [firstn skipn]. by rewrite <- !app_assoc.
  - rewrite length_skipn, Em. lia.
  - rewrite length_skipn. nia.
Qed.

End Dispatcher.

(** C2. A payload (command byte and body) whose length is [k] times the
    maximum frame size 0xFFFFFF is written by the command writer as
    exactly [k+1] frames, the last one of length zero, and the packet
    reader, fed with the bytes of those frames, reassembles exactly that
    payload and consumes nothing more. *)
Theorem framing_roundtrip `{Imports} (w : World) (wr : StreamWriter)
    (command : Z) (sql : bytes) (k : Z) :
  _writer (conn w) = Some wr -> idle w -> 0 <= command <= 255 ->
  len (byte_of_Z command :: sql) = k * MAX_PACKET_LEN ->
  exists frames : list bytes,
    Connection._execute_command command (Bytes sql) w
    = (Return tt, logs (map (Sent (transport wr)) frames) w)
    /\ len frames = k + 1
    /\ (exists seq_id, last frames = Some [x00; x00; x00; seq_id])
    /\ forall (w_in : World) (rd : StreamReader) (rest : bytes),
         _reader (conn w_in) = Some rd ->
         buffer rd = concat frames ++ rest ->
         _read_packet MysqlPacket w_in
         = (match check_error (Build_Packet (byte_of_Z command :: sql) 0) with
            | Some e => Raise e
            | None => Return (Build_Packet (byte_of_Z command :: sql) 0)
            end,
            logs [Received (byte_of_Z command :: sql)] (with_buffer rest w_in)).
Proof.
  intros Hw Hidle Hcmd Hlen. pose proof MAX_PACKET_LEN_bounds as Hm.
  set (p := byte_of_Z command :: sql) in *.
  assert (Hk : 1 <= k).
  { unfold len, p in Hlen. cbn [length] in Hlen. nia. }
  destruct (Z.to_nat k) as [|n] eqn:En; [lia|].
  assert (Hn : length p = (S n * Z.to_nat MAX_PACKET_LEN)%nat).
  { unfold len in Hlen. nia. }
  exists (full_frames (S n) 0 p). repeat split.
  - by apply execute_command_full.
  - unfold len. rewrite full_frames_length. lia.
  - rewrite full_frames_last. by eexists.
  - intros w_in rd rest Hrd Hbuf. unfold _read_packet.
    assert (Hread : try_except
              (let* w0 := get in read_frames (S (pending w0)) [])
              is_OSError
              (fun e =>
                 raise (OperationalError 2006
                          ("MySQL server has gone away ("
                           ++ os_error_text e ++ ")")))
              w_in
            = (Return p, with_buffer rest w_in)).
    { unfold try_except. rewrite bind_get.
      rewrite (read_frames_full (S n) _ 0 p [] rest w_in rd); try done.
      unfold pending. rewrite Hrd, Hbuf, length_app.
      pose proof (full_frames_bytes (S n) 0 p). lia. }
    rewrite (bind_returns _ _ _ _ _ Hread).
    unfold bind at 1, modify. rewrite bind_get. unfold MysqlPacket at 1.
    rewrite bind_lift. rewrite log_logs.
    by destruct (check_error _).
Qed.

Lemma framing_roundtrip_witness :
  exists frames : list bytes,
    Connection._execute_command (lib:=Reference.imports) COM_QUERY
      (Bytes (repeat x00 (Z.to_nat 16777214))) (Sample.world [])
    = (Return tt, logs (map (Sent 0) frames) (Sample.world []))
    /\ len frames = 2.
Proof.
  destruct (framing_roundtrip (H:=Reference.imports)
              (Sample.world []) (Build_StreamWriter 0)
              COM_QUERY (repeat x00 (Z.to_nat 16777214)) 1)
    as (frames & Hsent & Hcount & _).
  - reflexivity.
  - exact I.
  - unfold COM_QUERY. lia.
  - unfold len. cbn [length]. rewrite repeat_length, MAX_PACKET_LEN_value. lia.
  - exists frames. split; [exact Hsent|exact Hcount].
Defined.

(** ** Closing the transport *)

(** C9, as the code has it.  [close] on a Connection whose writer is
    already null raises AttributeError, closes nothing and leaves the
    world unchanged; on a connected one it closes the transport once and
    nulls the writer, so that a further [close] fails before it reaches
    any transport. *)
Theorem close_discipline (w : World) :
  match _writer (conn w) with
  | None => Connection.close w = (Raise (AttributeError "transport"), w)
  | Some wr =>
      exists w',
        Connection.close w = (Return tt, w')
        /\ trace w' = trace w ++ [Closed (transport wr)]
        /\ _writer (conn w') = None
        /\ Connection.close w' = (Raise (AttributeError "transport"), w')
  end.
Proof.
  unfold Connection.close, bind, get, attribute.
  destruct (_writer (conn w)) as [wr|] eqn:E; simpl; rewrite ?E; [|done].
  eexists. repeat split.
Qed.

(** C9 as stated fails: closing a disconnected Connection raises. *)
Lemma close_disconnected_raises :
  Connection.close Sample.disconnected
  = (Raise (AttributeError "transport"), Sample.disconnected)
  /\ ~ (exists w', Connection.close Sample.disconnected = (Return tt, w')).
Proof.
  split; [reflexivity|]. intros [w' E]. discriminate E.
Qed.

(** ** Pulling from a drained streaming result *)

(** C10. A single-row pull on a result whose [unbuffered_active] flag is
    false returns no row and leaves the whole world as it was: no packet
    is read, no field of the result or of the Connection changes. *)
Theorem inactive_pull_is_noop `{Imports} (w : World) (self : nat)
    (r : MySQLResult) :
  results w !! self = Some r ->
  unbuffered_active r = false ->
  MySQLResult._read_rowdata_packet_unbuffered self w = (Return None, w).
Proof.
  intros Hr Hact. unfold MySQLResult._read_rowdata_packet_unbuffered.
  unfold bind, deref. by rewrite Hr, Hact.
Qed.

Lemma inactive_pull_is_noop_witness :
  MySQLResult._read_rowdata_packet_unbuffered (lib:=Reference.imports) 0
    (Sample.world_with Sample.drained Sample.resultset)
  = (Return None, Sample.world_with Sample.drained Sample.resultset).
Proof.
  apply (inactive_pull_is_noop _ 0%nat Sample.drained); reflexivity.
Defined.

(** ** Decoding a column *)

(** C5, as the code has it.  A NULL column is [None] whatever the
    converters are.  A non-NULL column is decoded only when the
    Connection's [use_unicode] flag is set: with the charset's encoding
    for a textual type whose charset is not binary, not at all for a
    textual type in the binary charset, and with Python's default codec
    (UTF-8, not the Connection's encoding) for every other type; without
    the flag the raw bytes are kept.  The value is then handed to the
    converter of the type code, if any. *)
Theorem column_decoding `{Imports} (use_unicode : bool)
    (decs : gmap Z converter) (field : FieldDescriptor) (raw : bytes) :
  MySQLResult.decode_column use_unicode decs field None = inr VNone
  /\ MySQLResult.decode_column use_unicode decs field (Some raw)
     = if use_unicode then
         if bool_decide (type_code field ∈ TEXT_TYPES) then
           match charset_by_id (charsetnr field) with
           | inl e => inl e
           | inr cs =>
               if cs_is_binary cs then hand_over decs field (VBytes raw)
               else hand_over_text decs field (py_decode (cs_encoding cs) raw)
           end
         else hand_over_text decs field (py_decode "utf-8" raw)
       else hand_over decs field (VBytes raw).
Proof.
  split; [reflexivity|].
  unfold MySQLResult.decode_column, hand_over_text, hand_over.
  destruct use_unicode; [|reflexivity].
  destruct (bool_decide _).
  - destruct (charset_by_id _) as [e|cs]; [reflexivity|].
    destruct (cs_is_binary cs); simpl; [reflexivity|].
    by destruct (py_decode _ _).
  - by destruct (py_decode _ _).
Qed.

(** C5 as stated fails twice.  With [use_unicode] off, a latin1 text
    column is handed over as raw bytes, not as the text its charset
    decodes it to.  And on a latin1 Connection, a column of a
    non-textual type is decoded as UTF-8: the byte 0xE9, which latin1
    decodes, raises a decoding error. *)
Lemma column_not_decoded_as_stated :
  MySQLResult.decode_column (lib:=Reference.imports) false ∅
    Sample.text_field (Some [x41])
  <> hand_over_text ∅ Sample.text_field (Reference.py_decode "latin1" [x41])
  /\ MySQLResult.decode_column (lib:=Reference.imports) true ∅
       Sample.long_field (Some [xe9])
     <> hand_over_text ∅ Sample.long_field
          (Reference.py_decode (encoding Sample.settings) [xe9]).
Proof.
  split; vm_compute; discriminate.
Qed.

(** ** Parsing the greeting *)

Section Greeting.
Context {lib : Imports}.

(** A packet that arrives in one frame. *)
Lemma read_packet_single (w : World) (rd : StreamReader) (seq_id : Z)
    (payload rest : bytes) :
  _reader (conn w) = Some rd ->
  buffer rd = Sample.frame seq_id payload ++ rest ->
  len payload < MAX_PACKET_LEN ->
  _read_packet MysqlPacket w
  = (match check_error (Build_Packet payload 0) with
     | Some e => Raise e
     | None => Return (Build_Packet payload 0)
     end,
     logs [Received payload] (with_buffer rest w)).
Proof.
  intros Hrd Hbuf Hlen. pose proof (len_nonneg payload) as Hp.
  assert (Hread : try_except
            (let* w0 := get in read_frames (S (pending w0)) [])
            is_OSError
            (fun e =>
               raise (OperationalError 2006
                        ("MySQL server has gone away ("
                         ++ os_error_text e ++ ")")))
            w
          = (Return payload, with_buffer rest w)).
  { unfold try_except. rewrite bind_get. cbn [read_frames].
    unfold Sample.frame in Hbuf.
    erewrite bind_returns.
    2:{ apply (readexactly_app w rd (le_bytes 3 (len payload) ++ [byte_of_Z seq_id])
                 (payload ++ rest)); [done|].
        rewrite Hbuf. by rewrite <- !app_assoc. }
    rewrite header_length_field.
    destruct (pack_i32_header (len payload) ltac:(lia)) as [_ ->].
    rewrite bind_lift.
    erewrite bind_returns
      by (eapply readexactly_app; [by apply reader_with_buffer_open|done]).
    rewrite with_buffer_twice.
    by destruct (Z.ltb_spec (len payload) MAX_PACKET_LEN); [|lia]. }
  unfold _read_packet. rewrite (bind_returns _ _ _ _ _ Hread).
  unfold bind at 1, modify. rewrite bind_get. unfold MysqlPacket at 1.
  rewrite bind_lift, log_logs. by destruct (check_error _).
Qed.

End Greeting.

(** C4, what the code does.  On a greeting of protocol 10, server
    version "5.7.10" and thread id 42 that ends after the 8-byte salt,
    the filler and the low capability bytes, [_get_server_information]
    assigns the three attributes and then raises UnboundLocalError: the
    local [salt_len] is bound only inside the branch for the extended
    block. *)
Theorem short_greeting_raises `{Imports} (w : World) (rd : StreamReader)
    (s0 s1 s2 s3 s4 s5 s6 s7 filler cap0 cap1 : byte) (rest : bytes) :
  let data :=
    greeting_without_extension "5.7.10" [x2a; x00; x00; x00]
      [s0; s1; s2; s3; s4; s5; s6; s7] filler cap0 cap1 in
  _reader (conn w) = Some rd ->
  buffer rd = Sample.frame 0 data ++ rest ->
  check_error (Build_Packet data 0) = None ->
  exists w',
    Connection._get_server_information w
    = (Raise (UnboundLocalError "salt_len"), w')
    /\ protocol_version (handshake (conn w')) = Some 10
    /\ server_version (handshake (conn w')) = Some "5.7.10"%string
    /\ server_thread_id (handshake (conn w')) = Some 42.
Proof.
  intros data Hrd Hbuf Herr.
  unfold Connection._get_server_information.
  erewrite bind_returns.
  2:{ erewrite (read_packet_single w rd 0 data rest Hrd Hbuf).
      - by rewrite Herr.
      - rewrite MAX_PACKET_LEN_value. vm_compute. reflexivity. }
  cbn [pk_data]. subst data. eexists. split; [reflexivity|].
  repeat split.
Qed.

Lemma short_greeting_raises_witness :
  exists w',
    Connection._get_server_information (lib:=Reference.imports)
      (Sample.world (Sample.frame 0 Sample.short_greeting))
    = (Raise (UnboundLocalError "salt_len"), w')
    /\ protocol_version (handshake (conn w')) = Some 10
    /\ server_version (handshake (conn w')) = Some "5.7.10"%string
    /\ server_thread_id (handshake (conn w')) = Some 42.
Proof.
  apply (short_greeting_raises (H:=Reference.imports)
           (Sample.world (Sample.frame 0 Sample.short_greeting))
           (Build_StreamReader (Sample.frame 0 Sample.short_greeting) PeerClosed)
           "a" "b" "c" "d" "e" "f" "g" "h" x00 xff xf7 [])%byte.
  - reflexivity.
  - reflexivity.
  - reflexivity.
Defined.

(** ** The result store *)

Lemma set_results_twice (rs1 rs2 : list MySQLResult) (w : World) :
  set_results rs2 (set_results rs1 w) = set_results rs2 w.
Proof. reflexivity. Qed.

Lemma set_results_same (w : World) : set_results (results w) w = w.
Proof. by destruct w. Qed.

Lemma with_buffer_set_results (b : bytes) (rs : list MySQLResult) (w : World) :
  with_buffer b (set_results rs w) = set_results rs (with_buffer b w).
Proof. unfold with_buffer; simpl. by destruct (_reader (conn w)). Qed.

Lemma logs_set_results (es : list event) (rs : list MySQLResult) (w : World) :
  logs es (set_results rs w) = set_results rs (logs es w).
Proof. reflexivity. Qed.

Lemma pending_set_results (rs : list MySQLResult) (w : World) :
  pending (set_results rs w) = pending w.
Proof. reflexivity. Qed.

Lemma update_returns (self : nat) (f : MySQLResult -> MySQLResult) (w : World) :
  update self f w = (Return tt, set_results (alter f self (results w)) w).
Proof. reflexivity. Qed.

Lemma deref_returns (self : nat) (r : MySQLResult) (w : World) :
  results w !! self = Some r -> deref self w = (Return r, w).
Proof. intros E. unfold deref. by rewrite E. Qed.

Lemma lookup_alter_same (f : MySQLResult -> MySQLResult) (self : nat)
    (rs : list MySQLResult) (r : MySQLResult) :
  rs !! self = Some r -> alter f self rs !! self = Some (f r).
Proof. intros E. by rewrite list_lookup_alter_eq, E. Qed.

Lemma with_buffer_exists (w : World) : exists b, w = with_buffer b w.
Proof.
  destruct (_reader (conn w)) as [rd|] eqn:E.
  - exists (buffer rd). by rewrite with_buffer_same.
  - exists []. by rewrite with_buffer_closed.
Qed.


Lemma trace_set_results (rs : list MySQLResult) (w : World) :
  trace (set_results rs w) = trace w.
Proof. reflexivity. Qed.

Lemma trace_logs (es : list event) (w : World) : trace (logs es w) = trace w ++ es.
Proof. reflexivity. Qed.

Lemma results_set_results (rs : list MySQLResult) (w : World) :
  results (set_results rs w) = rs.
Proof. reflexivity. Qed.

Lemma results_logs (es : list event) (w : World) : results (logs es w) = results w.
Proof. reflexivity. Qed.

Lemma conn_set_results (rs : list MySQLResult) (w : World) :
  conn (set_results rs w) = conn w.
Proof. reflexivity. Qed.

Lemma conn_logs (es : list event) (w : World) : conn (logs es w) = conn w.
Proof. reflexivity. Qed.

Create Rewrite HintDb world.

#[global] Hint Rewrite
  with_buffer_twice with_buffer_logs with_buffer_set_results logs_logs
  logs_set_results set_results_twice results_with_buffer trace_with_buffer
  writer_with_buffer result_with_buffer settings_with_buffer
  pending_logs pending_set_results trace_set_results trace_logs
  results_set_results results_logs conn_set_results conn_logs : world.

Section ResultFacts.
Context {lib : Imports}.

(** Reading a packet through the result's back-reference. *)
Lemma connection_read_packet_spec (self : nat) (r : MySQLResult) (w : World) :
  results w !! self = Some r ->
  spec (MySQLResult.connection_read_packet self MysqlPacket) w (fun o w' =>
    exists b,
      match o with
      | Return p =>
          w' = logs [Received (pk_data p)] (with_buffer b w)
          /\ pk_position p = 0
          /\ check_error p = None
          /\ (length b + 4 <= pending w)%nat
          /\ connection r = Some TheConnection
      | Raise e =>
          (w' = with_buffer b w /\ transport_error e)
          \/ exists data, w' = logs [Received data] (with_buffer b w)
      | Stuck => False
      end).
Proof.
  intros Hr. unfold MySQLResult.connection_read_packet.
  apply spec_bind. unfold spec at 1. rewrite (deref_returns _ _ _ Hr). cbn [fst snd].
  apply spec_bind, spec_attribute.
  destruct (connection r) as [[]|].
  - eapply spec_mono; [apply read_packet_spec|].
    intros [p|e|] w' (b & Hp); exists b; [|done|done].
    destruct Hp as (data & -> & Hpt & Herr & Hb).
    injection Hpt as <-. done.
  - destruct (with_buffer_exists w) as [b Hb]. exists b. by left.
Qed.

(** [_check_packet_is_eof] touches nothing but the result's warning
    count and has-next flag, and only for an EOF marker. *)
Lemma check_packet_is_eof_returns (self : nat) (p : Packet) (w : World) :
  MySQLResult._check_packet_is_eof self p w
  = if is_eof_packet p then
      match EOFPacketWrapper p with
      | inr eof =>
          (Return true,
           set_results
             (alter (fun r => set_has_next (Some (eof_has_next eof))
                                (set_warning_count (eof_warning_count eof) r))
                self (results w)) w)
      | inl e => (Raise e, w)
      end
    else (Return false, w).
Proof.
  unfold MySQLResult._check_packet_is_eof.
  destruct (is_eof_packet p); [|reflexivity].
  destruct (EOFPacketWrapper p) as [e|eof]; [reflexivity|].
  rewrite bind_lift. rewrite (bind_returns _ _ _ _ _ (update_returns _ _ _)).
  rewrite (bind_returns _ _ _ _ _ (update_returns _ _ _)).
  cbn [ret results set_results]. by rewrite set_results_twice, list_alter_alter_eq.
Qed.

End ResultFacts.

(** ** The streaming result *)

Lemma spec_update (self : nat) (f : MySQLResult -> MySQLResult) (w : World)
    (Q : outcome unit -> World -> Prop) :
  Q (Return tt) (set_results (alter f self (results w)) w) ->
  spec (update self f) w Q.
Proof. auto. Qed.

Lemma spec_deref (self : nat) (r : MySQLResult) (w : World)
    (Q : outcome MySQLResult -> World -> Prop) :
  results w !! self = Some r -> Q (Return r) w -> spec (deref self) w Q.
Proof. intros E HQ. unfold spec. by rewrite (deref_returns _ _ _ E). Qed.

Lemma packet_eta (p : Packet) : pk_position p = 0 -> p = Build_Packet (pk_data p) 0.
Proof. destruct p; simpl. by intros ->. Qed.

Section Streaming.
Context {lib : Imports}.

Lemma result_read_ok_packet_spec (self : nat) (r : MySQLResult) (p : Packet)
    (w : World) :
  results w !! self = Some r ->
  spec (MySQLResult._read_ok_packet self p) w (fun o w' =>
    exists rs r',
      w' = set_results rs w /\ rs !! self = Some r'
      /\ connection r' = connection r
      /\ unbuffered_active r' = unbuffered_active r
      /\ fields r' = fields r
      /\ o <> Stuck).
Proof.
  intros Hr. unfold MySQLResult._read_ok_packet.
  apply spec_bind, spec_lift.
  destruct (OKPacketWrapper p) as [e|ok].
  { exists (results w), r. by rewrite set_results_same. }
  repeat (apply spec_bind, spec_update). apply spec_update.
  eexists _, _. split; [reflexivity|]. autorewrite with world.
  split; [by repeat apply lookup_alter_same|]. done.
Qed.

(** C8. The moment of which the claim speaks, the descriptors and
    their EOF marker read and no row pulled yet, does not come about in
    streaming mode.  When [init_unbuffered_query] returns on a first
    packet that is not an OK packet (a column count), the affected-row
    count is the sentinel 2^64-1 and the result is active, but that
    first packet is the only one received: [_get_descriptions()] is
    called without [yield from], so the descriptors and their EOF
    marker are still in the stream and [fields] is as it was.  The
    buffered sibling, [_read_result_packet], does wait for it. *)
Theorem sentinel_with_descriptors_unread (w : World) (self : nat)
    (r : MySQLResult) :
  results w !! self = Some r ->
  spec (MySQLResult.init_unbuffered_query self) w (fun o w' =>
    match o with
    | Return _ =>
        exists first r',
          trace w' = trace w ++ [Received first]
          /\ results w' !! self = Some r'
          /\ (is_ok_packet (Build_Packet first 0) = false ->
              affected_rows r' = Some (2 ^ 64 - 1)
              /\ unbuffered_active r' = true
              /\ connection r' = Some TheConnection
              /\ fields r' = fields r
              /\ result_description r' = result_description r)
    | Raise _ => True
    | Stuck => False
    end).
Proof.
  intros Hr. unfold MySQLResult.init_unbuffered_query.
  apply spec_bind, spec_update, spec_bind.
  eapply spec_mono.
  { eapply connection_read_packet_spec. autorewrite with world.
    by apply lookup_alter_same. }
  intros [p|e|] w1 (b & Hp); [|done|done].
  destruct Hp as (-> & Hpos & _ & _ & Hconn).
  rewrite (packet_eta p Hpos) in *. cbn [pk_data].
  destruct (is_ok_packet _) eqn:Hok.
  - apply spec_bind. eapply spec_mono.
    { eapply result_read_ok_packet_spec.
      autorewrite with world. by apply lookup_alter_same. }
    intros o w2 (rs & r' & -> & Hr' & _ & _ & _ & Hns).
    destruct o as [[]|e|]; [|done|done].
    apply spec_bind, spec_update, spec_update.
    eexists _, _. split; [|split].
    + autorewrite with world. reflexivity.
    + autorewrite with world. by repeat apply lookup_alter_same.
    + intros. congruence.
  - apply spec_bind, spec_lift.
    destruct (read_length_encoded_integer _) as [e|n]; [done|].
    apply spec_bind, spec_update, spec_update.
    eexists _, _. split; [|split].
    + autorewrite with world. reflexivity.
    + autorewrite with world. by repeat apply lookup_alter_same.
    + intros _. done.
Qed.

End Streaming.

Lemma set_results_keep (rs : list MySQLResult) (w : World) :
  results w = rs -> set_results rs w = w.
Proof. intros <-. apply set_results_same. Qed.

Lemma pending_with_buffer_le (b : bytes) (w : World) :
  (pending (with_buffer b w) <= length b)%nat.
Proof. rewrite pending_with_buffer. destruct (truthy _); lia. Qed.

Section Draining.
Context {lib : Imports}.

(** The drain loop reads packets up to and including the first EOF
    marker and then clears the result's flag and back-reference; it
    writes nothing and cannot run out of fuel. *)
Lemma finish_loop_spec (self : nat) (fuel : nat) :
  forall (w : World) (r : MySQLResult),
    results w !! self = Some r ->
    unbuffered_active r = true ->
    (pending w + 2 <= fuel)%nat ->
    spec (MySQLResult.finish_loop fuel self) w (fun o w' =>
      exists b received rs,
        w' = set_results rs (logs (map Received received) (with_buffer b w))
        /\ match o with
           | Return _ =>
               exists pkts eofp r',
                 received = pkts ++ [eofp]
                 /\ Forall not_eof pkts
                 /\ is_eof_packet (Build_Packet eofp 0) = true
                 /\ rs !! self = Some r'
                 /\ unbuffered_active r' = false
                 /\ connection r' = None
           | Raise _ => True
           | Stuck => False
           end).
Proof.
  induction fuel as [|fuel IH]; intros w r Hr Hact Hfuel; [lia|].
  cbn [MySQLResult.finish_loop].
  apply spec_bind. eapply spec_deref; [done|]. rewrite Hact.
  apply spec_bind. eapply spec_mono; [by eapply connection_read_packet_spec|].
  intros [p|e|] w1 (b & Hp); [| |done].
  - destruct Hp as (-> & Hpos & _ & Hb & _).
    rewrite (packet_eta p Hpos). set (data := pk_data p).
    apply spec_bind. unfold spec at 1. rewrite check_packet_is_eof_returns.
    destruct (is_eof_packet _) eqn:Heof.
    + destruct (EOFPacketWrapper _) as [e|eof]; cbn [fst snd].
      * exists b, [data], (results w). split; [|done].
        symmetry. apply set_results_keep. by autorewrite with world.
      * apply spec_bind, spec_bind, spec_update, spec_update.
        destruct fuel as [|fuel']; [lia|]. cbn [MySQLResult.finish_loop].
        apply spec_bind. eapply spec_deref.
        { autorewrite with world. repeat apply lookup_alter_same. done. }
        cbn [unbuffered_active set_connection set_unbuffered_active].
        apply spec_ret. eexists b, [data], _. split.
        { autorewrite with world. reflexivity. }
        exists [], data. eexists. split; [done|]. split; [by constructor|].
        split; [done|]. split; [by repeat apply lookup_alter_same|]. done.
    + cbn [fst snd]. apply spec_bind, spec_ret.
      eapply spec_mono.
      { eapply (IH _ r).
        - by autorewrite with world.
        - done.
        - autorewrite with world. pose proof (pending_with_buffer_le b w). lia. }
      intros o w2 (b2 & rec2 & rs2 & -> & Ho).
      exists b2, (data :: rec2), rs2. split.
      { autorewrite with world. reflexivity. }
      destruct o as [[]|e|]; [|done|done].
      destruct Ho as (pkts & eofp & r' & -> & Hpk & Ho).
      exists (data :: pkts), eofp, r'. split; [done|]. split; [|done].
      by constructor.
  - exists b.
    destruct Hp as [[-> _]|(data & ->)];
      [exists []|exists [data]]; exists (results w); (split; [|done]);
      cbn [map]; rewrite ?logs_nil;
      symmetry; apply set_results_keep; by autorewrite with world.
Qed.

Lemma finish_unbuffered_query_spec (self : nat) (w : World) (r : MySQLResult) :
  results w !! self = Some r ->
  unbuffered_active r = true ->
  spec (MySQLResult._finish_unbuffered_query self) w (fun o w' =>
    exists b received rs,
      w' = set_results rs (logs (map Received received) (with_buffer b w))
      /\ match o with
         | Return _ =>
             exists pkts eofp r',
               received = pkts ++ [eofp]
               /\ Forall not_eof pkts
               /\ is_eof_packet (Build_Packet eofp 0) = true
               /\ rs !! self = Some r'
               /\ unbuffered_active r' = false
               /\ connection r' = None
         | Raise _ => True
         | Stuck => False
         end).
Proof.
  intros Hr Hact. unfold MySQLResult._finish_unbuffered_query.
  apply spec_bind, spec_get. eapply finish_loop_spec; [done|done|lia].
Qed.

End Draining.

(** ** Dispatching a command *)

Section Dispatch.
Context {lib : Imports}.

Lemma spec_write_bytes (data : bytes) (w : World) (wr : StreamWriter)
    (Q : outcome unit -> World -> Prop) :
  _writer (conn w) = Some wr ->
  Q (Return tt) (logs [Sent (transport wr) data] w) ->
  spec (_write_bytes data) w Q.
Proof. intros E HQ. unfold spec. by rewrite (write_bytes_open _ _ _ E). Qed.

(** The continuation loop only writes frames and stops within its fuel. *)
Lemma send_rest_spec (fuel : nat) :
  forall (seq_id : Z) (sql : bytes) (w : World) (wr : StreamWriter),
    _writer (conn w) = Some wr ->
    (length sql < fuel)%nat ->
    exists frames,
      Connection.send_rest fuel seq_id sql w
      = (Return tt, logs (map (Sent (transport wr)) frames) w).
Proof.
  pose proof MAX_PACKET_LEN_bounds as Hm.
  induction fuel as [|fuel IH]; intros seq_id sql w wr Hw Hfuel; [lia|].
  cbn [Connection.send_rest]. pose proof (len_nonneg sql) as Hsql.
  set (chunk := Z.min MAX_PACKET_LEN (len sql)).
  assert (Hchunk : 0 <= chunk <= MAX_PACKET_LEN) by (unfold chunk; lia).
  destruct (pack_i32_header chunk Hchunk) as [-> _].
  rewrite bind_lift, header_length_field, int2byte_mod, bind_lift.
  erewrite bind_returns by (by apply write_bytes_open).
  rewrite py_slice_from_skipn by lia.
  destruct (Nat.eqb _ 0 && (chunk <? MAX_PACKET_LEN)) eqn:Hstop.
  - by eexists [_].
  - assert (Hpos : 0 < chunk).
    { destruct (Z.ltb_spec chunk MAX_PACKET_LEN) as [Hlt|]; [|lia].
      rewrite andb_true_r in Hstop. apply Nat.eqb_neq in Hstop.
      rewrite length_skipn in Hstop. unfold chunk, len in *. lia. }
    destruct (IH (seq_id + 1) (skipn (Z.to_nat chunk) sql)
                (logs [Sent (transport wr)
                         (le_bytes 3 chunk ++ [byte_of_Z seq_id]
                          ++ py_slice_to sql chunk)] w) wr)
      as (frames & ->); [done| |].
    + rewrite length_skipn. unfold chunk, len in *. lia.
    + eexists (_ :: frames). by rewrite logs_cons.
Qed.

(** Writing a command only writes frames, at least one when it returns
    and none when it raises. *)
Lemma send_command_spec (command : Z) (sql : text) (w : World)
    (wr : StreamWriter) :
  _writer (conn w) = Some wr ->
  spec (Connection.send_command command sql) w (fun o w' =>
    exists sent,
      w' = logs (map (Sent (transport wr)) sent) w
      /\ match o with
         | Return _ => sent <> []
         | Raise _ => sent = []
         | Stuck => False
         end).
Proof.
  intros Hw. pose proof MAX_PACKET_LEN_bounds as Hm.
  assert (Hnone : forall e,
            exists sent, w = logs (map (Sent (transport wr)) sent) w
                         /\ match @Raise unit e with
                            | Return _ => sent <> []
                            | Raise _ => sent = []
                            | Stuck => False
                            end).
  { intros e. exists []. by rewrite logs_nil. }
  unfold Connection.send_command. apply spec_bind, spec_get, spec_bind.
  assert (Hbody : forall body : bytes,
    spec
      (let chunk_size := Z.min MAX_PACKET_LEN (len body + 1) in
       let* packed := lift (pack_i32 chunk_size) in
       let* cmd := lift (int2byte command) in
       let prelude := packed ++ cmd in
       _write_bytes (prelude ++ py_slice_to body (chunk_size - 1)) ;;;
       (if chunk_size <? MAX_PACKET_LEN then ret tt
        else
          let seq_id := 1 in
          let sql0 := py_slice_from body (chunk_size - 1) in
          Connection.send_rest (S (length sql0)) seq_id sql0)) w
      (fun o w' =>
         exists sent,
           w' = logs (map (Sent (transport wr)) sent) w
           /\ match o with
              | Return _ => sent <> []
              | Raise _ => sent = []
              | Stuck => False
              end)).
  { intros body. cbv zeta. pose proof (len_nonneg body) as Hb.
    set (chunk := Z.min MAX_PACKET_LEN (len body + 1)).
    assert (Hchunk : 0 <= chunk <= MAX_PACKET_LEN) by (unfold chunk; lia).
    destruct (pack_i32_header chunk Hchunk) as [-> _].
    apply spec_bind, spec_lift, spec_bind, spec_lift.
    destruct (int2byte command) as [e|cmd]; [by apply Hnone|].
    apply spec_bind. eapply spec_write_bytes; [done|].
    destruct (chunk <? MAX_PACKET_LEN).
    - apply spec_ret. by eexists [_].
    - unfold spec.
      edestruct (send_rest_spec
                   (S (length (py_slice_from body (chunk - 1)))) 1
                   (py_slice_from body (chunk - 1))) as (frames & ->);
        [|lia|].
      + done.
      + cbn [fst snd]. eexists (_ :: frames). by rewrite logs_cons. }
  destruct sql as [s|body].
  - apply spec_lift. destruct (py_encode _ s) as [e|body]; [by apply Hnone|].
    apply Hbody.
  - apply spec_ret, Hbody.
Qed.

End Dispatch.

(** ** Buffered and streaming rows *)

Section Rows.
Context {lib : Imports}.

Lemma read_row_from_packet_returns (self : nat) (r : MySQLResult) (p : Packet)
    (w : World) :
  results w !! self = Some r ->
  MySQLResult._read_row_from_packet self p w
  = (match connection r with
     | None => Raise (AttributeError "use_unicode")
     | Some _ =>
         match fields r with
         | None => Raise (AttributeError "fields")
         | Some fs =>
             match MySQLResult.read_columns (use_unicode (settings (conn w)))
                     (conn_decoders (settings (conn w))) fs p with
             | inr row => Return row
             | inl e => Raise e
             end
         end
     end, w).
Proof.
  intros Hr. unfold MySQLResult._read_row_from_packet.
  rewrite (bind_returns _ _ _ _ _ (deref_returns _ _ _ Hr)).
  destruct (connection r); [|reflexivity]. cbn [attribute]. rewrite bind_ret, bind_get.
  destruct (fields r); [|reflexivity]. cbn [attribute]. rewrite bind_ret.
  by destruct (MySQLResult.read_columns _ _ _ _).
Qed.

(** The buffered loop: the packets before the first EOF marker, each
    decoded into one row, in order. *)
Lemma read_rows_spec (self : nat) (fuel : nat) :
  forall (w : World) (r : MySQLResult) (acc : list (list pyval)),
    results w !! self = Some r ->
    (pending w < fuel)%nat ->
    spec (MySQLResult.read_rows fuel self acc) w (fun o w' =>
      match o with
      | Return all =>
          exists b pkts eofp rs r' decoded,
            w' = set_results rs
                   (logs (map Received (pkts ++ [eofp])) (with_buffer b w))
            /\ Forall not_eof pkts
            /\ is_eof_packet (Build_Packet eofp 0) = true
            /\ rs !! self = Some r'
            /\ connection r' = None
            /\ all = acc ++ decoded
            /\ decodes_to (settings (conn w)) r pkts decoded
      | Raise _ => True
      | Stuck => False
      end).
Proof.
  induction fuel as [|fuel IH]; intros w r acc Hr Hfuel; [lia|].
  cbn [MySQLResult.read_rows].
  apply spec_bind. eapply spec_mono; [by eapply connection_read_packet_spec|].
  intros [p|e|] w1 (b & Hp); [|done|done].
  destruct Hp as (-> & Hpos & _ & Hb & _).
  rewrite (packet_eta p Hpos). set (data := pk_data p).
  apply spec_bind. unfold spec at 1. rewrite check_packet_is_eof_returns.
  destruct (is_eof_packet _) eqn:Heof.
  - destruct (EOFPacketWrapper _) as [e|eof]; cbn [fst snd]; [done|].
    apply spec_bind, spec_update, spec_ret.
    eexists b, [], data, _, _, []. split.
    { autorewrite with world. reflexivity. }
    split; [by constructor|]. split; [done|].
    split; [by repeat apply lookup_alter_same|].
    split; [done|]. split; [by rewrite app_nil_r|]. constructor.
  - cbn [fst snd]. apply spec_bind. unfold spec at 1.
    rewrite (read_row_from_packet_returns self r).
    2:{ by autorewrite with world. }
    destruct (connection r); [|done].
    destruct (fields r) as [fs|] eqn:Hfs; [|done].
    autorewrite with world.
    destruct (MySQLResult.read_columns _ _ fs _) as [e|row] eqn:Hrow; [done|].
    cbn [fst snd].
    eapply spec_mono.
    { eapply (IH _ r).
      - by autorewrite with world.
      - autorewrite with world. pose proof (pending_with_buffer_le b w). lia. }
    intros [all|e|] w2; [|done|done].
    intros (b2 & pkts & eofp & rs & r' & decoded & -> & Hpk & He & Hr' & Hc & -> & Hd).
    exists b2, (data :: pkts), eofp, rs, r', (row :: decoded). split.
    { autorewrite with world. reflexivity. }
    split; [by constructor|]. split; [done|]. split; [done|]. split; [done|].
    split; [by rewrite <- app_assoc|].
    constructor; [by exists fs|].
    by autorewrite with world in Hd.
Qed.


End Rows.


(** ** Steps that leave the transport alone *)

Lemma quiet_refl (w : World) : quiet w w.
Proof.
  repeat split. exists []. by rewrite app_nil_r.
Qed.

Lemma quiet_trans (w1 w2 w3 : World) : quiet w1 w2 -> quiet w2 w3 -> quiet w1 w3.
Proof.
  intros (Hn & Ho & Hw & Hr & es & Ht & Hes) (Hn' & Ho' & Hw' & Hr' & es' & Ht' & Hes').
  repeat split; try congruence.
  exists (es ++ es'). split; [by rewrite Ht', Ht, app_assoc|].
  by apply Forall_app.
Qed.

Lemma quietly_ret {A : Type} (a : A) : quietly (ret a).
Proof. intros w. apply quiet_refl. Qed.

Lemma quietly_raise {A : Type} (e : exn) : quietly (raise (A:=A) e).
Proof. intros w. apply quiet_refl. Qed.

Lemma quietly_stuck {A : Type} : quietly (stuck (A:=A)).
Proof. intros w. apply quiet_refl. Qed.

Lemma quietly_get : quietly get.
Proof. intros w. apply quiet_refl. Qed.

Lemma quietly_lift {A : Type} (r : exn + A) : quietly (lift r).
Proof. intros w. destruct r; apply quiet_refl. Qed.

Lemma quietly_attribute {A : Type} (name : string) (v : option A) :
  quietly (attribute name v).
Proof. intros w. destruct v; apply quiet_refl. Qed.

Lemma quietly_bind {A B : Type} (m : M A) (k : A -> M B) :
  quietly m -> (forall a, quietly (k a)) -> quietly (bind m k).
Proof.
  intros Hm Hk w. unfold bind. specialize (Hm w).
  destruct (m w) as [[a|e|] w1]; simpl in *; [|done|done].
  eapply quiet_trans; [done|]. apply Hk.
Qed.

Lemma quietly_try_except {A : Type} (m : M A) (sel : exn -> bool)
    (h : exn -> M A) :
  quietly m -> (forall e, quietly (h e)) -> quietly (try_except m sel h).
Proof.
  intros Hm Hh w. unfold try_except. specialize (Hm w).
  destruct (m w) as [[a|e|] w1]; simpl in *; [done| |done].
  destruct (sel e); [|done]. eapply quiet_trans; [done|]. apply Hh.
Qed.

Lemma quietly_try_finally {A : Type} (m : M A) (f : M unit) :
  quietly m -> quietly f -> quietly (try_finally m f).
Proof.
  intros Hm Hf w. unfold try_finally. specialize (Hm w).
  destruct (m w) as [[a|e|] w1]; simpl in *; [| |done];
    (eapply quiet_trans; [done|]);
    apply quietly_bind; auto using quietly_ret, quietly_raise.
Qed.

Lemma quietly_assign (f : Connection -> Connection) :
  (forall c, _writer (f c) = _writer c /\ _reader (f c) = _reader c) ->
  quietly (assign f).
Proof.
  intros Hf w. destruct (Hf (conn w)) as [Hw Hr].
  unfold assign, modify, quiet; simpl. rewrite Hw, Hr.
  repeat split. exists []. by rewrite app_nil_r.
Qed.

Lemma quietly_update (self : nat) (f : MySQLResult -> MySQLResult) :
  quietly (update self f).
Proof.
  intros w. unfold quiet; simpl. repeat split. exists []. by rewrite app_nil_r.
Qed.

Lemma quietly_deref (self : nat) : quietly (deref self).
Proof. intros w. unfold deref. destruct (_ !! _); apply quiet_refl. Qed.

Lemma quietly_log (e : event) : packet_event e -> quietly (modify (log e)).
Proof.
  intros He w. unfold quiet; simpl. repeat split. exists [e]. split; [done|].
  by constructor.
Qed.

Lemma quietly_readexactly (n : Z) : quietly (readexactly n).
Proof.
  intros w. unfold readexactly, bind, get, attribute.
  destruct (_reader (conn w)) as [rd|] eqn:E; simpl; [|apply quiet_refl].
  destruct (n <=? len (buffer rd)); unfold quiet; simpl; rewrite E;
    repeat split; exists []; by rewrite app_nil_r.
Qed.

Create HintDb quiet discriminated.

#[global] Hint Resolve quietly_ret quietly_raise quietly_stuck quietly_get
  quietly_lift quietly_attribute quietly_update quietly_deref
  quietly_readexactly : quiet.

(** One step of the decomposition of a computation into quiet parts. *)
Ltac quiet_step :=
  lazymatch goal with
  | |- quietly (bind _ _) => apply quietly_bind; [|intros ?]
  | |- quietly (try_except _ _ _) => apply quietly_try_except; [|intros ?]
  | |- quietly (try_finally _ _) => apply quietly_try_finally
  | |- quietly (assign _) => apply quietly_assign; intros ?; by split
  | |- quietly (modify (log _)) => by apply quietly_log
  | |- quietly (match ?x with _ => _ end) => destruct x
  | |- quietly (let _ := _ in _) => cbv zeta
  | |- _ => solve [eauto with quiet]
  end.

Ltac quiet_steps := repeat quiet_step.

Section Quiet.
Context {lib : Imports}.

Lemma quietly_read_frames (fuel : nat) (buff : bytes) :
  quietly (read_frames fuel buff).
Proof.
  revert buff. induction fuel as [|fuel IH]; intros buff; cbn [read_frames];
    quiet_steps.
Qed.

Hint Resolve quietly_read_frames : quiet.

Lemma quietly_read_packet {P : Type} (packet_type : bytes -> string -> exn + P) :
  quietly (_read_packet packet_type).
Proof. unfold _read_packet. quiet_steps. Qed.

Lemma quietly_write_bytes (data : bytes) : quietly (_write_bytes data).
Proof. unfold _write_bytes. quiet_steps. Qed.

Hint Resolve quietly_read_packet quietly_write_bytes : quiet.

Lemma quietly_result_init : quietly MySQLResult.__init__.
Proof.
  intros w. unfold quiet; simpl. repeat split. exists []. by rewrite app_nil_r.
Qed.

Lemma quietly_connection_read_packet {P : Type} (self : nat)
    (packet_type : bytes -> string -> exn + P) :
  quietly (MySQLResult.connection_read_packet self packet_type).
Proof. unfold MySQLResult.connection_read_packet. quiet_steps. Qed.

Lemma quietly_result_read_ok_packet (self : nat) (p : Packet) :
  quietly (MySQLResult._read_ok_packet self p).
Proof. unfold MySQLResult._read_ok_packet. quiet_steps. Qed.

Lemma quietly_check_packet_is_eof (self : nat) (p : Packet) :
  quietly (MySQLResult._check_packet_is_eof self p).
Proof. unfold MySQLResult._check_packet_is_eof. quiet_steps. Qed.

Lemma quietly_read_row_from_packet (self : nat) (p : Packet) :
  quietly (MySQLResult._read_row_from_packet self p).
Proof. unfold MySQLResult._read_row_from_packet. quiet_steps. Qed.

Hint Resolve quietly_result_init quietly_connection_read_packet
  quietly_result_read_ok_packet quietly_check_packet_is_eof
  quietly_read_row_from_packet : quiet.

Lemma quietly_read_descriptions (self : nat) (n : nat) (acc : list pyval) :
  quietly (MySQLResult.read_descriptions self n acc).
Proof.
  revert acc. induction n as [|n IH]; intros acc;
    cbn [MySQLResult.read_descriptions]; quiet_steps.
Qed.

Hint Resolve quietly_read_descriptions : quiet.

Lemma quietly_get_descriptions (self : nat) :
  quietly (MySQLResult._get_descriptions self).
Proof. unfold MySQLResult._get_descriptions. quiet_steps. Qed.

Lemma quietly_read_rows (fuel : nat) (self : nat) (acc : list (list pyval)) :
  quietly (MySQLResult.read_rows fuel self acc).
Proof.
  revert acc. induction fuel as [|fuel IH]; intros acc;
    cbn [MySQLResult.read_rows]; quiet_steps.
Qed.

Hint Resolve quietly_get_descriptions quietly_read_rows : quiet.

Lemma quietly_read_rowdata_packet (self : nat) :
  quietly (MySQLResult._read_rowdata_packet self).
Proof. unfold MySQLResult._read_rowdata_packet. quiet_steps. Qed.

Hint Resolve quietly_read_rowdata_packet : quiet.

Lemma quietly_read_result_packet (self : nat) (p : Packet) :
  quietly (MySQLResult._read_result_packet self p).
Proof. unfold MySQLResult._read_result_packet. quiet_steps. Qed.

Hint Resolve quietly_read_result_packet : quiet.

Lemma quietly_result_read (self : nat) : quietly (MySQLResult.read self).
Proof. unfold MySQLResult.read. quiet_steps. Qed.

Lemma quietly_init_unbuffered_query (self : nat) :
  quietly (MySQLResult.init_unbuffered_query self).
Proof. unfold MySQLResult.init_unbuffered_query. quiet_steps. Qed.

Lemma quietly_read_rowdata_packet_unbuffered (self : nat) :
  quietly (MySQLResult._read_rowdata_packet_unbuffered self).
Proof. unfold MySQLResult._read_rowdata_packet_unbuffered. quiet_steps. Qed.

Lemma quietly_finish_loop (fuel : nat) (self : nat) :
  quietly (MySQLResult.finish_loop fuel self).
Proof.
  induction fuel as [|fuel IH]; cbn [MySQLResult.finish_loop]; quiet_steps.
Qed.

Hint Resolve quietly_result_read quietly_init_unbuffered_query
  quietly_read_rowdata_packet_unbuffered quietly_finish_loop : quiet.

Lemma quietly_finish_unbuffered_query (self : nat) :
  quietly (MySQLResult._finish_unbuffered_query self).
Proof. unfold MySQLResult._finish_unbuffered_query. quiet_steps. Qed.

Hint Resolve quietly_finish_unbuffered_query : quiet.

Lemma quietly_assign_handshake (f : Handshake -> Handshake) :
  quietly (Connection.assign_handshake f).
Proof. unfold Connection.assign_handshake. quiet_steps. Qed.

Lemma quietly_assign_server_status (v : Z) :
  quietly (Connection.assign_server_status v).
Proof. unfold Connection.assign_server_status. quiet_steps. Qed.

Hint Resolve quietly_assign_handshake quietly_assign_server_status : quiet.

Lemma quietly_read_ok_packet : quietly Connection._read_ok_packet.
Proof. unfold Connection._read_ok_packet. quiet_steps. Qed.

Lemma quietly_send_rest (fuel : nat) (seq_id : Z) (sql : bytes) :
  quietly (Connection.send_rest fuel seq_id sql).
Proof.
  revert seq_id sql. induction fuel as [|fuel IH]; intros seq_id sql;
    cbn [Connection.send_rest]; quiet_steps.
Qed.

Hint Resolve quietly_read_ok_packet quietly_send_rest : quiet.

Lemma quietly_send_command (command : Z) (sql : text) :
  quietly (Connection.send_command command sql).
Proof. unfold Connection.send_command. quiet_steps. Qed.

Hint Resolve quietly_send_command : quiet.

Lemma quietly_execute_command (command : Z) (sql : text) :
  quietly (Connection._execute_command command sql).
Proof. unfold Connection._execute_command. quiet_steps. Qed.

Lemma quietly_read_query_result (unbuffered : bool) :
  quietly (Connection._read_query_result unbuffered).
Proof. unfold Connection._read_query_result. quiet_steps. Qed.

Hint Resolve quietly_execute_command quietly_read_query_result : quiet.

Lemma quietly_query (sql : text) (unbuffered : bool) :
  quietly (Connection.query sql unbuffered).
Proof. unfold Connection.query. quiet_steps. Qed.

Lemma quietly_commit : quietly Connection.commit.
Proof. unfold Connection.commit. quiet_steps. Qed.

Lemma quietly_escape (obj : pyval) : quietly (Connection.escape obj).
Proof. unfold Connection.escape, Connection.escape_string_. quiet_steps. Qed.

Hint Resolve quietly_query quietly_commit quietly_escape : quiet.

Lemma quietly_autocommit (value : bool) : quietly (Connection.autocommit value).
Proof.
  unfold Connection.autocommit, Connection._send_autocommit_mode,
    Connection.get_autocommit.
  quiet_steps.
Qed.

Lemma quietly_get_server_information :
  quietly Connection._get_server_information.
Proof. unfold Connection._get_server_information. quiet_steps. Qed.

Lemma quietly_request_authentication :
  quietly Connection._request_authentication.
Proof. unfold Connection._request_authentication. quiet_steps. Qed.

Lemma quietly_ping_attempt : quietly ping_attempt.
Proof. unfold ping_attempt. quiet_steps. Qed.

End Quiet.

(** ** Ping and its one reconnection *)

Lemma quiet_half_open (w w' : World) : quiet w w' -> half_open w' = half_open w.
Proof. intros (_ & _ & Hw & Hr & _). unfold half_open. by rewrite Hw, Hr. Qed.

Lemma try_except_reraise {A : Type} (m : M A) (h : exn -> M A) (w : World) :
  (forall e, h e = raise e) -> try_except m (fun _ => true) h w = m w.
Proof.
  intros Hh. unfold try_except. destruct (m w) as [[a|e|] w1]; try done.
  by rewrite Hh.
Qed.

Lemma bind_ext {A B : Type} (m : M A) (k1 k2 : A -> M B) (w : World) :
  (forall a w1, m w = (Return a, w1) -> k1 a w1 = k2 a w1) ->
  bind m k1 w = bind m k2 w.
Proof.
  intros Hk. unfold bind. destruct (m w) as [[a|e|] w1]; try done. by apply Hk.
Qed.

Lemma try_except_ext {A : Type} (m : M A) (sel : exn -> bool)
    (h1 h2 : exn -> M A) (w : World) :
  (forall e w1, h1 e w1 = h2 e w1) ->
  try_except m sel h1 w = try_except m sel h2 w.
Proof.
  intros Hh. unfold try_except. destruct (m w) as [[a|e|] w1]; try done.
  by destruct (sel e).
Qed.

Section Ping.
Context {lib : Imports}.

Lemma ping_at_unfold (depth : nat) (reconnect : bool) (w : World) :
  Connection.ping_at (S depth) reconnect w
  = (let* reconnect' :=
       if half_open w then
         if reconnect then Connection.connect ;;; ret false
         else raise (MySQLError "Already closed")
       else ret reconnect in
     try_except ping_attempt (fun _ => true)
       (fun e =>
          if reconnect' then
            Connection.connect ;;; Connection.ping_at depth false
          else raise e)) w.
Proof. reflexivity. Qed.

(** Without permission to reconnect, [ping] is the guard and one attempt. *)
Lemma ping_at_false (depth : nat) (w : World) :
  Connection.ping_at (S depth) false w
  = if half_open w then (Raise (MySQLError "Already closed"), w)
    else ping_attempt w.
Proof.
  rewrite ping_at_unfold. destruct (half_open w); [reflexivity|].
  rewrite bind_ret. by apply try_except_reraise.
Qed.

Lemma ping_at_true (depth : nat) (w : World) :
  half_open w = false ->
  Connection.ping_at (S (S depth)) true w
  = match ping_attempt w with
    | (Raise e, w1) =>
        (Connection.connect ;;; Connection.ping_at (S depth) false) w1
    | r => r
    end.
Proof.
  intros Hw. rewrite ping_at_unfold, Hw, bind_ret. unfold try_except.
  by destruct (ping_attempt w) as [[[]|e|] w1].
Qed.

(** Two levels of nesting are all [ping] ever uses. *)
Lemma ping_at_enough (depth : nat) (reconnect : bool) (w : World) :
  Connection.ping_at (S (S depth)) reconnect w = Connection.ping reconnect w.
Proof.
  unfold Connection.ping. destruct reconnect; [|by rewrite !ping_at_false].
  rewrite !ping_at_unfold. destruct (half_open w).
  - apply bind_ext. intros a w1 Ha.
    assert (a = false) as ->.
    { unfold bind in Ha.
      destruct (Connection.connect w) as [[[]|e|] w2]; unfold ret in Ha;
        by inversion Ha. }
    reflexivity.
  - rewrite !bind_ret. apply try_except_ext. intros e w1.
    apply bind_ext. intros _ w2 _. by rewrite !ping_at_false.
Qed.

Lemma quiet_ping_false (w : World) : quiet w (Connection.ping false w).2.
Proof.
  unfold Connection.ping. rewrite ping_at_false.
  destruct (half_open w); [apply quiet_refl|apply quietly_ping_attempt].
Qed.

End Ping.

(** C6. On a Connection that is not half open (the guard at the head of
    [ping] does not fire), [ping] without permission to reconnect is one
    PING attempt whose failure is the caller's, and it opens no
    transport.  With permission, a failed attempt is followed by
    [connect]; if that raises, the caller gets its exception; otherwise
    the result is that of [ping] without permission on the reconnected
    Connection, which again opens no transport: one retry, whose failure
    propagates.  A successful first attempt is the result at once. *)
Theorem ping_reconnect_policy `{Imports} (w : World) :
  half_open w = false ->
  (Connection.ping false w = ping_attempt w
   /\ quiet w (Connection.ping false w).2)
  /\ match ping_attempt w with
     | (Raise e, w1) =>
         match Connection.connect w1 with
         | (Return _, w2) =>
             Connection.ping true w = Connection.ping false w2
             /\ quiet w2 (Connection.ping false w2).2
         | (Raise e', w2) => Connection.ping true w = (Raise e', w2)
         | (Stuck, w2) => Connection.ping true w = (Stuck, w2)
         end
     | (o, w1) => Connection.ping true w = (o, w1)
     end
  /\ forall depth reconnect,
       Connection.ping_at (S (S depth)) reconnect w = Connection.ping reconnect w.
Proof.
  intros Hw. split; [|split].
  - split; [|apply quiet_ping_false].
    unfold Connection.ping. by rewrite ping_at_false, Hw.
  - assert (Ht : Connection.ping true w
                 = match ping_attempt w with
                   | (Raise e, w1) =>
                       (Connection.connect ;;; Connection.ping_at 1 false) w1
                   | r => r
                   end).
    { unfold Connection.ping. by rewrite ping_at_true. }
    rewrite Ht. destruct (ping_attempt w) as [[[]|e|] w1]; try done.
    unfold bind.
    destruct (Connection.connect w1) as [[[]|e'|] w2]; try done.
    split; [|apply quiet_ping_false].
    unfold Connection.ping. by rewrite !ping_at_false.
  - intros depth reconnect. apply ping_at_enough.
Qed.

(** ** Connecting *)

#[global] Hint Resolve quietly_get_server_information
  quietly_request_authentication quietly_query quietly_commit
  quietly_autocommit : quiet.

Lemma settles_bind {A B : Type} (m : M A) (k : A -> M B) :
  settles m -> (forall a, quietly (k a)) -> settles (bind m k).
Proof.
  intros Hm Hk w. specialize (Hm w). unfold bind.
  destruct (m w) as [[a|e|] w1]; simpl in *; [|done|done].
  specialize (Hk a w1). apply quiet_half_open in Hk. rewrite Hm in Hk.
  destruct (k a w1) as [[b|e|] w2]; simpl in *; auto.
Qed.

Lemma settles_open (f : StreamReader * StreamWriter -> string) :
  settles
    (let* rw := open_connection in
     assign (set_reader (Some (fst rw))) ;;;
     assign (set_writer (Some (snd rw))) ;;;
     assign (set_host_info (f rw))).
Proof.
  intros w. unfold bind, open_connection.
  destruct (network w) as [|[rd|] rest]; simpl; auto.
Qed.

Section Connecting.
Context {lib : Imports}.

(** However [connect] ends, it leaves a reader with the writer or
    neither: the state that the guard of [ping] tests for does not
    arise from it, and [close] only removes the writer. *)
Lemma connect_settles (w : World) : half_open (Connection.connect w).2 = false.
Proof.
  unfold Connection.connect, try_except.
  match goal with
  | |- context [bind get ?F w] =>
      assert (Hbody : settles (F w)); [|rewrite bind_get; specialize (Hbody w)]
  end.
  { cbv zeta. apply settles_bind.
    - destruct (_ && _); apply settles_open.
    - intros _. quiet_steps. }
  cbv zeta in Hbody |- *.
  match goal with
  | H : match (?m w).1 with _ => _ end |- _ =>
      destruct (m w) as [[[]|e|] w1]; simpl in H |- *; try done
  end.
  destruct (is_OSError e); [reflexivity|]. by destruct Hbody.
Qed.

Lemma close_settles (w : World) : half_open (Connection.close w).2 = false.
Proof.
  unfold half_open, Connection.close, bind, get, attribute.
  by destruct (_writer (conn w)) eqn:E; simpl; rewrite ?E.
Qed.

Lemma init_settles (a : InitArgs) (c : Connection) :
  Connection.__init__ a = inr c -> _reader c = None /\ _writer c = None.
Proof.
  unfold Connection.__init__.
  destruct (Connection._config _ "port" _ _) as [e|port0]; [done|].
  destruct (charset_by_name _) as [cs|]; [|done].
  by intros [= <-].
Qed.

End Connecting.

(** ** A missing username *)

(** The world after an assignment, with the projections of the records
    just built reduced, so that it does not grow with every step. *)
Ltac world_cbn :=
  cbn [conn results network opened clock trace
       settings user db client_flag _result _affected_rows host_info
       autocommit_mode _reader _writer handshake connected_time
       protocol_version server_version server_thread_id salt
       server_capabilities server_language server_charset server_status
       set_conn set_results log set_handshake set_server_status set_user
       set_db set_client_flag set_result set_affected_rows set_host_info
       set_autocommit_mode set_reader set_writer set_connected_time].

(** One step of the symbolic run of a computation under [spec]. *)
Ltac spec_step :=
  cbv beta iota; world_cbn;
  lazymatch goal with
  | |- spec (bind _ _) _ _ => apply spec_bind
  | |- spec (ret _) _ _ => apply spec_ret
  | |- spec (raise _) _ _ => apply spec_raise
  | |- spec get _ _ => apply spec_get
  | |- spec (modify _) _ _ => apply spec_modify; world_cbn
  | |- spec (assign _) _ _ => apply spec_modify; world_cbn
  | |- spec (Connection.assign_handshake _) _ _ => apply spec_modify; world_cbn
  | |- spec (Connection.assign_server_status _) _ _ =>
      apply spec_modify; world_cbn
  | |- spec (lift ?r) _ _ => apply spec_lift; destruct r
  | |- spec (attribute _ ?v) _ _ => apply spec_attribute; destruct v
  | |- spec (match ?x with _ => _ end) _ _ => destruct x
  | |- spec (let _ := _ in _) _ _ => cbv zeta
  end.

Section Username.
Context {lib : Imports}.

(** [_get_server_information] receives the greeting and nothing else,
    writes nothing, and leaves the user name alone. *)
Lemma get_server_information_spec (w : World) :
  spec Connection._get_server_information w (fun o w' =>
    user (conn w') = user (conn w)
    /\ match o with
       | Return _ => exists p, trace w' = trace w ++ [Received p]
       | Raise e =>
           (trace w' = trace w /\ transport_error e)
           \/ exists p, trace w' = trace w ++ [Received p]
       | Stuck => False
       end).
Proof.
  unfold Connection._get_server_information. cbv zeta. apply spec_bind.
  eapply spec_mono; [apply read_packet_spec|].
  intros [p|e|] w1 (b & Hp); [| |done].
  - destruct Hp as (data & -> & _).
    assert (Hu : user (conn (logs [Received data] (with_buffer b w)))
                 = user (conn w)).
    { unfold with_buffer. by destruct (_reader (conn w)). }
    assert (Ht : trace (logs [Received data] (with_buffer b w))
                 = trace w ++ [Received data]) by (by autorewrite with world).
    revert Hu Ht. generalize (logs [Received data] (with_buffer b w)).
    intros w1 Hu Ht.
    repeat spec_step; (split; [exact Hu|]); eauto.
  - split.
    + destruct Hp as [[-> _]|(data & ->)]; unfold with_buffer;
        by destruct (_reader (conn w)).
    + destruct Hp as [[-> He]|(data & ->)]; autorewrite with world; eauto.
Qed.

(** Without a user name, [_request_authentication] raises before it
    reads or writes anything. *)
Lemma request_authentication_without_user (w : World) :
  user (conn w) = None ->
  spec Connection._request_authentication w (fun o w' =>
    trace w' = trace w
    /\ (o = Raise (ValueError "Did not specify a username")
        \/ o = Raise (AttributeError "server_version"))).
Proof.
  intros Hu. unfold Connection._request_authentication.
  repeat (first [rewrite Hu | spec_step]); try discriminate Hu;
    (split; [reflexivity|by auto]).
Qed.

End Username.

(** C7, as the code has it.  A missing username is no error at
    construction: [__init__] puts the login name of the operating system
    in its place.  And when the [user] attribute of a Connection is
    nevertheless [None], [connect] never succeeds, and it raises the
    usage error only after the transport was opened and the greeting
    packet received; nothing has been written by then. *)
Theorem missing_username `{Imports} :
  (forall (a : InitArgs) (c : Connection),
     Connection.__init__ a = inr c ->
     exists name,
       user c = Some (Str name)
       /\ (arg_read_default_file a = None ->
           arg_read_default_group a = None ->
           truthy_str (arg_user a) = false ->
           name = DEFAULT_USER))
  /\ (forall w : World,
        user (conn w) = None ->
        spec Connection.connect w (fun o w' =>
          match o with
          | Raise e =>
              forall msg, e = ValueError msg ->
                exists t p, trace w' = trace w ++ [Opened t; Received p]
          | _ => False
          end)).
Proof.
  split.
  - intros a c. unfold Connection.__init__.
    destruct (Connection._config _ "port" _ _) as [e|port0]; [done|].
    destruct (charset_by_name _) as [cs|]; [|done].
    intros [= <-]. cbn [user].
    destruct (truthy_str (Connection._config _ "user" (arg_user a) Some)) eqn:Hcfg.
    + destruct (Connection._config _ "user" (arg_user a) Some) as [name|] eqn:Hname; [|done].
      exists name. split; [done|]. intros Hf Hg Hnone.
      rewrite Hf, Hg in Hname. cbn in Hname. rewrite Hname in Hnone.
      cbn in Hcfg, Hnone. congruence.
    + exists DEFAULT_USER. by split.
  - intros w Hu. unfold Connection.connect.
    apply spec_try_except, spec_bind, spec_get. cbv zeta. apply spec_bind.
    assert (Hopen : forall f : StreamReader * StreamWriter -> string,
      spec
        (let* rw := open_connection in
         assign (set_reader (Some (fst rw))) ;;;
         assign (set_writer (Some (snd rw))) ;;;
         assign (set_host_info (f rw))) w
        (fun o w1 =>
           match o with
           | Return _ =>
               user (conn w1) = None /\ trace w1 = trace w ++ [Opened (opened w)]
           | Raise e => e = OSError (refusal w) /\ trace w1 = trace w
           | Stuck => False
           end)).
    { intros f. unfold spec, bind, open_connection.
      destruct (network w) as [|[rd|] rest]; simpl; auto. }
    eapply spec_mono.
    { destruct (_ && _); apply Hopen. }
    intros [[]|e|] w1; [| |done].
    2:{ intros [-> Ht]. simpl. do 5 spec_step. intros msg Hmsg. discriminate. }
    intros [Hu1 Ht1]. apply spec_bind.
    eapply spec_mono; [apply get_server_information_spec|].
    intros [[]|e|] w2 [Hu2 Hg]; [| |done].
    + destruct Hg as [p Ht2]. apply spec_bind.
      eapply spec_mono.
      { apply request_authentication_without_user. congruence. }
      intros o w3 [Ht3 [->| ->]]; simpl; intros msg _;
        exists (opened w), p; rewrite Ht3, Ht2, Ht1; by rewrite <- app_assoc.
    + destruct (is_OSError e) eqn:He.
      { do 5 spec_step. intros msg Hmsg. discriminate. }
      intros msg ->. destruct Hg as [[_ []]|[p Ht2]].
      exists (opened w), p. rewrite Ht2, Ht1. by rewrite <- app_assoc.
Qed.

(** ** The properties at work on the reference instance *)

(** C7 as stated fails: a connect attempt that names no user logs in as
    the login name of the operating system; no usage error is raised,
    and packets are received and written. *)
Lemma missing_username_proceeds :
  exists c,
    Connection.__init__ (lib:=Reference.imports) Sample.arguments = inr c
    /\ user c = Some (Str "root")
    /\ (Connection.connect (lib:=Reference.imports) (Sample.start c)).1
       = Return tt
    /\ length (trace (Connection.connect (lib:=Reference.imports)
                        (Sample.start c)).2) = 6%nat.
Proof.
  exists Sample.fresh. split; [vm_compute; reflexivity|].
  split; [reflexivity|]. split; vm_compute; reflexivity.
Qed.

(** With the [user] attribute set to [None] by hand, the usage error
    comes after the greeting. *)
Lemma missing_username_witness :
  spec (Connection.connect (lib:=Reference.imports))
    (Sample.start (set_user None Sample.fresh))
    (fun o w' =>
       match o with
       | Raise e =>
           forall msg, e = ValueError msg ->
             exists t p, trace w' = [] ++ [Opened t; Received p]
       | _ => False
       end)
  /\ (Connection.connect (lib:=Reference.imports)
        (Sample.start (set_user None Sample.fresh))).1
     = Raise (ValueError "Did not specify a username").
Proof.
  split.
  - apply (proj2 (missing_username (H:=Reference.imports))). reflexivity.
  - vm_compute. reflexivity.
Defined.


(** C3. The claim fails on the code at a result set that reaches the
    Connection by [query(sql, unbuffered=True)]: the descriptors were
    not read when the query returned (see C8), so the drain of the next
    command stops at the EOF marker that ends the column descriptors.
    The command is written with the rows of the pending result and the
    EOF marker that ends them still unread in the stream, and the reply
    to the command will be looked for in a row packet.  With the
    descriptors consumed, which is the state the drain is written for,
    the same command drains the rows to their EOF marker before it is
    written. *)
Theorem command_written_with_rows_unread :
  let sql := Str "SELECT c FROM t" in
  let queried :=
    Connection.query (lib:=Reference.imports) sql true
      (Sample.world Sample.resultset) in
  let pinged :=
    Connection._execute_command (lib:=Reference.imports) COM_PING (Str "")
      queried.2 in
  let described :=
    Sample.world_with (set_fields (Some [Sample.text_field]) Sample.streaming)
      Sample.rowdata in
  queried.1 = Return (Some (2 ^ 64 - 1))
  /\ _result (conn queried.2) = Some 0%nat
  /\ unbuffered_active <$> results queried.2 !! 0%nat = Some true
  /\ pinged.1 = Return tt
  /\ trace pinged.2
     = trace queried.2
       ++ [Received Sample.column; Received Sample.eof;
           Sent 0 (Sample.frame 0 [byte_of_Z COM_PING])]
  /\ buffer <$> _reader (conn pinged.2) = Some Sample.rowdata
  /\ unbuffered_active <$> results pinged.2 !! 0%nat = Some false
  /\ (Connection.ping (lib:=Reference.imports) false
        (Connection.query (lib:=Reference.imports) sql true
           (Sample.world (Sample.resultset ++ Sample.frame 1 Sample.ok))).2).1
     = Raise (OperationalError 2014 "Command Out of Sync")
  /\ Connection._execute_command (lib:=Reference.imports) COM_PING (Str "")
       described
     = (Return tt,
        set_results [set_fields (Some [Sample.text_field]) Sample.drained]
          (logs [Received (Sample.lcs "1"); Received (Sample.lcs "22");
                 Received Sample.eof;
                 Sent 0 (Sample.frame 0 [byte_of_Z COM_PING])]
             (with_buffer [] described))).
Proof.
  repeat split; vm_compute; reflexivity.
Qed.

(** The sample result set, answering a streaming query.  When
    [init_unbuffered_query] has returned, the column descriptor, its EOF
    marker and the rows are all still in the stream; the first pull
    then takes the descriptor for a row and raises for want of
    [fields]; on the same packets the buffered [read] obtains the
    descriptor. *)
Lemma sentinel_with_descriptors_unread_witness :
  let w := Sample.store [Sample.created] Sample.resultset in
  let run := MySQLResult.init_unbuffered_query (lib:=Reference.imports) 0 w in
  spec (MySQLResult.init_unbuffered_query (lib:=Reference.imports) 0) w
    (fun o w' =>
       match o with
       | Return _ =>
           exists first r',
             trace w' = trace w ++ [Received first]
             /\ results w' !! 0%nat = Some r'
             /\ (Reference.is_ok_packet (Build_Packet first 0) = false ->
                 affected_rows r' = Some (2 ^ 64 - 1)
                 /\ unbuffered_active r' = true
                 /\ connection r' = Some TheConnection
                 /\ fields r' = fields Sample.created
                 /\ result_description r' = result_description Sample.created)
       | Raise _ => True
       | Stuck => False
       end)
  /\ run.1 = Return tt
  /\ trace run.2 = [Received [x01]]
  /\ buffer <$> _reader (conn run.2)
     = Some (Sample.frame 2 Sample.column ++ Sample.frame 3 Sample.eof
             ++ Sample.rowdata)
  /\ (MySQLResult._read_rowdata_packet_unbuffered (lib:=Reference.imports) 0
        run.2).1 = Raise (AttributeError "fields")
  /\ trace (MySQLResult._read_rowdata_packet_unbuffered
              (lib:=Reference.imports) 0 run.2).2
     = [Received [x01]; Received Sample.column]
  /\ (fields <$> results (MySQLResult.read (lib:=Reference.imports) 0 w).2
                   !! 0%nat)
     = Some (Some [Sample.text_field]).
Proof.
  intros w run. split.
  - exact (sentinel_with_descriptors_unread (lib:=Reference.imports) w 0
             Sample.created eq_refl).
  - repeat split; vm_compute; reflexivity.
Defined.

Lemma ping_reconnect_policy_witness :
  Connection.ping (lib:=Reference.imports) false
    (Sample.world (Sample.frame 1 Sample.ok))
  = ping_attempt (H:=Reference.imports) (Sample.world (Sample.frame 1 Sample.ok))
  /\ (Connection.ping (lib:=Reference.imports) true
        (Build_World (Sample.connected []) []
           [Some (Build_StreamReader
                    (Sample.server ++ Sample.frame 1 Sample.ok) PeerClosed)]
           Sample.refused [] 1 0 [])).1 = Return tt.
Proof.
  split.
  - apply (ping_reconnect_policy (H:=Reference.imports)
             (Sample.world (Sample.frame 1 Sample.ok))).
    reflexivity.
  - vm_compute. reflexivity.
Defined.

(** * Further properties of the module *)

(** ** Framing a payload of any length *)

Lemma chunks_bounds (p : bytes) :
  (chunks p * Z.to_nat MAX_PACKET_LEN <= length p
   < S (chunks p) * Z.to_nat MAX_PACKET_LEN)%nat.
Proof.
  pose proof MAX_PACKET_LEN_bounds as Hm. pose proof (len_nonneg p) as Hp.
  unfold chunks.
  pose proof (Z.div_mod (len p) MAX_PACKET_LEN ltac:(lia)) as Hd.
  pose proof (Z.mod_pos_bound (len p) MAX_PACKET_LEN ltac:(lia)) as Hr.
  pose proof (Z.div_pos (len p) MAX_PACKET_LEN Hp ltac:(lia)) as Hq.
  unfold len in *. nia.
Qed.

Lemma frames_of_length (n : nat) (seq_id : Z) (p : bytes) :
  length (frames_of n seq_id p) = S n.
Proof.
  revert seq_id p. induction n as [|n IH]; intros seq_id p; [done|].
  cbn [frames_of length]. by rewrite IH.
Qed.

(** Frame [i] carries the sequence id [seq_id + i] modulo 256 in its
    fourth byte, and its first three bytes hold the length of what
    follows the header. *)
Lemma frames_of_lookup (n : nat) :
  forall (seq_id : Z) (p : bytes) (i : nat) (f : bytes),
    (n * Z.to_nat MAX_PACKET_LEN <= length p
     < S n * Z.to_nat MAX_PACKET_LEN)%nat ->
    frames_of n seq_id p !! i = Some f ->
    exists body,
      f = le_bytes 3 (len body) ++ [byte_of_Z (seq_id + Z.of_nat i)] ++ body
      /\ len body <= MAX_PACKET_LEN
      /\ (len body < MAX_PACKET_LEN <-> i = n).
Proof.
  pose proof MAX_PACKET_LEN_bounds as Hm.
  induction n as [|n IH]; intros seq_id p i f Hlen Hf.
  - destruct i as [|i]; [|done]. cbn in Hf. injection Hf as <-.
    exists p. rewrite Z.add_0_r. split; [done|]. unfold len. split; [lia|].
    split; [done|lia].
  - destruct i as [|i].
    + cbn in Hf. injection Hf as <-.
      exists (firstn (Z.to_nat MAX_PACKET_LEN) p).
      assert (len (firstn (Z.to_nat MAX_PACKET_LEN) p) = MAX_PACKET_LEN) as ->.
      { unfold len. rewrite length_firstn. lia. }
      rewrite Z.add_0_r. split; [done|]. split; [lia|]. split; [lia|done].
    + cbn [frames_of] in Hf. rewrite lookup_cons in Hf.
      destruct (IH (seq_id + 1) (skipn (Z.to_nat MAX_PACKET_LEN) p) i f)
        as (body & -> & Hb & Hlast); [|done|].
      { rewrite length_skipn. lia. }
      exists body.
      replace (seq_id + 1 + Z.of_nat i) with (seq_id + Z.of_nat (S i)) by lia.
      split; [done|]. split; [done|]. rewrite Hlast. lia.
Qed.

Section FramingAny.
Context {lib : Imports}.

Lemma send_rest_frames (n : nat) :
  forall (fuel : nat) (seq_id : Z) (sql : bytes) (w : World) (wr : StreamWriter),
    _writer (conn w) = Some wr ->
    (n * Z.to_nat MAX_PACKET_LEN <= length sql
     < S n * Z.to_nat MAX_PACKET_LEN)%nat ->
    (n < fuel)%nat ->
    Connection.send_rest fuel seq_id sql w
    = (Return tt, logs (map (Sent (transport wr)) (frames_of n seq_id sql)) w).
Proof.
  pose proof MAX_PACKET_LEN_bounds as Hm.
  induction n as [|n IH]; intros fuel seq_id sql w wr Hw Hlen Hfuel;
    (destruct fuel as [|fuel]; [lia|]); cbn [Connection.send_rest].
  - assert (Hsql : len sql < MAX_PACKET_LEN) by (unfold len; lia).
    pose proof (len_nonneg sql) as Hp.
    rewrite Z.min_r by lia.
    destruct (pack_i32_header (len sql) ltac:(lia)) as [-> _]. rewrite bind_lift.
    rewrite header_length_field, int2byte_mod, bind_lift.
    erewrite bind_returns by (by apply write_bytes_open).
    rewrite py_slice_to_firstn, py_slice_from_skipn by lia.
    replace (Z.to_nat (len sql)) with (length sql) by (unfold len; lia).
    rewrite firstn_all, skipn_all.
    cbn [length Nat.eqb andb]. destruct (Z.ltb_spec (len sql) MAX_PACKET_LEN); [|lia].
    reflexivity.
  - assert (Hsql : MAX_PACKET_LEN <= len sql) by (unfold len; lia).
    rewrite Z.min_l by lia.
    destruct (pack_i32_header MAX_PACKET_LEN ltac:(lia)) as [-> _].
    rewrite bind_lift, header_length_field, int2byte_mod, bind_lift.
    erewrite bind_returns by (by apply write_bytes_open).
    rewrite py_slice_to_firstn, py_slice_from_skipn by lia.
    destruct (Z.ltb_spec MAX_PACKET_LEN MAX_PACKET_LEN); [lia|].
    rewrite andb_false_r.
    rewrite (IH fuel (seq_id + 1) _ _ wr); [| done | | lia].
    + by rewrite logs_cons.
    + rewrite length_skipn. lia.
Qed.

Lemma read_frames_frames (n : nat) :
  forall (fuel : nat) (seq_id : Z) (p buff rest : bytes) (w : World)
         (rd : StreamReader),
    _reader (conn w) = Some rd ->
    buffer rd = concat (frames_of n seq_id p) ++ rest ->
    (n * Z.to_nat MAX_PACKET_LEN <= length p
     < S n * Z.to_nat MAX_PACKET_LEN)%nat ->
    (n < fuel)%nat ->
    read_frames fuel buff w = (Return (buff ++ p), with_buffer rest w).
Proof.
  pose proof MAX_PACKET_LEN_bounds as Hm.
  induction n as [|n IH]; intros fuel seq_id p buff rest w rd Hrd Hbuf Hlen Hfuel;
    (destruct fuel as [|fuel]; [lia|]); cbn [read_frames].
  - assert (Hp : 0 <= len p < MAX_PACKET_LEN) by (unfold len; lia).
    cbn [frames_of concat] in Hbuf. rewrite app_nil_r, <- !app_assoc in Hbuf.
    erewrite bind_returns.
    2:{ apply (readexactly_app w rd (le_bytes 3 (len p) ++ [byte_of_Z seq_id])
                 (p ++ rest)); [done|]. rewrite Hbuf. by rewrite <- !app_assoc. }
    rewrite header_length_field.
    destruct (pack_i32_header (len p) ltac:(lia)) as [_ ->]. rewrite bind_lift.
    erewrite bind_returns
      by (eapply readexactly_app; [by apply reader_with_buffer_open|done]).
    rewrite with_buffer_twice.
    by destruct (Z.ltb_spec (len p) MAX_PACKET_LEN); [|lia].
  - cbn [frames_of concat] in Hbuf. rewrite <- !app_assoc in Hbuf.
    erewrite bind_returns.
    2:{ apply (readexactly_app w rd (le_bytes 3 MAX_PACKET_LEN ++ [byte_of_Z seq_id])).
        - done.
        - rewrite Hbuf. by rewrite <- !app_assoc. }
    rewrite header_length_field.
    destruct (pack_i32_header MAX_PACKET_LEN ltac:(lia)) as [_ ->].
    rewrite bind_lift.
    assert (Hfirst : len (firstn (Z.to_nat MAX_PACKET_LEN) p) = MAX_PACKET_LEN).
    { unfold len. rewrite length_firstn. lia. }
    rewrite <- Hfirst at 1.
    erewrite bind_returns.
    2:{ eapply readexactly_app; [by apply reader_with_buffer_open|done]. }
    rewrite with_buffer_twice.
    destruct (Z.ltb_spec MAX_PACKET_LEN MAX_PACKET_LEN); [lia|].
    erewrite (IH fuel (seq_id + 1) (skipn (Z.to_nat MAX_PACKET_LEN) p) _ rest).
    + by rewrite with_buffer_twice, <- app_assoc, firstn_skipn.
    + by apply reader_with_buffer_open.
    + done.
    + rewrite length_skipn. lia.
    + lia.
Qed.

(** The packet reader on the frames of a payload, whatever sequence ids
    they carry. *)
Lemma read_packet_frames (w : World) (rd : StreamReader) (seq_id : Z)
    (p rest : bytes) :
  _reader (conn w) = Some rd ->
  buffer rd = concat (frames_of (chunks p) seq_id p) ++ rest ->
  _read_packet MysqlPacket w
  = (match check_error (Build_Packet p 0) with
     | Some e => Raise e
     | None => Return (Build_Packet p 0)
     end,
     logs [Received p] (with_buffer rest w)).
Proof.
  intros Hrd Hbuf. pose proof (chunks_bounds p) as Hc.
  assert (Hread : try_except
            (let* w0 := get in read_frames (S (pending w0)) [])
            is_OSError
            (fun e =>
               raise (OperationalError 2006
                        ("MySQL server has gone away ("
                         ++ os_error_text e ++ ")")))
            w
          = (Return p, with_buffer rest w)).
  { unfold try_except. rewrite bind_get.
    rewrite (read_frames_frames (chunks p) _ seq_id p [] rest w rd); try done.
    unfold pending. rewrite Hrd, Hbuf, length_app.
    assert (chunks p < length (concat (frames_of (chunks p) seq_id p)))%nat; [|lia].
    clear. generalize (chunks p). intros n. revert seq_id p.
    induction n as [|n IH]; intros seq_id p.
    - cbn [frames_of concat]. rewrite !length_app, le_bytes_length. lia.
    - cbn [frames_of concat]. rewrite !length_app, le_bytes_length.
      specialize (IH (seq_id + 1) (skipn (Z.to_nat MAX_PACKET_LEN) p)). lia. }
  unfold _read_packet. rewrite (bind_returns _ _ _ _ _ Hread).
  unfold bind at 1, modify. rewrite bind_get. unfold MysqlPacket at 1.
  rewrite bind_lift, log_logs. by destruct (check_error _).
Qed.

(** The command writer on a payload of any length. *)
Lemma execute_command_frames (w : World) (wr : StreamWriter) (command : Z)
    (text : text) (sql : bytes) :
  _writer (conn w) = Some wr -> idle w -> 0 <= command <= 255 ->
  encoded (encoding (settings (conn w))) text = inr sql ->
  Connection._execute_command command text w
  = (Return tt,
     logs (map (Sent (transport wr))
             (frames_of (chunks (byte_of_Z command :: sql)) 0
                (byte_of_Z command :: sql))) w).
Proof.
  intros Hw Hidle Hcmd Henc. pose proof MAX_PACKET_LEN_bounds as Hm.
  pose proof (chunks_bounds (byte_of_Z command :: sql)) as Hc.
  pose proof (len_nonneg sql) as Hs.
  unfold Connection._execute_command.
  rewrite bind_get, Hw. cbn [truthy negb].
  erewrite bind_returns by (by apply drain_guard_idle).
  unfold Connection.send_command. rewrite bind_get.
  assert (Hbody :
    match text with
    | Str s => lift (py_encode (encoding (settings (conn w))) s)
    | Bytes b => ret b
    end = ret sql).
  { destruct text as [s|b]; cbn [encoded] in Henc; [by rewrite Henc|].
    by injection Henc as ->. }
  rewrite Hbody, bind_ret.
  destruct (chunks (byte_of_Z command :: sql)) as [|n] eqn:En.
  - cbn [length] in Hc.
    assert (Hlen : len sql + 1 < MAX_PACKET_LEN) by (unfold len; lia).
    rewrite Z.min_r by lia.
    destruct (pack_i32_header (len sql + 1) ltac:(lia)) as [-> _].
    rewrite bind_lift, int2byte_byte, bind_lift by done.
    erewrite bind_returns by (by apply write_bytes_open).
    destruct (Z.ltb_spec (len sql + 1) MAX_PACKET_LEN); [|lia].
    rewrite py_slice_to_firstn by lia.
    replace (len sql + 1 - 1) with (len sql) by lia.
    replace (Z.to_nat (len sql)) with (length sql) by (unfold len; lia).
    rewrite firstn_all.
    cbn [frames_of map]. unfold ret.
    replace (len (byte_of_Z command :: sql)) with (len sql + 1)
      by (unfold len; cbn [length]; lia).
    by rewrite <- !app_assoc.
  - cbn [length] in Hc.
    destruct (Z.to_nat MAX_PACKET_LEN) as [|m] eqn:Em; [lia|].
    assert (Hm1 : Z.to_nat (MAX_PACKET_LEN - 1) = m) by lia.
    assert (Hlen : MAX_PACKET_LEN <= len sql + 1) by (unfold len; lia).
    rewrite Z.min_l by lia.
    destruct (pack_i32_header MAX_PACKET_LEN ltac:(lia)) as [-> _].
    rewrite bind_lift, int2byte_byte, bind_lift by done.
    erewrite bind_returns by (by apply write_bytes_open).
    destruct (Z.ltb_spec MAX_PACKET_LEN MAX_PACKET_LEN); [lia|].
    rewrite py_slice_to_firstn, py_slice_from_skipn, Hm1 by lia.
    rewrite (send_rest_frames n _ 1 _ _ wr); [| done | | ].
    + rewrite logs_cons. cbn [frames_of map]. rewrite Em.
      cbn [firstn skipn]. by rewrite <- !app_assoc.
    + rewrite length_skipn, Em. lia.
    + rewrite length_skipn. nia.
Qed.

End FramingAny.

(** X1. A command of any length goes out as the frames of its payload
    (command byte, then body): the number of frames is the number of
    full chunks of 0xFFFFFF bytes plus one, frame [i] carries the
    sequence id [i] modulo 256 and the length of its body in its header,
    only the last frame is shorter than the maximum, and the packet
    reader, fed with those frames, returns exactly the payload and
    consumes nothing more. *)
Theorem framing_any_length `{Imports} (w : World) (wr : StreamWriter)
    (command : Z) (sql : bytes) :
  _writer (conn w) = Some wr -> idle w -> 0 <= command <= 255 ->
  exists frames : list bytes,
    Connection._execute_command command (Bytes sql) w
    = (Return tt, logs (map (Sent (transport wr)) frames) w)
    /\ len frames = len (byte_of_Z command :: sql) / MAX_PACKET_LEN + 1
    /\ (forall (i : nat) (f : bytes),
          frames !! i = Some f ->
          exists body,
            f = le_bytes 3 (len body) ++ [byte_of_Z (Z.of_nat i)] ++ body
            /\ len body <= MAX_PACKET_LEN
            /\ (len body < MAX_PACKET_LEN <-> len frames = Z.of_nat i + 1))
    /\ forall (w_in : World) (rd : StreamReader) (rest : bytes),
         _reader (conn w_in) = Some rd ->
         buffer rd = concat frames ++ rest ->
         _read_packet MysqlPacket w_in
         = (match check_error (Build_Packet (byte_of_Z command :: sql) 0) with
            | Some e => Raise e
            | None => Return (Build_Packet (byte_of_Z command :: sql) 0)
            end,
            logs [Received (byte_of_Z command :: sql)] (with_buffer rest w_in)).
Proof.
  intros Hw Hidle Hcmd. set (p := byte_of_Z command :: sql).
  pose proof MAX_PACKET_LEN_bounds as Hm. pose proof (len_nonneg p) as Hp.
  exists (frames_of (chunks p) 0 p).
  assert (Hcount : len (frames_of (chunks p) 0 p) = len p / MAX_PACKET_LEN + 1).
  { unfold len at 1. rewrite frames_of_length. unfold chunks.
    pose proof (Z.div_pos (len p) MAX_PACKET_LEN Hp ltac:(lia)). lia. }
  split; [by apply execute_command_frames|]. split; [done|]. split.
  - intros i f Hf.
    destruct (frames_of_lookup (chunks p) 0 p i f (chunks_bounds p) Hf)
      as (body & -> & Hb & Hlast).
    exists body. rewrite Z.add_0_l. split; [done|]. split; [done|].
    rewrite Hlast. unfold len at 1. rewrite frames_of_length. lia.
  - intros w_in rd rest Hrd Hbuf. by apply (read_packet_frames w_in rd 0).
Qed.

Lemma framing_any_length_witness :
  exists frames : list bytes,
    Connection._execute_command (lib:=Reference.imports) COM_QUERY
      (Bytes (list_byte_of_string "SELECT 1")) (Sample.world [])
    = (Return tt, logs (map (Sent 0) frames) (Sample.world []))
    /\ len frames = 1.
Proof.
  destruct (framing_any_length (H:=Reference.imports)
              (Sample.world []) (Build_StreamWriter 0)
              COM_QUERY (list_byte_of_string "SELECT 1"))
    as (frames & Hsent & Hcount & _).
  - reflexivity.
  - exact I.
  - unfold COM_QUERY. lia.
  - exists frames. split; [exact Hsent|exact Hcount].
Defined.

(** ** A stream that ends inside a packet *)




(** ** Commands on a Connection that is not connected *)

Section Commands.
Context {lib : Imports}.

Lemma execute_command_closed (w : World) (command : Z) (sql : text) :
  _writer (conn w) = None ->
  Connection._execute_command command sql w = (Raise not_connected, w).
Proof.
  intros Hw. unfold Connection._execute_command. by rewrite bind_get, Hw.
Qed.

(** A command and the OK packet it awaits. *)
Lemma command_round_trip (w : World) (wr : StreamWriter) (rd : StreamReader)
    (command : Z) (sql : text) (body reply rest : bytes) (seq_id : Z) :
  _writer (conn w) = Some wr -> _reader (conn w) = Some rd -> idle w ->
  0 <= command <= 255 ->
  encoded (encoding (settings (conn w))) sql = inr body ->
  buffer rd = concat (frames_of (chunks reply) seq_id reply) ++ rest ->
  (Connection._execute_command command sql ;;;
   Connection._read_ok_packet ;;; ret tt) w
  = after_reply w wr (byte_of_Z command :: body) reply rest.
Proof.
  intros Hw Hrd Hidle Hcmd Henc Hbuf.
  erewrite bind_returns by (by eapply execute_command_frames).
  unfold Connection._read_ok_packet.
  set (frames := frames_of _ 0 (byte_of_Z command :: body)).
  unfold bind at 1. unfold bind at 1.
  rewrite (read_packet_frames _ rd seq_id reply rest) by done.
  rewrite with_buffer_logs, logs_logs. unfold after_reply. fold frames.
  destruct (check_error _); [done|].
  destruct (is_ok_packet _); cbn [negb]; [|done].
  by destruct (OKPacketWrapper _) as [e|ok].
Qed.

End Commands.

(** X3. Without a writer (before [connect], after [close]) the
    Connection reports itself closed and every command is refused with
    InterfaceError before anything is read or written: the world is
    left as it was. *)
Theorem commands_need_connection `{Imports} (w : World) :
  _writer (conn w) = None ->
  Connection.open w = (Return false, w)
  /\ (forall command sql,
        Connection._execute_command command sql w = (Raise not_connected, w))
  /\ (forall sql unbuffered,
        Connection.query sql unbuffered w = (Raise not_connected, w))
  /\ Connection.begin w = (Raise not_connected, w)
  /\ Connection.commit w = (Raise not_connected, w)
  /\ Connection.rollback w = (Raise not_connected, w)
  /\ (forall db, Connection.select_db db w = (Raise not_connected, w))
  /\ (forall thread_id,
        0 <= thread_id <= 4294967295 ->
        Connection.kill thread_id w = (Raise not_connected, w))
  /\ Connection.ping false w = (Raise not_connected, w).
Proof.
  intros Hw.
  assert (Hcmd : forall A command sql (k : unit -> M A),
            bind (Connection._execute_command command sql) k w
            = (Raise not_connected, w)).
  { intros A command sql k. by erewrite bind_raises by (by apply execute_command_closed). }
  split; [unfold Connection.open; by rewrite bind_get, Hw|].
  split; [intros; by apply execute_command_closed|].
  unfold Connection.query, Connection.begin, Connection.commit,
    Connection.rollback, Connection.select_db.
  split; [intros; apply Hcmd|]. split; [apply Hcmd|]. split; [apply Hcmd|].
  split; [apply Hcmd|]. split; [intros; apply Hcmd|]. split.
  - intros thread_id Hid. unfold Connection.kill, pack_u32.
    destruct (Z.leb_spec 0 thread_id); [|lia].
    destruct (Z.leb_spec thread_id 4294967295); [|lia].
    cbn [andb]. rewrite bind_lift. apply Hcmd.
  - unfold Connection.ping. rewrite ping_at_false. unfold half_open.
    rewrite Hw. cbn [truthy andb]. unfold ping_attempt. apply Hcmd.
Qed.

Lemma commands_need_connection_witness :
  Connection.open (Sample.disconnected) = (Return false, Sample.disconnected)
  /\ Connection.commit (lib:=Reference.imports) Sample.disconnected
     = (Raise not_connected, Sample.disconnected)
  /\ Connection.ping (lib:=Reference.imports) false Sample.disconnected
     = (Raise not_connected, Sample.disconnected).
Proof.
  destruct (commands_need_connection (H:=Reference.imports)
              Sample.disconnected eq_refl)
    as (Hopen & _ & _ & _ & Hcommit & _ & _ & _ & Hping).
  split; [exact Hopen|]. split; [exact Hcommit|exact Hping].
Defined.

(** ** Statements that await an OK packet *)

(** X4. On a connected Connection with no streaming result pending,
    [begin], [commit], [rollback], [select_db] and [kill] each write
    the frames of one command (COM_QUERY with the statement, COM_INIT_DB
    with the database name, COM_PROCESS_KILL with the thread id on four
    little-endian bytes), consume exactly one packet of the server, and
    end as that packet says: its error is raised, a packet that is not
    an OK packet raises OperationalError 2014, and an OK packet's status
    becomes the Connection's server status.  A thread id that does not
    fit 32 unsigned bits makes [kill] raise before anything is sent. *)
Theorem statement_round_trip `{Imports} (w : World) (wr : StreamWriter)
    (rd : StreamReader) (reply rest : bytes) (seq_id : Z) :
  _writer (conn w) = Some wr -> _reader (conn w) = Some rd -> idle w ->
  buffer rd = concat (frames_of (chunks reply) seq_id reply) ++ rest ->
  let enc := encoding (settings (conn w)) in
  (forall body, py_encode enc "BEGIN" = inr body ->
     Connection.begin w = after_reply w wr (x03 :: body) reply rest)
  /\ (forall body, py_encode enc "COMMIT" = inr body ->
        Connection.commit w = after_reply w wr (x03 :: body) reply rest)
  /\ (forall body, py_encode enc "ROLLBACK" = inr body ->
        Connection.rollback w = after_reply w wr (x03 :: body) reply rest)
  /\ (forall db body, encoded enc db = inr body ->
        Connection.select_db db w = after_reply w wr (x02 :: body) reply rest)
  /\ (forall thread_id, 0 <= thread_id <= 4294967295 ->
        Connection.kill thread_id w
        = after_reply w wr (x0c :: le_bytes 4 thread_id) reply rest)
  /\ (forall thread_id, thread_id < 0 \/ 4294967295 < thread_id ->
        Connection.kill thread_id w = (Raise StructError, w)).
Proof.
  intros Hw Hrd Hidle Hbuf enc.
  assert (Hgo : forall command sql body,
            0 <= command <= 255 -> encoded enc sql = inr body ->
            (Connection._execute_command command sql ;;;
             Connection._read_ok_packet ;;; ret tt) w
            = after_reply w wr (byte_of_Z command :: body) reply rest).
  { intros. by eapply command_round_trip. }
  split; [intros body Hb; by apply (Hgo COM_QUERY (Str "BEGIN"))|].
  split; [intros body Hb; by apply (Hgo COM_QUERY (Str "COMMIT"))|].
  split; [intros body Hb; by apply (Hgo COM_QUERY (Str "ROLLBACK"))|].
  split; [intros db body Hb; by apply (Hgo COM_INIT_DB db)|].
  split.
  - intros thread_id Hid. unfold Connection.kill, pack_u32.
    destruct (Z.leb_spec 0 thread_id); [|lia].
    destruct (Z.leb_spec thread_id 4294967295); [|lia].
    cbn [andb]. rewrite bind_lift.
    by apply (Hgo COM_PROCESS_KILL (Bytes (le_bytes 4 thread_id))).
  - intros thread_id Hid. unfold Connection.kill, pack_u32.
    destruct (Z.leb_spec 0 thread_id);
      destruct (Z.leb_spec thread_id 4294967295); try lia; done.
Qed.

Lemma statement_round_trip_witness :
  Connection.commit (lib:=Reference.imports)
    (Sample.world (Sample.frame 1 Sample.ok))
  = after_reply (H:=Reference.imports) (Sample.world (Sample.frame 1 Sample.ok))
      (Build_StreamWriter 0) (x03 :: list_byte_of_string "COMMIT") Sample.ok []
  /\ (Connection.commit (lib:=Reference.imports)
        (Sample.world (Sample.frame 1 Sample.ok))).1 = Return tt.
Proof.
  destruct (statement_round_trip (H:=Reference.imports)
              (Sample.world (Sample.frame 1 Sample.ok)) (Build_StreamWriter 0)
              (Build_StreamReader (Sample.frame 1 Sample.ok) PeerClosed)
              Sample.ok [] 1 eq_refl eq_refl I eq_refl)
    as (_ & Hcommit & _).
  split.
  - exact (Hcommit (list_byte_of_string "COMMIT") eq_refl).
  - vm_compute. reflexivity.
Defined.

(** ** A query answered by an OK packet *)

Section OkReply.
Context {lib : Imports}.

Lemma connection_read_packet_frames (self : nat) (r : MySQLResult) (w : World)
    (rd : StreamReader) (seq_id : Z) (p rest : bytes) :
  results w !! self = Some r -> connection r = Some TheConnection ->
  _reader (conn w) = Some rd ->
  buffer rd = concat (frames_of (chunks p) seq_id p) ++ rest ->
  MySQLResult.connection_read_packet self MysqlPacket w
  = (match check_error (Build_Packet p 0) with
     | Some e => Raise e
     | None => Return (Build_Packet p 0)
     end,
     logs [Received p] (with_buffer rest w)).
Proof.
  intros Hr Hc Hrd Hbuf. unfold MySQLResult.connection_read_packet.
  erewrite bind_returns by (by apply deref_returns).
  rewrite Hc. cbn [attribute]. rewrite bind_ret.
  by apply (read_packet_frames w rd seq_id).
Qed.

Lemma result_read_ok_packet_returns (self : nat) (p : Packet) (ok : OKPacket)
    (w : World) :
  OKPacketWrapper p = inr ok ->
  MySQLResult._read_ok_packet self p w
  = (Return tt, set_results (alter (ok_result ok) self (results w)) w).
Proof.
  intros Hok. unfold MySQLResult._read_ok_packet. rewrite Hok, bind_lift.
  repeat (erewrite bind_returns by apply update_returns).
  rewrite update_returns. autorewrite with world.
  by rewrite !list_alter_alter_eq.
Qed.

Lemma result_read_ok (self : nat) (r : MySQLResult) (w : World)
    (rd : StreamReader) (seq_id : Z) (reply rest : bytes) (ok : OKPacket) :
  results w !! self = Some r -> connection r = Some TheConnection ->
  _reader (conn w) = Some rd ->
  buffer rd = concat (frames_of (chunks reply) seq_id reply) ++ rest ->
  check_error (Build_Packet reply 0) = None ->
  is_ok_packet (Build_Packet reply 0) = true ->
  OKPacketWrapper (Build_Packet reply 0) = inr ok ->
  MySQLResult.read self w
  = (Return tt,
     set_results
       (alter (fun r => set_connection None (ok_result ok r)) self (results w))
       (logs [Received reply] (with_buffer rest w))).
Proof.
  intros Hr Hc Hrd Hbuf Herr Hok Hwrap. unfold MySQLResult.read, try_finally.
  erewrite bind_returns.
  2:{ erewrite connection_read_packet_frames by done. by rewrite Herr. }
  rewrite Hok, (result_read_ok_packet_returns _ _ ok) by done.
  erewrite bind_returns by apply update_returns. autorewrite with world.
  by rewrite list_alter_alter_eq.
Qed.

Lemma init_unbuffered_query_ok (self : nat) (r : MySQLResult) (w : World)
    (rd : StreamReader) (seq_id : Z) (reply rest : bytes) (ok : OKPacket) :
  results w !! self = Some r -> connection r = Some TheConnection ->
  _reader (conn w) = Some rd ->
  buffer rd = concat (frames_of (chunks reply) seq_id reply) ++ rest ->
  check_error (Build_Packet reply 0) = None ->
  is_ok_packet (Build_Packet reply 0) = true ->
  OKPacketWrapper (Build_Packet reply 0) = inr ok ->
  MySQLResult.init_unbuffered_query self w
  = (Return tt,
     set_results
       (alter (fun r => set_connection None
                          (set_unbuffered_active false (ok_result ok r)))
          self (results w))
       (logs [Received reply] (with_buffer rest w))).
Proof.
  intros Hr Hc Hrd Hbuf Herr Hok Hwrap. unfold MySQLResult.init_unbuffered_query.
  erewrite bind_returns by apply update_returns.
  erewrite bind_returns.
  2:{ erewrite (connection_read_packet_frames self (set_unbuffered_active true r));
        [by rewrite Herr| |done|done|done].
      autorewrite with world. by apply lookup_alter_same. }
  rewrite Hok.
  erewrite bind_returns by (by apply (result_read_ok_packet_returns _ _ ok)).
  erewrite bind_returns by apply update_returns.
  rewrite update_returns. autorewrite with world.
  by rewrite !list_alter_alter_eq.
Qed.

Lemma alter_new (f : MySQLResult -> MySQLResult) (rs : list MySQLResult)
    (r : MySQLResult) :
  alter f (length rs) (rs ++ [r]) = rs ++ [f r].
Proof.
  rewrite <- (Nat.add_0_r (length rs)). by rewrite alter_app_r.
Qed.

Lemma result_init_returns (w : World) :
  MySQLResult.__init__ w
  = (Return (length (results w)), set_results (results w ++ [new_result]) w).
Proof. reflexivity. Qed.

Lemma read_query_result_ok (w : World) (rd : StreamReader) (seq_id : Z)
    (reply rest : bytes) (ok : OKPacket) (unbuffered : bool) :
  _reader (conn w) = Some rd ->
  buffer rd = concat (frames_of (chunks reply) seq_id reply) ++ rest ->
  check_error (Build_Packet reply 0) = None ->
  is_ok_packet (Build_Packet reply 0) = true ->
  OKPacketWrapper (Build_Packet reply 0) = inr ok ->
  exists w',
    Connection._read_query_result unbuffered w = (Return tt, w')
    /\ trace w' = trace w ++ [Received reply]
    /\ results w' = results w ++ [result_of_ok ok]
    /\ _result (conn w') = Some (length (results w))
    /\ _affected_rows (conn w') = ok_affected_rows ok
    /\ server_status (handshake (conn w')) = Some (ok_server_status ok).
Proof.
  intros Hrd Hbuf Herr Hok Hwrap.
  set (n := length (results w)).
  set (w0 := set_results (results w ++ [new_result]) w).
  assert (Hn : results w0 !! n = Some new_result).
  { unfold w0. autorewrite with world. by apply list_lookup_middle. }
  assert (Hrd0 : _reader (conn w0) = Some rd) by done.
  assert (Hnew : exists w1,
    (if unbuffered then
       let* result := MySQLResult.__init__ in
       try_except (MySQLResult.init_unbuffered_query result) (fun _ => true)
         (fun e =>
            update result (set_unbuffered_active false) ;;;
            update result (set_connection None) ;;;
            raise e) ;;;
       ret result
     else
       let* result := MySQLResult.__init__ in
       MySQLResult.read result ;;; ret result) w
    = (Return n, w1)
    /\ w1 = set_results (results w ++ [result_of_ok ok])
               (logs [Received reply] (with_buffer rest w))).
  { eexists. split; [|reflexivity].
    destruct unbuffered.
    - erewrite bind_returns by apply result_init_returns. fold n w0.
      unfold try_except at 1, bind at 1.
      erewrite init_unbuffered_query_ok by done.
      unfold ret, w0, n. autorewrite with world. by rewrite alter_new.
    - erewrite bind_returns by apply result_init_returns. fold n w0.
      erewrite bind_returns by (by eapply result_read_ok).
      unfold ret, w0, n. autorewrite with world. by rewrite alter_new. }
  destruct Hnew as (w1 & Hrun & Hw1).
  unfold Connection._read_query_result.
  erewrite bind_returns by exact Hrun.
  eexists. split.
  - unfold assign at 1. erewrite bind_returns by reflexivity.
    erewrite bind_returns.
    2:{ apply deref_returns. cbn [results set_conn]. rewrite Hw1.
        autorewrite with world. by apply list_lookup_middle. }
    cbn [result_server_status result_of_ok affected_rows].
    unfold assign at 1. erewrite bind_returns by reflexivity.
    reflexivity.
  - subst w1. cbn. autorewrite with world. done.
Qed.

End OkReply.

(** X5. A query that the server answers with an OK packet: the frames
    of COM_QUERY and the statement are written, the one packet is
    received, and the query returns the packet's affected-row count.  A
    new result object holding the packet's counters, with no
    back-reference and not active, becomes the Connection's result, in
    buffered and in streaming mode alike; the packet's status becomes
    the server status; and [affected_rows()] and [insert_id()] then
    report the packet's counters.  [next_result] on the same stream
    does the same without writing anything. *)
Theorem query_answered_ok `{Imports} (w : World) (wr : StreamWriter)
    (rd : StreamReader) (sql : text) (body reply rest : bytes) (seq_id : Z)
    (ok : OKPacket) (unbuffered : bool) :
  _writer (conn w) = Some wr -> _reader (conn w) = Some rd -> idle w ->
  encoded (encoding (settings (conn w))) sql = inr body ->
  buffer rd = concat (frames_of (chunks reply) seq_id reply) ++ rest ->
  check_error (Build_Packet reply 0) = None ->
  is_ok_packet (Build_Packet reply 0) = true ->
  OKPacketWrapper (Build_Packet reply 0) = inr ok ->
  exists w',
    Connection.query sql unbuffered w = (Return (ok_affected_rows ok), w')
    /\ trace w'
       = trace w
         ++ map (Sent (transport wr))
              (frames_of (chunks (x03 :: body)) 0 (x03 :: body))
         ++ [Received reply]
    /\ results w' = results w ++ [result_of_ok ok]
    /\ _result (conn w') = Some (length (results w))
    /\ server_status (handshake (conn w')) = Some (ok_server_status ok)
    /\ Connection.affected_rows w' = (Return (ok_affected_rows ok), w')
    /\ Connection.insert_id w' = (Return (ok_insert_id ok), w')
    /\ exists w'',
         Connection.next_result w = (Return (ok_affected_rows ok), w'')
         /\ trace w'' = trace w ++ [Received reply].
Proof.
  intros Hw Hrd Hidle Henc Hbuf Herr Hok Hwrap. unfold Connection.query.
  erewrite bind_returns by (by eapply (execute_command_frames w wr COM_QUERY)).
  set (sent := map _ _).
  destruct (read_query_result_ok (logs sent w) rd seq_id reply rest ok unbuffered)
    as (w' & Hrun & Ht & Hrs & Hres & Haff & Hst); try done.
  exists w'. erewrite bind_returns by exact Hrun. rewrite bind_get.
  split; [by rewrite Haff|]. split.
  { rewrite Ht. autorewrite with world. by rewrite <- app_assoc. }
  autorewrite with world in Hrs, Hres.
  split; [done|]. split; [done|]. split; [done|]. split; [|split].
  - unfold Connection.affected_rows. by rewrite bind_get, Haff.
  - unfold Connection.insert_id. rewrite bind_get, Hres.
    erewrite (bind_returns _ _ _ _ (result_of_ok ok)); [reflexivity|].
    apply deref_returns. rewrite Hrs. by apply list_lookup_middle.
  - destruct (read_query_result_ok w rd seq_id reply rest ok false)
      as (w'' & Hnext & Ht'' & _ & _ & Haff'' & _); try done.
    exists w''. unfold Connection.next_result.
    erewrite bind_returns by exact Hnext. by rewrite bind_get, Haff''.
Qed.

Lemma query_answered_ok_witness :
  exists w',
    Connection.query (lib:=Reference.imports) (Str "DELETE FROM t") false
      (Sample.world (Sample.frame 1 Sample.ok))
    = (Return (Some 0), w')
    /\ Connection.insert_id w' = (Return (Some 0), w').
Proof.
  destruct (query_answered_ok (H:=Reference.imports)
              (Sample.world (Sample.frame 1 Sample.ok)) (Build_StreamWriter 0)
              (Build_StreamReader (Sample.frame 1 Sample.ok) PeerClosed)
              (Str "DELETE FROM t") (list_byte_of_string "DELETE FROM t")
              Sample.ok [] 1
              (Build_OKPacket (Some 0) (Some 0) 2 0 [] 0) false)
    as (w' & Hrun & _ & _ & _ & _ & _ & Hid & _).
  - reflexivity.
  - reflexivity.
  - exact I.
  - reflexivity.
  - reflexivity.
  - reflexivity.
  - reflexivity.
  - vm_compute. reflexivity.
  - exists w'. split; [exact Hrun|exact Hid].
Defined.

(** ** Column descriptors *)

Section Descriptors.
Context {lib : Imports}.

Lemma spec_connection_read_packet {P : Type} (self : nat) (r : MySQLResult)
    (packet_type : bytes -> string -> exn + P) (w : World)
    (Q : outcome P -> World -> Prop) :
  results w !! self = Some r ->
  (connection r = None -> Q (Raise (AttributeError "_read_packet")) w) ->
  (connection r = Some TheConnection ->
   forall o w', 
     (exists b,
        match o with
        | Return p =>
            exists data,
              w' = logs [Received data] (with_buffer b w)
              /\ packet_type data (encoding (settings (conn w))) = inr p
              /\ check_error (Build_Packet data 0) = None
              /\ (length b + 4 <= pending w)%nat
        | Raise e =>
            (w' = with_buffer b w /\ transport_error e)
            \/ exists data, w' = logs [Received data] (with_buffer b w)
        | Stuck => False
        end) -> Q o w') ->
  spec (MySQLResult.connection_read_packet self packet_type) w Q.
Proof.
  intros Hr Hnone Hsome. unfold MySQLResult.connection_read_packet.
  apply spec_bind. eapply spec_deref; [done|]. apply spec_bind, spec_attribute.
  destruct (connection r) as [[]|]; [|by apply Hnone].
  eapply spec_mono; [apply read_packet_spec|]. intros o w' Hq. by apply Hsome.
Qed.

(** The loop of [_get_descriptions]: [n] more descriptor packets are
    received and parsed, and appended to [fields] in their order. *)
Lemma read_descriptions_spec (self : nat) (n : nat) :
  forall (w : World) (r : MySQLResult) (fs0 : list FieldDescriptor)
         (acc : list pyval),
    results w !! self = Some r -> fields r = Some fs0 ->
    spec (MySQLResult.read_descriptions self n acc) w (fun o w' =>
      match o with
      | Return out =>
          exists b pkts fs rs r',
            w' = set_results rs (logs (map Received pkts) (with_buffer b w))
            /\ rs !! self = Some r'
            /\ r' = set_fields (Some (fs0 ++ fs)) r
            /\ out = acc ++ map description fs
            /\ length fs = n
            /\ descriptors_parsed (encoding (settings (conn w))) pkts fs
      | Raise _ => True
      | Stuck => False
      end).
Proof.
  induction n as [|n IH]; intros w r fs0 acc Hr Hfs;
    cbn [MySQLResult.read_descriptions].
  - apply spec_ret. destruct (with_buffer_exists w) as [b Hb].
    exists b, [], [], (results w), r. cbn [map]. rewrite logs_nil, <- Hb.
    rewrite set_results_same, !app_nil_r. repeat split; try done.
    + destruct r. cbn in Hfs. by rewrite Hfs.
    + constructor.
  - apply spec_bind. eapply spec_connection_read_packet; [done|done|].
    intros Hc [field|e|] w1 (b & Hp); [|done|done].
    destruct Hp as (data & -> & Hfield & _ & _).
    apply spec_bind. eapply spec_deref; [by autorewrite with world|].
    rewrite Hfs. apply spec_bind, spec_attribute, spec_bind, spec_update.
    autorewrite with world.
    eapply spec_mono.
    { eapply (IH _ (set_fields (Some (fs0 ++ [field])) r) (fs0 ++ [field])).
      - autorewrite with world. by apply lookup_alter_same.
      - done. }
    intros [out|e|] w2; [|done|done].
    intros (b2 & pkts & fs & rs & r' & -> & Hr' & -> & -> & Hlen & Hd).
    exists b2, (data :: pkts), (field :: fs), rs, (set_fields (Some (fs0 ++ field :: fs)) r).
    split.
    { autorewrite with world. reflexivity. }
    split.
    { rewrite Hr'. f_equal. unfold set_fields. cbn. by rewrite <- app_assoc. }
    split; [done|]. split; [by rewrite <- app_assoc|].
    split; [cbn; lia|]. constructor; [|by autorewrite with world in Hd].
    done.
Qed.

Lemma get_descriptions_spec (self : nat) (w : World) (r : MySQLResult)
    (count : Z) :
  results w !! self = Some r -> field_count r = Some count ->
  spec (MySQLResult._get_descriptions self) w (fun o w' =>
    match o with
    | Return _ =>
        exists b pkts eofp fs rs,
          w' = set_results rs
                 (logs (map Received (pkts ++ [eofp])) (with_buffer b w))
          /\ rs !! self
             = Some (set_description (Some (map description fs))
                       (set_fields (Some fs) r))
          /\ length fs = Z.to_nat count
          /\ descriptors_parsed (encoding (settings (conn w))) pkts fs
          /\ is_eof_packet (Build_Packet eofp 0) = true
    | Raise _ => True
    | Stuck => False
    end).
Proof.
  intros Hr Hcount. unfold MySQLResult._get_descriptions.
  apply spec_bind, spec_update, spec_bind.
  eapply spec_deref; [autorewrite with world; by apply lookup_alter_same|].
  cbn [field_count set_fields]. rewrite Hcount. apply spec_bind, spec_ret.
  apply spec_bind. eapply spec_mono.
  { eapply (read_descriptions_spec self _ _ (set_fields (Some []) r) []).
    - autorewrite with world. by apply lookup_alter_same.
    - done. }
  intros [out|e|] w1; [|done|done].
  intros (b & pkts & fs & rs & r' & -> & Hr' & -> & -> & Hlen & Hd).
  cbn [app] in *. autorewrite with world in Hd.
  apply spec_bind. eapply spec_connection_read_packet.
  { by autorewrite with world. }
  { done. }
  intros Hc [p|e|] w2 (b2 & Hp); [|done|done].
  destruct Hp as (data & -> & [= <-] & _ & _).
  destruct (is_eof_packet _) eqn:Heof; [|done].
  apply spec_update.
  exists b2, pkts, data, fs, (alter (set_description (Some (map description fs))) self rs).
  split.
  { autorewrite with world. by rewrite map_app. }
  split; [by erewrite lookup_alter_same by done|]. done.
Qed.

End Descriptors.

(** X6. [_get_descriptions] on a result whose field count is [count]:
    when it returns, it has received exactly [count] descriptor packets
    (none for a count that is not positive) and then one packet, which
    is an EOF marker; [fields] holds the parsed descriptors in the
    order received, [description] their descriptions in the same order,
    and nothing else of the result changed.  It is never stuck: a
    packet that does not parse, a server error or a terminator that is
    not an EOF marker raises. *)
Theorem descriptors_read_in_order `{Imports} (w : World) (self : nat)
    (r : MySQLResult) (count : Z) :
  results w !! self = Some r -> field_count r = Some count ->
  spec (MySQLResult._get_descriptions self) w (fun o w' =>
    match o with
    | Return _ =>
        exists pkts eofp fs,
          trace w' = trace w ++ map Received (pkts ++ [eofp])
          /\ len fs = Z.max 0 count
          /\ descriptors_parsed (encoding (settings (conn w))) pkts fs
          /\ is_eof_packet (Build_Packet eofp 0) = true
          /\ results w' !! self
             = Some (set_description (Some (map description fs))
                       (set_fields (Some fs) r))
    | Raise _ => True
    | Stuck => False
    end).
Proof.
  intros Hr Hcount.
  eapply spec_mono; [by eapply get_descriptions_spec|].
  intros [[]|e|] w'; [|done|done].
  intros (b & pkts & eofp & fs & rs & -> & Hr' & Hlen & Hd & Heof).
  exists pkts, eofp, fs. autorewrite with world.
  split; [done|]. split; [unfold len; lia|]. done.
Qed.

(** ** A buffered result set *)

Lemma spec_conj {A : Type} (m : M A) (w : World)
    (Q1 Q2 : outcome A -> World -> Prop) :
  spec m w Q1 -> spec m w Q2 -> spec m w (fun o w' => Q1 o w' /\ Q2 o w').
Proof. by split. Qed.

Section RowsFrame.
Context {lib : Imports}.

Lemma read_rows_frame (self : nat) (fuel : nat) :
  forall (w : World) (r : MySQLResult) (acc : list (list pyval)),
    results w !! self = Some r ->
    spec (MySQLResult.read_rows fuel self acc) w (fun o w' =>
      exists r', results w' !! self = Some r' /\ same_columns r r').
Proof.
  induction fuel as [|fuel IH]; intros w r acc Hr; cbn [MySQLResult.read_rows].
  { by exists r. }
  apply spec_bind. eapply spec_connection_read_packet; [done|by exists r|].
  intros Hc o w1 (b & Hp).
  assert (Hr1 : results w1 !! self = Some r).
  { destruct o as [p|e|]; [| |done].
    - destruct Hp as (data & -> & _). by autorewrite with world.
    - destruct Hp as [[-> _]|(data & ->)]; by autorewrite with world. }
  destruct o as [p|e|]; [|by exists r|done].
  apply spec_bind. unfold spec at 1. rewrite check_packet_is_eof_returns.
  destruct (is_eof_packet p).
  - destruct (EOFPacketWrapper p) as [e|eof]; cbn [fst snd]; [by exists r|].
    apply spec_bind, spec_update, spec_ret. eexists. split.
    { autorewrite with world. by do 2 apply lookup_alter_same. }
    done.
  - cbn [fst snd]. apply spec_bind. unfold spec at 1.
    rewrite (read_row_from_packet_returns self r) by done.
    destruct (connection r); cbn [fst snd]; [|by exists r].
    destruct (fields r); cbn [fst snd]; [|by exists r].
    destruct (MySQLResult.read_columns _ _ _ _); cbn [fst snd]; [by exists r|].
    by apply IH.
Qed.

End RowsFrame.

Section ResultSet.
Context {lib : Imports}.

Lemma read_result_packet_spec (w : World) (self : nat) (r : MySQLResult)
    (first : Packet) :
  results w !! self = Some r ->
  spec (MySQLResult._read_result_packet self first) w (fun o w' =>
    match o with
    | Return _ =>
        exists count b descs eof1 rowpkts eof2 fs decoded rs r',
          (exists rest, read_length_encoded_integer first = inr (Some count, rest))
          /\ w' = set_results rs
                    (logs (map Received (descs ++ [eof1] ++ rowpkts ++ [eof2]))
                       (with_buffer b w))
          /\ len fs = Z.max 0 count
          /\ descriptors_parsed (encoding (settings (conn w))) descs fs
          /\ is_eof_packet (Build_Packet eof1 0) = true
          /\ Forall not_eof rowpkts
          /\ is_eof_packet (Build_Packet eof2 0) = true
          /\ Forall2
               (fun p row =>
                  MySQLResult.read_columns (use_unicode (settings (conn w)))
                    (conn_decoders (settings (conn w))) fs (Build_Packet p 0)
                  = inr row)
               rowpkts decoded
          /\ rs !! self = Some r'
          /\ fields r' = Some fs
          /\ result_description r' = Some (map description fs)
          /\ rows r' = Some decoded
          /\ affected_rows r' = Some (len decoded)
          /\ connection r' = None
    | Raise _ => True
    | Stuck => False
    end).
Proof.
  intros Hr. unfold MySQLResult._read_result_packet.
  apply spec_bind, spec_lift.
  destruct (read_length_encoded_integer first) as [e|[n first']] eqn:Hn; [done|].
  apply spec_bind, spec_update. cbn [fst].
  destruct n as [count|].
  2:{ apply spec_bind. unfold MySQLResult._get_descriptions.
      apply spec_bind, spec_update, spec_bind.
      eapply spec_deref.
      { autorewrite with world. by do 2 apply lookup_alter_same. }
      by apply spec_bind, spec_raise. }
  apply spec_bind. eapply spec_mono.
  { eapply (get_descriptions_spec self _ (set_field_count (Some count) r) count).
    - autorewrite with world. by apply lookup_alter_same.
    - done. }
  intros [[]|e|] w1; [|done|done].
  intros (b & descs & eof1 & fs & rs & -> & Hr1 & Hlen & Hd & Heof1).
  autorewrite with world in Hd.
  unfold MySQLResult._read_rowdata_packet. apply spec_bind, spec_get, spec_bind.
  eapply spec_mono.
  { apply spec_conj.
    - eapply (read_rows_spec self); [by autorewrite with world|lia].
    - eapply (read_rows_frame self). by autorewrite with world. }
  intros [all|e|] w2; [|by intros []|by intros []].
  intros [(b2 & rowpkts & eof2 & rs2 & r2 & decoded & -> & Hpk & Heof2 & Hr2
           & Hback & -> & Hdec) (r2' & Hr2' & Hf & Hdesc & _)].
  autorewrite with world in Hr2'. rewrite Hr2 in Hr2'. injection Hr2' as <-.
  apply spec_bind, spec_update, spec_update.
  exists count, b2, descs, eof1, rowpkts, eof2, fs, decoded. eexists _, _.
  split; [by exists first'|]. split.
  { autorewrite with world. by rewrite <- map_app, <- app_assoc. }
  split; [unfold len; lia|]. split; [done|]. split; [done|]. split; [done|].
  split; [done|]. split.
  { unfold decodes_to in Hdec. autorewrite with world in Hdec.
    eapply Forall2_impl; [exact Hdec|].
    intros p row (fs' & Hfs' & Hrow). cbn in Hfs'. by injection Hfs' as <-. }
  split; [by do 2 apply lookup_alter_same|].
  cbn. repeat split; try done.
Qed.

End ResultSet.

(** X7. [_read_result_packet] on the first packet of a result set: when
    it returns, the packets received were, in this order, as many
    column descriptors as the first packet counts, an EOF marker, the
    row packets and the first EOF marker after them.  The result then
    holds the descriptors, their descriptions, the rows decoded from the
    row packets with exactly those descriptors, in order, and an
    affected-row count equal to the number of rows; its back-reference
    is cleared.  It is never stuck. *)
Theorem buffered_result_set `{Imports} (w : World) (self : nat)
    (r : MySQLResult) (first : Packet) :
  results w !! self = Some r ->
  spec (MySQLResult._read_result_packet self first) w (fun o w' =>
    match o with
    | Return _ =>
        exists count descs eof1 rowpkts eof2 fs decoded r',
          (exists rest, read_length_encoded_integer first = inr (Some count, rest))
          /\ trace w'
             = trace w ++ map Received (descs ++ [eof1] ++ rowpkts ++ [eof2])
          /\ len fs = Z.max 0 count
          /\ descriptors_parsed (encoding (settings (conn w))) descs fs
          /\ is_eof_packet (Build_Packet eof1 0) = true
          /\ Forall not_eof rowpkts
          /\ is_eof_packet (Build_Packet eof2 0) = true
          /\ Forall2
               (fun p row =>
                  MySQLResult.read_columns (use_unicode (settings (conn w)))
                    (conn_decoders (settings (conn w))) fs (Build_Packet p 0)
                  = inr row)
               rowpkts decoded
          /\ results w' !! self = Some r'
          /\ fields r' = Some fs
          /\ result_description r' = Some (map description fs)
          /\ rows r' = Some decoded
          /\ affected_rows r' = Some (len decoded)
          /\ connection r' = None
    | Raise _ => True
    | Stuck => False
    end).
Proof.
  intros Hr. eapply spec_mono; [by apply (read_result_packet_spec w self r)|].
  intros [[]|e|] w'; [|done|done].
  intros (count & b & descs & eof1 & rowpkts & eof2 & fs & decoded & rs & r'
          & Hcount & -> & Hrest).
  exists count, descs, eof1, rowpkts, eof2, fs, decoded, r'.
  autorewrite with world. split; [done|]. split; [done|].
  destruct Hrest as (? & ? & ? & ? & ? & ? & ? & ? & ? & ? & ? & ?).
  by repeat split.
Qed.

(** ** Releasing the back-reference *)

Lemma same_store_refl (w : World) : same_store w w.
Proof. by split. Qed.

Lemma same_store_trans (w1 w2 w3 : World) :
  same_store w1 w2 -> same_store w2 w3 -> same_store w1 w3.
Proof. intros (H1 & H2 & H3) (H4 & H5 & H6). repeat split; congruence. Qed.

Lemma steadily_ret {A : Type} (a : A) : steadily (ret a).
Proof. intros w. apply same_store_refl. Qed.

Lemma steadily_raise {A : Type} (e : exn) : steadily (raise (A:=A) e).
Proof. intros w. apply same_store_refl. Qed.

Lemma steadily_stuck {A : Type} : steadily (stuck (A:=A)).
Proof. intros w. apply same_store_refl. Qed.

Lemma steadily_get : steadily get.
Proof. intros w. apply same_store_refl. Qed.

Lemma steadily_lift {A : Type} (r : exn + A) : steadily (lift r).
Proof. intros w. destruct r; apply same_store_refl. Qed.

Lemma steadily_attribute {A : Type} (name : string) (v : option A) :
  steadily (attribute name v).
Proof. intros w. destruct v; apply same_store_refl. Qed.

Lemma steadily_bind {A B : Type} (m : M A) (k : A -> M B) :
  steadily m -> (forall a, steadily (k a)) -> steadily (bind m k).
Proof.
  intros Hm Hk w. unfold bind. specialize (Hm w).
  destruct (m w) as [[a|e|] w1]; simpl in *; [|done|done].
  eapply same_store_trans; [done|]. apply Hk.
Qed.

Lemma steadily_try_except {A : Type} (m : M A) (sel : exn -> bool)
    (h : exn -> M A) :
  steadily m -> (forall e, steadily (h e)) -> steadily (try_except m sel h).
Proof.
  intros Hm Hh w. unfold try_except. specialize (Hm w).
  destruct (m w) as [[a|e|] w1]; simpl in *; [done| |done].
  destruct (sel e); [|done]. eapply same_store_trans; [done|]. apply Hh.
Qed.

Lemma steadily_update (self : nat) (f : MySQLResult -> MySQLResult) :
  steadily (update self f).
Proof. intros w. split; [apply length_alter|done]. Qed.

Lemma steadily_deref (self : nat) : steadily (deref self).
Proof. intros w. unfold deref. destruct (_ !! _); apply same_store_refl. Qed.

Lemma steadily_log (e : event) : steadily (modify (log e)).
Proof. intros w. by split. Qed.

Lemma steadily_readexactly (n : Z) : steadily (readexactly n).
Proof.
  intros w. unfold readexactly, bind, get, attribute.
  destruct (_reader (conn w)) as [rd|]; simpl; [|apply same_store_refl].
  by destruct (n <=? len (buffer rd)).
Qed.

Lemma steadily_assign (f : Connection -> Connection) :
  (forall c, _result (f c) = _result c /\ settings (f c) = settings c) ->
  steadily (assign f).
Proof. intros Hf w. destruct (Hf (conn w)). by repeat split. Qed.

Create HintDb steady discriminated.

#[global] Hint Resolve steadily_ret steadily_raise steadily_stuck steadily_get
  steadily_lift steadily_attribute steadily_update steadily_deref
  steadily_log steadily_readexactly : steady.

(** One step of the decomposition of a computation into steady parts. *)
Ltac steady_step :=
  lazymatch goal with
  | |- steadily (bind _ _) => apply steadily_bind; [|intros ?]
  | |- steadily (try_except _ _ _) => apply steadily_try_except; [|intros ?]
  | |- steadily (assign _) => apply steadily_assign; intros ?; by split
  | |- steadily (match ?x with _ => _ end) => destruct x
  | |- steadily (let _ := _ in _) => cbv zeta
  | |- _ => solve [eauto with steady]
  end.

Ltac steady_steps := repeat steady_step.

Section Steady.
Context {lib : Imports}.

Lemma steadily_read_frames (fuel : nat) (buff : bytes) :
  steadily (read_frames fuel buff).
Proof.
  revert buff. induction fuel as [|fuel IH]; intros buff; cbn [read_frames];
    steady_steps.
Qed.

Hint Resolve steadily_read_frames : steady.

Lemma steadily_read_packet {P : Type} (packet_type : bytes -> string -> exn + P) :
  steadily (_read_packet packet_type).
Proof. unfold _read_packet. steady_steps. Qed.

Hint Resolve steadily_read_packet : steady.

Lemma steadily_connection_read_packet {P : Type} (self : nat)
    (packet_type : bytes -> string -> exn + P) :
  steadily (MySQLResult.connection_read_packet self packet_type).
Proof. unfold MySQLResult.connection_read_packet. steady_steps. Qed.

Lemma steadily_result_read_ok_packet (self : nat) (p : Packet) :
  steadily (MySQLResult._read_ok_packet self p).
Proof. unfold MySQLResult._read_ok_packet. steady_steps. Qed.

Lemma steadily_check_packet_is_eof (self : nat) (p : Packet) :
  steadily (MySQLResult._check_packet_is_eof self p).
Proof. unfold MySQLResult._check_packet_is_eof. steady_steps. Qed.

Lemma steadily_read_row_from_packet (self : nat) (p : Packet) :
  steadily (MySQLResult._read_row_from_packet self p).
Proof. unfold MySQLResult._read_row_from_packet. steady_steps. Qed.

Hint Resolve steadily_connection_read_packet steadily_result_read_ok_packet
  steadily_check_packet_is_eof steadily_read_row_from_packet : steady.

Lemma steadily_read_descriptions (self : nat) (n : nat) (acc : list pyval) :
  steadily (MySQLResult.read_descriptions self n acc).
Proof.
  revert acc. induction n as [|n IH]; intros acc;
    cbn [MySQLResult.read_descriptions]; steady_steps.
Qed.

Lemma steadily_read_rows (fuel : nat) (self : nat) (acc : list (list pyval)) :
  steadily (MySQLResult.read_rows fuel self acc).
Proof.
  revert acc. induction fuel as [|fuel IH]; intros acc;
    cbn [MySQLResult.read_rows]; steady_steps.
Qed.

Hint Resolve steadily_read_descriptions steadily_read_rows : steady.

Lemma steadily_read_result_packet (self : nat) (p : Packet) :
  steadily (MySQLResult._read_result_packet self p).
Proof.
  unfold MySQLResult._read_result_packet, MySQLResult._get_descriptions,
    MySQLResult._read_rowdata_packet.
  steady_steps.
Qed.

Lemma steadily_init_unbuffered_query (self : nat) :
  steadily (MySQLResult.init_unbuffered_query self).
Proof. unfold MySQLResult.init_unbuffered_query. steady_steps. Qed.

Lemma steadily_finish_loop (fuel : nat) (self : nat) :
  steadily (MySQLResult.finish_loop fuel self).
Proof.
  induction fuel as [|fuel IH]; cbn [MySQLResult.finish_loop]; steady_steps.
Qed.

Lemma steadily_send_rest (fuel : nat) (seq_id : Z) (sql : bytes) :
  steadily (Connection.send_rest fuel seq_id sql).
Proof.
  revert seq_id sql. induction fuel as [|fuel IH]; intros seq_id sql;
    cbn [Connection.send_rest]; unfold _write_bytes; steady_steps.
Qed.

Hint Resolve steadily_finish_loop steadily_send_rest : steady.

Lemma steadily_execute_command (command : Z) (sql : text) :
  steadily (Connection._execute_command command sql).
Proof.
  unfold Connection._execute_command, MySQLResult._finish_unbuffered_query,
    Connection.send_command, _write_bytes.
  steady_steps.
Qed.

Lemma steadily_escape (obj : pyval) : steadily (Connection.escape obj).
Proof. unfold Connection.escape, Connection.escape_string_. steady_steps. Qed.

End Steady.

Section Release.
Context {lib : Imports}.

Lemma lookup_same_store (w w' : World) (self : nat) (r : MySQLResult) :
  results w !! self = Some r -> same_store w w' ->
  exists r', results w' !! self = Some r'.
Proof.
  intros Hr (Hlen & _). apply lookup_lt_is_Some. rewrite Hlen.
  by eapply lookup_lt_Some.
Qed.

Lemma result_read_body_runs (self : nat) (r : MySQLResult) (w : World) :
  results w !! self = Some r ->
  spec (let* first_packet := MySQLResult.connection_read_packet self MysqlPacket in
        if is_ok_packet first_packet
        then MySQLResult._read_ok_packet self first_packet
        else MySQLResult._read_result_packet self first_packet) w
    (fun o w' => o <> Stuck /\ same_store w w').
Proof.
  intros Hr. apply spec_conj.
  - apply spec_bind. eapply spec_connection_read_packet; [done|done|].
    intros Hc [p|e|] w1 (b & Hp); [|done|done].
    destruct Hp as (data & -> & [= <-] & _ & _).
    destruct (is_ok_packet _).
    + eapply spec_mono.
      { eapply (result_read_ok_packet_spec self r). by autorewrite with world. }
      by intros o w2 (_ & _ & _ & _ & _ & _ & _ & Hns).
    + eapply spec_mono.
      { eapply (read_result_packet_spec _ self r). by autorewrite with world. }
      by intros [[]|e|] w2.
  - apply steadily_bind; [apply steadily_connection_read_packet|].
    intros p. destruct (is_ok_packet p);
      [apply steadily_result_read_ok_packet|apply steadily_read_result_packet].
Qed.

(** [read] ends, and however it ends the back-reference is cleared. *)
Lemma result_read_spec (self : nat) (r : MySQLResult) (w : World) :
  results w !! self = Some r ->
  spec (MySQLResult.read self) w (fun o w' =>
    o <> Stuck /\ same_store w w'
    /\ exists r', results w' !! self = Some r' /\ connection r' = None).
Proof.
  intros Hr. unfold MySQLResult.read. apply spec_try_finally.
  eapply spec_mono; [by apply (result_read_body_runs self r)|].
  intros o w1 [Hns Hst].
  destruct (lookup_same_store w w1 self r Hr Hst) as [r1 Hr1].
  assert (Hfin : same_store w
                   (set_results (alter (set_connection None) self (results w1)) w1)
                 /\ exists r',
                      alter (set_connection None) self (results w1) !! self = Some r'
                      /\ connection r' = None).
  { split.
    - destruct Hst as (Hlen & Hres & Hset). split; [|done]. cbn. by rewrite length_alter.
    - eexists. split; [by apply lookup_alter_same|done]. }
  destruct o as [[]|e|]; [| |done];
    apply spec_bind, spec_update; [apply spec_ret|apply spec_raise];
    (split; [done|]); autorewrite with world; exact Hfin.
Qed.

Lemma init_unbuffered_query_runs (self : nat) (r : MySQLResult) (w : World) :
  results w !! self = Some r ->
  spec (MySQLResult.init_unbuffered_query self) w (fun o w' =>
    o <> Stuck /\ same_store w w').
Proof.
  intros Hr. apply spec_conj; [|apply steadily_init_unbuffered_query].
  unfold MySQLResult.init_unbuffered_query.
  apply spec_bind, spec_update, spec_bind.
  eapply spec_connection_read_packet.
  { autorewrite with world. by apply lookup_alter_same. }
  { done. }
  intros Hc [p|e|] w1 (b & Hp); [|done|done].
  destruct Hp as (data & -> & [= <-] & _ & _).
  destruct (is_ok_packet _).
  - apply spec_bind. eapply spec_mono.
    { eapply result_read_ok_packet_spec.
      autorewrite with world. by apply lookup_alter_same. }
    intros [[]|e|] w2 (_ & _ & _ & _ & _ & _ & _ & Hns); [|done|done].
    by apply spec_bind, spec_update, spec_update.
  - apply spec_bind, spec_lift.
    destruct (read_length_encoded_integer _) as [e|n]; [done|].
    by apply spec_bind, spec_update, spec_update.
Qed.

End Release.

(** X8. [_read_query_result] creates one result object and is never
    stuck.  When it returns, that object is the Connection's result and
    its affected-row count is the Connection's; in buffered mode its
    back-reference is cleared.  When it raises, the Connection keeps
    the result it had, and the new object is left without
    back-reference, and in streaming mode inactive: a failed read never
    leaves a result that a later command would try to drain. *)
Theorem failed_read_releases `{Imports} (w : World) (unbuffered : bool) :
  spec (Connection._read_query_result unbuffered) w (fun o w' =>
    exists r',
      results w' !! length (results w) = Some r'
      /\ length (results w') = S (length (results w))
      /\ match o with
         | Return _ =>
             _result (conn w') = Some (length (results w))
             /\ _affected_rows (conn w') = affected_rows r'
             /\ (unbuffered = false -> connection r' = None)
         | Raise _ =>
             _result (conn w') = _result (conn w)
             /\ connection r' = None
             /\ (unbuffered = true -> unbuffered_active r' = false)
         | Stuck => False
         end).
Proof.
  set (n := length (results w)).
  set (w0 := set_results (results w ++ [new_result]) w).
  assert (Hn : results w0 !! n = Some new_result).
  { unfold w0. autorewrite with world. by apply list_lookup_middle. }
  assert (Hlen0 : length (results w0) = S n).
  { unfold w0. autorewrite with world. rewrite length_app. cbn. lia. }
  assert (Hfinish : forall w1 r1,
    results w1 !! n = Some r1 -> length (results w1) = S n ->
    spec (assign (set_result (Some n)) ;;;
          let* r := deref n in
          assign (set_affected_rows (affected_rows r)) ;;;
          match result_server_status r with
          | Some st => Connection.assign_server_status st
          | None => ret tt
          end) w1
      (fun o w' =>
         o = Return tt /\ results w' = results w1
         /\ _result (conn w') = Some n
         /\ _affected_rows (conn w') = affected_rows r1)).
  { intros w1 r1 Hr1 Hl1. apply spec_bind, spec_modify, spec_bind.
    eapply spec_deref; [done|]. apply spec_bind, spec_modify.
    destruct (result_server_status r1); [by apply spec_modify|by apply spec_ret]. }
  unfold Connection._read_query_result. apply spec_bind. destruct unbuffered.
  - apply spec_bind. unfold spec at 1. rewrite result_init_returns.
    cbn [fst snd]. fold n w0. apply spec_bind, spec_try_except.
    eapply spec_mono; [by apply (init_unbuffered_query_runs n new_result)|].
    intros o w1 [Hns Hst].
    destruct (lookup_same_store w0 w1 n _ Hn Hst) as [r1 Hr1].
    destruct Hst as (Hlen & Hres & _). rewrite Hlen0 in Hlen.
    destruct o as [[]|e|]; [| |done].
    + apply spec_ret. eapply spec_mono; [by apply (Hfinish w1 r1)|].
      intros o w2 (-> & Hrs & Hres2 & Haff). exists r1.
      rewrite Hrs. by repeat split.
    + apply spec_bind, spec_update, spec_bind, spec_update, spec_raise.
      eexists. autorewrite with world.
      split; [by do 2 apply lookup_alter_same|].
      split; [by rewrite !length_alter|]. by repeat split.
  - apply spec_bind. unfold spec at 1. rewrite result_init_returns.
    cbn [fst snd]. fold n w0. apply spec_bind.
    eapply spec_mono; [by apply (result_read_spec n new_result)|].
    intros o w1 (Hns & (Hlen & Hres & _) & r1 & Hr1 & Hback).
    rewrite Hlen0 in Hlen.
    destruct o as [[]|e|]; [| |done].
    + apply spec_ret. eapply spec_mono; [by apply (Hfinish w1 r1)|].
      intros o w2 (-> & Hrs & Hres2 & Haff). exists r1.
      rewrite Hrs. by repeat split.
    + exists r1. by repeat split.
Qed.

(** ** Parsing a complete greeting *)

Lemma slice_bound_inside {A : Type} (l : list A) (x : Z) :
  0 <= x <= len l -> slice_bound l x = x.
Proof.
  intros Hx. unfold slice_bound. destruct (Z.ltb_spec x 0); lia.
Qed.

(** [data[i:j]] is the field that sits at offset [i]. *)
Lemma py_slice_field {A : Type} (data pre field post : list A) (i j : Z) :
  data = pre ++ field ++ post -> i = len pre -> j = i + len field ->
  py_slice data i j = field.
Proof.
  intros -> -> ->. unfold py_slice.
  pose proof (len_nonneg pre). pose proof (len_nonneg field).
  pose proof (len_nonneg post).
  rewrite !slice_bound_inside by (rewrite !len_app; lia).
  destruct (Z.ltb_spec (len pre) (len pre + len field)).
  - replace (len pre + len field - len pre) with (len field) by lia.
    unfold len. rewrite !Nat2Z.id.
    rewrite skipn_app, skipn_all, Nat.sub_diag, skipn_O. cbn [app].
    by rewrite firstn_app, firstn_all, Nat.sub_diag, firstn_O, app_nil_r.
  - assert (length field = 0%nat) as Hnil by (unfold len in *; lia).
    by apply length_zero_iff_nil in Hnil.
Qed.

Lemma find_from_terminator (s post : bytes) (idx : Z) :
  ~ In x00 s -> find_from x00 (s ++ x00 :: post) idx = idx + len s.
Proof.
  revert idx. induction s as [|c s IH]; intros idx Hs.
  - cbn. unfold len. cbn. lia.
  - cbn [app find_from]. destruct (Byte.eqb c x00) eqn:Hc.
    + apply Byte.byte_dec_bl in Hc. subst c. exfalso. apply Hs. by left.
    + rewrite IH by (intros Hin; apply Hs; by right).
      unfold len. cbn [length]. lia.
Qed.

Lemma py_find_terminator (data pre s post : bytes) (i : Z) :
  data = pre ++ s ++ x00 :: post -> i = len pre -> ~ In x00 s ->
  py_find data x00 i = i + len s.
Proof.
  intros -> -> Hs. unfold py_find.
  pose proof (len_nonneg pre). pose proof (len_nonneg (s ++ x00 :: post)).
  rewrite slice_bound_inside by (rewrite len_app; lia).
  unfold len at 1. rewrite Nat2Z.id, skipn_app, skipn_all, Nat.sub_diag, skipn_O.
  cbn [app]. by apply find_from_terminator.
Qed.

(** One step of the run of a computation whose results are known. *)
Ltac run_step :=
  cbv beta iota zeta; world_cbn;
  lazymatch goal with
  | |- spec (bind _ _) _ _ => apply spec_bind
  | |- spec (ret _) _ _ => apply spec_ret
  | |- spec get _ _ => apply spec_get
  | |- spec (lift (inr _)) _ _ => apply spec_lift
  | |- spec (attribute _ (Some _)) _ _ => apply spec_attribute
  | |- spec (modify _) _ _ => apply spec_modify
  | |- spec (assign _) _ _ => apply spec_modify
  | |- spec (Connection.assign_handshake _) _ _ => apply spec_modify
  | |- spec (Connection.assign_server_status _) _ _ => apply spec_modify
  end.

(** [data[i:j]] for the field [field] between [pre] and [post]. *)
Ltac slice_at data pre field post Hdata :=
  apply (py_slice_field data pre field post);
    [ rewrite Hdata; by rewrite <- ?app_assoc
    | unfold len; rewrite ?length_app; cbn [length]; lia
    | unfold len; rewrite ?length_app; cbn [length]; lia ].

Section FullGreeting.
Context {lib : Imports}.

Lemma get_server_information_parsed (w : World) (rd : StreamReader) (pv : byte)
    (version : string)
    (thread_id salt1 caps status cap_h reserved salt2 tail : bytes)
    (filler lang salt_len : byte) (cs : Charset) (rest : bytes) (seq_id : Z) :
  let data :=
    greeting_with_extension pv version thread_id salt1 filler caps lang status
      cap_h salt_len reserved salt2 tail in
  _reader (conn w) = Some rd ->
  buffer rd = concat (frames_of (chunks data) seq_id data) ++ rest ->
  check_error (Build_Packet data 0) = None ->
  existsb (Byte.eqb x00) (list_byte_of_string version) = false ->
  length thread_id = 4%nat -> length salt1 = 8%nat -> length caps = 2%nat ->
  length status = 2%nat -> length cap_h = 2%nat -> length reserved = 10%nat ->
  len salt2 = Z.max 12 (Z_of_byte salt_len - 9) ->
  charset_by_id (Z_of_byte lang) = inr cs ->
  spec Connection._get_server_information w (fun o w' =>
    o = Return tt
    /\ trace w' = trace w ++ [Received data]
    /\ handshake (conn w')
       = Build_Handshake (Some (Z_of_byte pv)) (Some version)
           (Some (le_value thread_id)) (Some (salt1 ++ salt2))
           (Some (Z.lor (le_value caps) (Z.shiftl (le_value cap_h) 16)))
           (Some (Z_of_byte lang)) (Some (cs_name cs))
           (Some (le_value status))).
Proof.
  intros data Hrd Hbuf Herr Hver Htid Hsalt1 Hcaps Hstatus Hcap_h Hres Hsalt2 Hcs.
  unfold Connection._get_server_information. cbv zeta.
  apply spec_bind. unfold spec at 1.
  rewrite (read_packet_frames w rd seq_id data rest Hrd Hbuf), Herr.
  cbn [fst snd pk_data].
  set (v := list_byte_of_string version) in *.
  assert (Hzero : ~ In x00 v).
  { intros Hin. assert (existsb (Byte.eqb x00) v = true); [|congruence].
    apply existsb_exists. exists x00. split; [done|]. by apply Byte.byte_dec_lb. }
  assert (Hdata : data = [pv] ++ v ++ [x00] ++ thread_id ++ salt1 ++ [filler]
                         ++ caps ++ [lang] ++ status ++ cap_h ++ [salt_len]
                         ++ reserved ++ salt2 ++ tail) by reflexivity.
  clearbody data.
  destruct status as [|st0 [|st1 [|]]]; try discriminate Hstatus.
  destruct cap_h as [|ch0 [|ch1 [|]]]; try discriminate Hcap_h.
  pose proof (len_nonneg v) as Hv. pose proof (len_nonneg tail) as Htail.
  assert (Hlen : len data = len v + 33 + len salt2 + len tail).
  { rewrite Hdata. unfold len in *. rewrite !length_app. cbn [length]. lia. }
  assert (Hfind : py_find data x00 (0 + 1) = 0 + 1 + len v).
  { apply (py_find_terminator data [pv] v
             (thread_id ++ salt1 ++ [filler] ++ caps ++ [lang] ++ [st0; st1]
              ++ [ch0; ch1] ++ [salt_len] ++ reserved ++ salt2 ++ tail));
      [by rewrite Hdata|done|done]. }
  rewrite !Hfind.
  assert (S0 : py_slice data 0 (0 + 1) = [pv]).
  { slice_at data (@nil byte) [pv]
      (v ++ [x00] ++ thread_id ++ salt1 ++ [filler] ++ caps ++ [lang]
       ++ [st0; st1] ++ [ch0; ch1] ++ [salt_len] ++ reserved ++ salt2 ++ tail)
      Hdata. }
  assert (S1 : py_slice data (0 + 1) (0 + 1 + len v) = v).
  { slice_at data [pv] v
      ([x00] ++ thread_id ++ salt1 ++ [filler] ++ caps ++ [lang]
       ++ [st0; st1] ++ [ch0; ch1] ++ [salt_len] ++ reserved ++ salt2 ++ tail)
      Hdata. }
  assert (S2 : py_slice data (0 + 1 + len v + 1) (0 + 1 + len v + 1 + 4)
               = thread_id).
  { slice_at data ([pv] ++ v ++ [x00]) thread_id
      (salt1 ++ [filler] ++ caps ++ [lang]
       ++ [st0; st1] ++ [ch0; ch1] ++ [salt_len] ++ reserved ++ salt2 ++ tail)
      Hdata. }
  assert (S3 : py_slice data (0 + 1 + len v + 1 + 4) (0 + 1 + len v + 1 + 4 + 8)
               = salt1).
  { slice_at data ([pv] ++ v ++ [x00] ++ thread_id) salt1
      ([filler] ++ caps ++ [lang]
       ++ [st0; st1] ++ [ch0; ch1] ++ [salt_len] ++ reserved ++ salt2 ++ tail)
      Hdata. }
  assert (S4 : py_slice data (0 + 1 + len v + 1 + 4 + 9)
                 (0 + 1 + len v + 1 + 4 + 9 + 2) = caps).
  { slice_at data ([pv] ++ v ++ [x00] ++ thread_id ++ salt1 ++ [filler]) caps
      ([lang] ++ [st0; st1] ++ [ch0; ch1] ++ [salt_len] ++ reserved ++ salt2
       ++ tail)
      Hdata. }
  assert (S5 : py_slice data (0 + 1 + len v + 1 + 4 + 9 + 2)
                 (0 + 1 + len v + 1 + 4 + 9 + 2 + 6)
               = [lang; st0; st1; ch0; ch1; salt_len]).
  { slice_at data
      ([pv] ++ v ++ [x00] ++ thread_id ++ salt1 ++ [filler] ++ caps)
      [lang; st0; st1; ch0; ch1; salt_len] (reserved ++ salt2 ++ tail) Hdata. }
  assert (S6 : py_slice data (0 + 1 + len v + 1 + 4 + 9 + 2 + 6 + 10)
                 (0 + 1 + len v + 1 + 4 + 9 + 2 + 6 + 10
                  + Z.max 12 (Z_of_byte salt_len - 9))
               = salt2).
  { rewrite <- Hsalt2.
    slice_at data
      ([pv] ++ v ++ [x00] ++ thread_id ++ salt1 ++ [filler] ++ caps
       ++ [lang; st0; st1; ch0; ch1; salt_len] ++ reserved)
      salt2 tail Hdata. }
  assert (G1 : (len data >=? 0 + 1 + len v + 1 + 4 + 9 + 2 + 6) = true).
  { rewrite Z.geb_leb. apply Z.leb_le. pose proof (len_nonneg salt2). lia. }
  assert (G2 : (len data >=? 0 + 1 + len v + 1 + 4 + 9 + 2 + 6 + 10
                            + Z.max 12 (Z_of_byte salt_len - 9)) = true).
  { rewrite Z.geb_leb. apply Z.leb_le. lia. }
  assert (U4 : unpack_uint 4 thread_id = inr (le_value thread_id)).
  { unfold unpack_uint. by rewrite Htid. }
  assert (U2 : unpack_uint 2 caps = inr (le_value caps)).
  { unfold unpack_uint. by rewrite Hcaps. }
  rewrite S0, S1, S2, S3, S4, S5, G1, U4, U2.
  change (byte2int [pv]) with (@inr exn Z (Z_of_byte pv)).
  unfold unpack_BHHB.
  repeat (first [rewrite Hcs | rewrite G2 | rewrite S6 | run_step]).
  world_cbn. split; [done|]. split; [by autorewrite with world|].
  unfold v, decode_latin1. by rewrite string_of_list_byte_of_string.
Qed.


End FullGreeting.

(** X9. A greeting with the extended block is parsed field by field:
    [_get_server_information] receives that one packet and returns, the
    protocol version, server version, thread id, charset, status and
    capabilities (low bytes, and high bytes shifted by 16) are those of
    the greeting, the salt is its first part followed by the second
    part, of length max(12, salt length - 9), and the accessors
    [thread_id()], [get_proto_info()] and [get_server_info()] report
    them. *)
Theorem greeting_parsed `{Imports} (w : World) (rd : StreamReader) (pv : byte)
    (version : string)
    (thread_id salt1 caps status cap_h reserved salt2 tail : bytes)
    (filler lang salt_len : byte) (cs : Charset) (rest : bytes) (seq_id : Z) :
  let data :=
    greeting_with_extension pv version thread_id salt1 filler caps lang status
      cap_h salt_len reserved salt2 tail in
  _reader (conn w) = Some rd ->
  buffer rd = concat (frames_of (chunks data) seq_id data) ++ rest ->
  check_error (Build_Packet data 0) = None ->
  existsb (Byte.eqb x00) (list_byte_of_string version) = false ->
  length thread_id = 4%nat -> length salt1 = 8%nat -> length caps = 2%nat ->
  length status = 2%nat -> length cap_h = 2%nat -> length reserved = 10%nat ->
  len salt2 = Z.max 12 (Z_of_byte salt_len - 9) ->
  charset_by_id (Z_of_byte lang) = inr cs ->
  exists w',
    Connection._get_server_information w = (Return tt, w')
    /\ trace w' = trace w ++ [Received data]
    /\ handshake (conn w')
       = Build_Handshake (Some (Z_of_byte pv)) (Some version)
           (Some (le_value thread_id)) (Some (salt1 ++ salt2))
           (Some (Z.lor (le_value caps) (Z.shiftl (le_value cap_h) 16)))
           (Some (Z_of_byte lang)) (Some (cs_name cs))
           (Some (le_value status))
    /\ Connection.thread_id w' = (Return (le_value thread_id), w')
    /\ Connection.get_proto_info w' = (Return (Z_of_byte pv), w')
    /\ Connection.get_server_info w' = (Return version, w').
Proof.
  intros data Hrd Hbuf Herr Hver Htid Hsalt1 Hcaps Hstatus Hcap_h Hres Hsalt2 Hcs.
  pose proof (get_server_information_parsed w rd pv version thread_id salt1
                caps status cap_h reserved salt2 tail filler lang salt_len cs
                rest seq_id Hrd Hbuf Herr Hver Htid Hsalt1 Hcaps Hstatus Hcap_h
                Hres Hsalt2 Hcs) as Hrun.
  unfold spec in Hrun.
  destruct (Connection._get_server_information w) as [o w'].
  cbn [fst snd] in Hrun. destruct Hrun as (-> & Ht & Hh). exists w'.
  split; [done|]. split; [done|]. split; [done|].
  unfold Connection.thread_id, Connection.get_proto_info,
    Connection.get_server_info.
  rewrite !bind_get, Hh. by repeat split.
Qed.

Lemma greeting_parsed_witness :
  exists w',
    Connection._get_server_information (lib:=Reference.imports)
      (Sample.world (Sample.frame 0 Sample.greeting))
    = (Return tt, w')
    /\ Connection.thread_id w' = (Return 42, w')
    /\ Connection.get_server_info w' = (Return "5.7.10"%string, w')
    /\ salt (handshake (conn w'))
       = Some (list_byte_of_string "abcdefghijklmnopqrst").
Proof.
  destruct (greeting_parsed (H:=Reference.imports)
              (Sample.world (Sample.frame 0 Sample.greeting))
              (Build_StreamReader (Sample.frame 0 Sample.greeting) PeerClosed)
              x0a "5.7.10" [x2a; x00; x00; x00]
              (list_byte_of_string "abcdefgh") [xff; xf7] [x02; x00]
              [x0f; x80] (repeat x00 10) (list_byte_of_string "ijklmnopqrst")
              [x00] x00 x08 x15 Reference.latin1_swedish_ci [] 0)
    as (w' & Hrun & _ & Hh & Htid & _ & Hinfo).
  - reflexivity.
  - reflexivity.
  - reflexivity.
  - reflexivity.
  - reflexivity.
  - reflexivity.
  - reflexivity.
  - reflexivity.
  - reflexivity.
  - reflexivity.
  - reflexivity.
  - reflexivity.
  - exists w'. split; [exact Hrun|]. split; [exact Htid|].
    split; [exact Hinfo|]. by rewrite Hh.
Defined.

(** ** What no command does to the transport *)

#[global] Hint Resolve quietly_execute_command quietly_read_query_result
  quietly_read_ok_packet quietly_read_packet quietly_escape : quiet.

(** X10. Whatever their outcome, [query], [next_result], [begin],
    [commit], [rollback], [select_db], [kill], [autocommit],
    [set_charset] and a [ping] without permission to reconnect neither
    open nor close a transport, keep the writer, keep the reader when
    there is one, and add only received packets and written frames to
    the log: a command that fails leaves the Connection as open as it
    found it. *)
Theorem commands_keep_transport `{Imports} :
  (forall sql unbuffered, quietly (Connection.query sql unbuffered))
  /\ quietly Connection.next_result
  /\ quietly Connection.begin
  /\ quietly Connection.commit
  /\ quietly Connection.rollback
  /\ (forall db, quietly (Connection.select_db db))
  /\ (forall thread_id, quietly (Connection.kill thread_id))
  /\ (forall value, quietly (Connection.autocommit value))
  /\ (forall charset, quietly (Connection.set_charset charset))
  /\ quietly (Connection.ping false).
Proof.
  split; [intros; apply quietly_query|].
  split; [unfold Connection.next_result; quiet_steps|].
  split; [unfold Connection.begin; quiet_steps|].
  split; [apply quietly_commit|].
  split; [unfold Connection.rollback; quiet_steps|].
  split; [intros; unfold Connection.select_db; quiet_steps|].
  split; [intros; unfold Connection.kill; quiet_steps|].
  split; [intros; apply quietly_autocommit|].
  split; [intros; unfold Connection.set_charset; quiet_steps|].
  intros w. apply quiet_ping_false.
Qed.

(** ** Construction *)

Lemma has_flags_lor_r (a m : Z) : has_flags (Z.lor a m) m.
Proof.
  unfold has_flags. by rewrite <- Z.lor_assoc, Z.lor_diag.
Qed.

Lemma has_flags_lor_l (a m k : Z) : has_flags a m -> has_flags (Z.lor a k) m.
Proof.
  unfold has_flags. intros Ha.
  by rewrite <- Z.lor_assoc, (Z.lor_comm k m), Z.lor_assoc, Ha.
Qed.

(** X11. A Connection that [__init__] builds starts disconnected, with
    no result, no affected row and none of the server's attributes; its
    encoding is the one its charset names, the charset being the
    argument, or the default one for an empty argument, when no
    configuration file is read (and a charset that PyMySQL does not
    know makes the constructor raise); [use_unicode] is the argument
    when given and true otherwise, whatever the charset; the client
    flags include CAPABILITIES and MULTI_STATEMENTS, and
    CONNECT_WITH_DB when a database is named; and a missing password
    becomes the empty string. *)
Theorem connection_init `{Imports} (a : InitArgs) :
  match Connection.__init__ a with
  | inr c =>
      _reader c = None /\ _writer c = None /\ _result c = None
      /\ _affected_rows c = Some 0
      /\ host_info c = "Not connected"%string
      /\ handshake c = Build_Handshake None None None None None None None None
      /\ autocommit_mode c = arg_autocommit a
      /\ encoding_matches (settings c)
      /\ use_unicode (settings c) = default true (arg_use_unicode a)
      /\ has_flags (client_flag c) CAPABILITIES
      /\ has_flags (client_flag c) MULTI_STATEMENTS
      /\ (nonempty (db c) = true -> has_flags (client_flag c) CONNECT_WITH_DB)
      /\ (arg_read_default_file a = None -> arg_read_default_group a = None ->
          host (settings c) = arg_host a
          /\ port (settings c) = arg_port a
          /\ db c = option_map Str (arg_db a)
          /\ charset (settings c)
             = (if String.eqb (arg_charset a) "" then DEFAULT_CHARSET
                else arg_charset a)
          /\ (arg_password a = None -> password (settings c) = ""%string))
  | inl e =>
      (arg_read_default_file a = None -> arg_read_default_group a = None ->
       e = AttributeError "encoding"
       /\ charset_by_name (if String.eqb (arg_charset a) "" then DEFAULT_CHARSET
                           else arg_charset a) = None)
  end.
Proof.
  unfold Connection.__init__.
  destruct (Connection._config _ "port" _ _) as [e|port0] eqn:Hport.
  { intros Hf Hg. rewrite Hf, Hg in Hport. discriminate Hport. }
  match goal with
  | |- context [charset_by_name ?cs] =>
      destruct (charset_by_name cs) as [c0|] eqn:Hcs
  end.
  - cbn [_reader _writer _result _affected_rows host_info handshake
         autocommit_mode settings use_unicode client_flag db encoding charset
         host port password].
    repeat (split; [done|]). split; [by exists c0|]. split.
    { by destruct (arg_use_unicode a). }
    split.
    { destruct (truthy_str (Connection._config _ "database" _ _));
        [apply has_flags_lor_l|]; apply has_flags_lor_l, has_flags_lor_r. }
    split.
    { destruct (truthy_str (Connection._config _ "database" _ _));
        [apply has_flags_lor_l|]; apply has_flags_lor_r. }
    split.
    { destruct (Connection._config _ "database" _ _) as [d|]; [|done].
      cbn [option_map nonempty truthy_str]. intros ->. apply has_flags_lor_r. }
    intros Hf Hg. rewrite Hf, Hg in *. cbn in Hport |- *.
    injection Hport as <-. repeat split; try done.
    + by destruct (String.eqb (arg_charset a) "").
    + by intros ->.
  - intros Hf Hg. rewrite Hf, Hg in Hcs. cbn in Hcs. split; [done|].
    by destruct (String.eqb (arg_charset a) "").
Qed.

Lemma connection_init_witness :
  exists c,
    Connection.__init__ (lib:=Reference.imports) Sample.arguments = inr c
    /\ _writer c = None
    /\ use_unicode (settings c) = true
    /\ charset (settings c) = "latin1"%string.
Proof.
  pose proof (connection_init (H:=Reference.imports) Sample.arguments) as Hinit.
  destruct (Connection.__init__ (lib:=Reference.imports) Sample.arguments)
    as [e|c] eqn:Hc; [discriminate Hc|].
  destruct Hinit as (_ & Hw & _ & _ & _ & _ & _ & _ & Hu & _ & _ & _ & Hplain).
  destruct (Hplain eq_refl eq_refl) as (_ & _ & _ & Hcharset & _).
  exists c. split; [reflexivity|]. split; [exact Hw|].
  split; [exact Hu|exact Hcharset].
Defined.

(** ** Changing the character set *)

(** X12. [set_charset] checks the name first: a charset that PyMySQL
    does not know raises AttributeError before anything is sent, and
    the world is left as it was.  Otherwise the statement is sent and
    one packet is awaited; the charset and the encoding are assigned
    together, only once that packet has arrived without error, so that
    the Connection's settings are untouched when [set_charset] raises
    and its encoding is the one its charset names when it returns.  The
    reply is not required to be an OK packet. *)
Theorem set_charset_checks_first `{Imports} (w : World) (name : string) :
  (charset_by_name name = None ->
   Connection.set_charset name w = (Raise (AttributeError "encoding"), w))
  /\ spec (Connection.set_charset name) w (fun o w' =>
       match o with
       | Return _ =>
           settings (conn w')
           = set_encoding (encoding (settings (conn w')))
               (set_charset_name name (settings (conn w)))
           /\ encoding_matches (settings (conn w'))
       | _ => settings (conn w') = settings (conn w)
       end)
  /\ forall (wr : StreamWriter) (rd : StreamReader) (quoted : string)
            (body reply rest : bytes) (seq_id : Z) (cs : Charset),
       _writer (conn w) = Some wr -> _reader (conn w) = Some rd -> idle w ->
       charset_by_name name = Some cs ->
       Connection.escape (VStr name) w = (Return quoted, w) ->
       py_encode (encoding (settings (conn w))) ("SET NAMES " ++ quoted)
       = inr body ->
       buffer rd = concat (frames_of (chunks reply) seq_id reply) ++ rest ->
       check_error (Build_Packet reply 0) = None ->
       (Connection.set_charset name w).1 = Return tt
       /\ trace (Connection.set_charset name w).2
          = trace w
            ++ map (Sent (transport wr))
                 (frames_of (chunks (x03 :: body)) 0 (x03 :: body))
            ++ [Received reply].
Proof.
  split; [|split].
  - intros Hcs. unfold Connection.set_charset. by rewrite Hcs.
  - unfold Connection.set_charset.
    destruct (charset_by_name name) as [cs|] eqn:Hcs; [|done].
    cbn [option_map attribute]. apply spec_bind, spec_ret, spec_bind.
    pose proof (steadily_escape (VStr name) w) as (_ & _ & He).
    unfold spec at 1.
    destruct (Connection.escape (VStr name) w) as [[e|x|] w1]; cbn [fst snd] in *;
      [|done|done].
    apply spec_bind.
    pose proof (steadily_execute_command COM_QUERY (Str ("SET NAMES " ++ e)) w1)
      as (_ & _ & Hx).
    unfold spec at 1.
    destruct (Connection._execute_command _ _ w1) as [[[]|x|] w2];
      cbn [fst snd] in *; [|congruence|congruence].
    apply spec_bind.
    pose proof (steadily_read_packet MysqlPacket w2) as (_ & _ & Hp).
    unfold spec at 1.
    destruct (_read_packet MysqlPacket w2) as [[p|x|] w3];
      cbn [fst snd] in *; [|congruence|congruence].
    apply spec_bind, spec_modify, spec_modify. cbn.
    rewrite Hp, Hx, He. split; [done|]. by exists cs.
  - intros wr rd quoted body reply rest seq_id cs Hw Hrd Hidle Hcs Hesc Henc
      Hbuf Herr.
    unfold Connection.set_charset. rewrite Hcs.
    cbn [option_map attribute]. rewrite bind_ret.
    erewrite bind_returns by exact Hesc.
    erewrite bind_returns by (by eapply (execute_command_frames w wr COM_QUERY)).
    erewrite bind_returns.
    2:{ erewrite (read_packet_frames _ rd seq_id reply rest); [|done|done].
        by rewrite Herr. }
    cbn. split; [done|]. autorewrite with world. by rewrite <- app_assoc.
Qed.

Lemma set_charset_checks_first_witness :
  Connection.set_charset (lib:=Reference.imports) "klingon" Sample.disconnected
  = (Raise (AttributeError "encoding"), Sample.disconnected).
Proof.
  apply (proj1 (set_charset_checks_first (H:=Reference.imports)
                  Sample.disconnected "klingon")).
  reflexivity.
Defined.

(** ** Autocommit *)

(** X13. [autocommit(value)] records the mode first, so it is recorded
    even when the call then fails.  Before the handshake there is no
    server status and the call raises AttributeError.  When the
    server's status already shows the mode, nothing is sent.  Otherwise
    one statement, SET AUTOCOMMIT with the escaped value, is sent and
    its reply awaited like any OK-awaiting statement. *)
Theorem autocommit_round_trip `{Imports} (w : World) (value : bool) :
  let w1 := set_conn (set_autocommit_mode (Some value) (conn w)) w in
  match server_status (handshake (conn w)) with
  | None =>
      Connection.autocommit value w
      = (Raise (AttributeError "server_status"), w1)
  | Some st =>
      if Bool.eqb value (negb (Z.land st SERVER_STATUS_AUTOCOMMIT =? 0)) then
        Connection.autocommit value w = (Return tt, w1)
      else
        forall (wr : StreamWriter) (rd : StreamReader) (e : string)
               (body reply rest : bytes) (seq_id : Z),
          _writer (conn w) = Some wr -> _reader (conn w) = Some rd -> idle w ->
          escape_item (VBool value) (charset (settings (conn w))) = inr e ->
          py_encode (encoding (settings (conn w))) ("SET AUTOCOMMIT = " ++ e)
          = inr body ->
          buffer rd = concat (frames_of (chunks reply) seq_id reply) ++ rest ->
          Connection.autocommit value w
          = after_reply w1 wr (x03 :: body) reply rest
  end.
Proof.
  intros w1. unfold Connection.autocommit.
  erewrite bind_returns by reflexivity. fold w1.
  assert (Hst1 : server_status (handshake (conn w1))
                 = server_status (handshake (conn w))) by done.
  destruct (server_status (handshake (conn w))) as [st|].
  - assert (Hcur : Connection.get_autocommit w1
                   = (Return (negb (Z.land st SERVER_STATUS_AUTOCOMMIT =? 0)), w1)).
    { unfold Connection.get_autocommit. by rewrite bind_get, Hst1. }
    rewrite (bind_returns _ _ _ _ _ Hcur).
    destruct (Bool.eqb value _); cbn [negb]; [done|].
    intros wr rd e body reply rest seq_id Hw Hrd Hidle He Henc Hbuf.
    unfold Connection._send_autocommit_mode. rewrite bind_get.
    change (autocommit_mode (conn w1)) with (Some value). cbv iota.
    assert (Hesc : Connection.escape (VBool value) w1 = (Return e, w1)).
    { unfold Connection.escape. rewrite bind_get.
      change (charset (settings (conn w1))) with (charset (settings (conn w))).
      by rewrite He. }
    rewrite (bind_returns _ _ _ _ _ Hesc).
    by apply (command_round_trip w1 wr rd COM_QUERY
                (Str ("SET AUTOCOMMIT = " ++ e)) body reply rest seq_id).
  - unfold Connection.get_autocommit. unfold bind at 1.
    by rewrite bind_get, Hst1.
Qed.

Lemma autocommit_round_trip_witness :
  Connection.autocommit (lib:=Reference.imports) false (ready 0 [])
  = (Return tt,
     set_conn (set_autocommit_mode (Some false) (conn (ready 0 []))) (ready 0 []))
  /\ (Connection.autocommit (lib:=Reference.imports) true
        (ready 0 (Sample.frame 1 Sample.ok))).1 = Return tt.
Proof.
  split.
  - exact (autocommit_round_trip (H:=Reference.imports) (ready 0 []) false).
  - rewrite (autocommit_round_trip (H:=Reference.imports)
               (ready 0 (Sample.frame 1 Sample.ok)) true
               (Build_StreamWriter 0)
               (Build_StreamReader (Sample.frame 1 Sample.ok) PeerClosed)
               "1" (list_byte_of_string "SET AUTOCOMMIT = 1") Sample.ok [] 1
               eq_refl eq_refl I eq_refl eq_refl eq_refl).
    reflexivity.
Defined.

(** ** Escaping *)

Lemma double_quotes_paired (s : string) : quotes_paired (double_quotes s) = true.
Proof.
  induction s as [|c s IH]; [done|]. cbn [double_quotes].
  destruct (Ascii.eqb c "'") eqn:Hc; cbn [quotes_paired]; rewrite Hc; [|done].
  by rewrite IH.
Qed.

Lemma double_quotes_inj (s1 s2 : string) :
  double_quotes s1 = double_quotes s2 -> s1 = s2.
Proof.
  revert s2. induction s1 as [|c1 s1 IH]; intros [|c2 s2]; cbn [double_quotes].
  - done.
  - by destruct (Ascii.eqb c2 "'").
  - by destruct (Ascii.eqb c1 "'").
  - destruct (Ascii.eqb c1 "'") eqn:H1, (Ascii.eqb c2 "'") eqn:H2.
    + intros [= -> _ Hs]. by rewrite (IH _ Hs).
    + intros [= -> Hs]. congruence.
    + intros [= -> Hs]. congruence.
    + intros [= -> Hs]. by rewrite (IH _ Hs).
Qed.

Lemma append_quote_inj (a b : string) :
  (a ++ "'")%string = (b ++ "'")%string -> a = b.
Proof.
  revert b. induction a as [|c a IH]; intros [|d b]; cbn.
  - done.
  - intros [= <- Hb]. by destruct b.
  - intros [= <- Ha]. by destruct a.
  - intros [= <- Hab]. by rewrite (IH _ Hab).
Qed.

Section Escaping.
Context {lib : Imports}.

Lemma escape_no_backslash (w : World) (st : Z) (s : string) :
  server_status (handshake (conn w)) = Some st ->
  Z.land st SERVER_STATUS_NO_BACKSLASH_ESCAPES <> 0 ->
  Connection.escape (VStr s) w
  = (Return ("'" ++ double_quotes s ++ "'")%string, w).
Proof.
  intros Hst Hmode. unfold Connection.escape, Connection.escape_string_.
  unfold bind at 1. rewrite bind_get, Hst. cbn [attribute]. rewrite bind_ret.
  by destruct (Z.eqb_spec (Z.land st SERVER_STATUS_NO_BACKSLASH_ESCAPES) 0).
Qed.

End Escaping.

(** X14. Escaping a string when the server runs with
    NO_BACKSLASH_ESCAPES: the literal is the string between two quotes
    with every quote of the string doubled, so that inside the literal
    every quote is paired, and two strings with the same literal are
    the same string.  Before the handshake, when there is no server
    status, escaping a string raises AttributeError.  [literal] is
    [escape], and neither changes the world. *)
Theorem escape_doubles_quotes `{Imports} (w : World) :
  match server_status (handshake (conn w)) with
  | None =>
      forall s, Connection.escape (VStr s) w
                = (Raise (AttributeError "server_status"), w)
  | Some st =>
      Z.land st SERVER_STATUS_NO_BACKSLASH_ESCAPES <> 0 ->
      (forall s,
         Connection.escape (VStr s) w
         = (Return ("'" ++ double_quotes s ++ "'")%string, w)
         /\ quotes_paired (double_quotes s) = true)
      /\ (forall s1 s2 lit,
            Connection.escape (VStr s1) w = (Return lit, w) ->
            Connection.escape (VStr s2) w = (Return lit, w) ->
            s1 = s2)
  end
  /\ forall obj, Connection.literal obj w = Connection.escape obj w.
Proof.
  split; [|done].
  destruct (server_status (handshake (conn w))) as [st|] eqn:Hst.
  - intros Hmode. split.
    + intros s. split; [by apply (escape_no_backslash w st)|].
      apply double_quotes_paired.
    + intros s1 s2 lit H1 H2.
      rewrite (escape_no_backslash w st) in H1, H2 by done.
      rewrite <- H2 in H1. injection H1 as H1.
      by apply double_quotes_inj, append_quote_inj.
  - intros s. unfold Connection.escape, Connection.escape_string_.
    unfold bind at 1. by rewrite bind_get, Hst.
Qed.

Lemma escape_doubles_quotes_witness :
  Connection.escape (lib:=Reference.imports) (VStr "it's") (ready 512 [])
  = (Return "'it''s'"%string, ready 512 []).
Proof.
  pose proof (escape_doubles_quotes (H:=Reference.imports) (ready 512 []))
    as [Hesc _].
  cbn [ready server_status handshake conn set_handshake] in Hesc.
  destruct Hesc as [Hs _]; [vm_compute; discriminate|].
  exact (proj1 (Hs "it's"%string)).
Defined.

(** ** Opening the transport *)

Lemma open_block_runs (f : StreamReader * StreamWriter -> string) (w : World) :
  (let* rw := open_connection in
   assign (set_reader (Some (fst rw))) ;;;
   assign (set_writer (Some (snd rw))) ;;;
   assign (set_host_info (f rw))) w
  = match network w with
    | Some rd :: rest =>
        (Return tt,
         Build_World
           (set_host_info (f (rd, Build_StreamWriter (opened w)))
              (set_writer (Some (Build_StreamWriter (opened w)))
                 (set_reader (Some rd) (conn w))))
           (results w) rest (refusal w) (drains w) (S (opened w)) (clock w)
           (trace w ++ [Opened (opened w)]))
    | None :: rest =>
        (Raise (OSError (refusal w)),
         Build_World (conn w) (results w) rest (refusal w) (drains w)
           (opened w) (clock w) (trace w))
    | [] => (Raise (OSError (refusal w)), w)
    end.
Proof.
  unfold bind, open_connection. by destruct (network w) as [|[rd|] rest].
Qed.

Section Connect.
Context {lib : Imports}.

Lemma connect_spec (w : World) :
  spec Connection.connect w (connected_or_refused w).
Proof.
  unfold connected_or_refused, Connection.connect.
  apply spec_try_except, spec_bind, spec_get. cbv zeta. apply spec_bind.
  set (block := if _ && _ then _ else _).
  assert (Hblock : exists f, block w = (let* rw := open_connection in
      assign (set_reader (Some (fst rw))) ;;;
      assign (set_writer (Some (snd rw))) ;;;
      assign (set_host_info (f rw))) w).
  { unfold block. destruct (_ && _); by eexists. }
  destruct Hblock as [f Hblock]. unfold spec at 1. rewrite Hblock.
  rewrite open_block_runs. clear Hblock block.
  destruct (network w) as [|[rd|] rest] eqn:Hnet; cbn [fst snd is_OSError].
  - apply spec_bind, spec_modify, spec_bind, spec_modify, spec_bind, spec_get,
      spec_raise.
    by cbn.
  - match goal with
    | |- spec ?rest_of_connect ?w1 _ =>
        assert (Hq : quietly rest_of_connect) by quiet_steps;
        specialize (Hq w1); unfold spec;
        destruct (rest_of_connect w1) as [o w2]
    end.
    destruct Hq as (Hn & Ho & Hw & Hr & es & Ht & Hes).
    cbn [fst snd network opened conn trace _writer _reader set_host_info
         set_writer set_reader truthy] in *.
    assert (Htrace : exists es0,
              trace w2 = trace w ++ Opened (opened w) :: es0
              /\ Forall packet_event es0).
    { exists es. by rewrite Ht, <- app_assoc. }
    destruct o as [[]|e|].
    + by repeat split.
    + destruct (is_OSError e).
      * apply spec_bind, spec_modify, spec_bind, spec_modify, spec_bind,
          spec_get, spec_raise.
        cbn. by repeat split.
      * by repeat split.
    + by repeat split.
  - apply spec_bind, spec_modify, spec_bind, spec_modify, spec_bind, spec_get,
      spec_raise.
    by cbn.
Qed.

End Connect.

(** X15. [connect] opens at most one transport and never closes one.
    When the connection is refused it raises OperationalError 2003,
    whose message names the host and the OSError of the attempt,
    "Can't connect to MySQL server on <repr of host> (<the OSError>)",
    with neither reader nor writer set and nothing logged.  When the
    transport opens, the log gains that opening followed only by
    packets received and frames written, whatever the outcome: a
    handshake that fails leaves the transport open; and when [connect]
    returns, the writer is the transport just opened and there is a
    reader, so the Connection reports itself open.  The module's
    [connect(...)] raises what the constructor raises, before any
    transport is opened, and otherwise connects the Connection it
    built and returns it. *)
Theorem connect_opens_one_transport `{Imports} (w : World) :
  spec Connection.connect w (fun o w' =>
    connected_or_refused w o w'
    /\ (o = Return tt -> Connection.open w' = (Return true, w')))
  /\ forall a : InitArgs,
       match Connection.__init__ a with
       | inl e => connect a w = (Raise e, w)
       | inr c =>
           spec (connect a) w (fun o w' =>
             match o with
             | Return c' =>
                 c' = conn w' /\ connected_or_refused (set_conn c w) (Return tt) w'
             | Raise e => connected_or_refused (set_conn c w) (Raise e) w'
             | Stuck => connected_or_refused (set_conn c w) Stuck w'
             end)
       end.
Proof.
  split.
  - eapply spec_mono; [apply connect_spec|]. intros o w' Hc. split; [done|].
    intros ->. unfold connected_or_refused in Hc.
    destruct (network w) as [|[rd|] rest].
    + by destruct Hc.
    + destruct Hc as (_ & _ & _ & Hopen). destruct (Hopen eq_refl) as [Hw _].
      unfold Connection.open. by rewrite bind_get, Hw.
    + by destruct Hc.
  - intros a. unfold connect.
    destruct (Connection.__init__ a) as [e|c]; [done|].
    apply spec_bind, spec_lift, spec_bind, spec_modify, spec_bind.
    eapply spec_mono; [apply connect_spec|].
    intros [[]|e|] w' Hc; [|done|done].
    by apply spec_bind, spec_get, spec_ret.
Qed.

(** A server that accepts the login, and a network that refuses the
    connection. *)
Lemma connect_accepted_and_refused :
  (Connection.connect (lib:=Reference.imports)
     (Sample.start Sample.fresh)).1 = Return tt
  /\ connect (H:=Reference.imports) Sample.arguments Sample.disconnected
     = (Raise (OperationalError 2003
                 ("Can't connect to MySQL server on 'localhost' ("
                  ++ Sample.refused ++ ")")),
        (connect (H:=Reference.imports) Sample.arguments Sample.disconnected).2).
Proof.
  split; vm_compute; reflexivity.
Qed.

(** ** The login request *)



Lemma set_conn_same (w : World) : set_conn (conn w) w = w.
Proof. by destruct w. Qed.



(** ** Quitting *)

(** X17. [close_async] writes the one frame of COM_QUIT (length 1,
    sequence id 0, command byte 1) and waits for the writer to drain; it
    reads nothing.  When [drain] returns, the transport is closed and
    the writer dropped, and the Connection reports itself closed.  When
    [drain] raises, on a connection found lost, that exception
    propagates with the frame written: [close] is not reached, the
    transport is not closed and the Connection still reports itself
    open.  Without a writer [close_async] raises AttributeError and
    changes nothing. *)
Theorem close_async_quits `{Imports} (w : World) :
  let quit := [x01; x00; x00; x00; x01] in
  quit = concat (frames_of (chunks [byte_of_Z COM_QUIT]) 0 [byte_of_Z COM_QUIT])
  /\ match _writer (conn w) with
     | None => Connection.close_async w = (Raise (AttributeError "write"), w)
     | Some wr =>
         exists w',
           drains w' = tail (drains w)
           /\ match drains w with
              | Some e :: _ =>
                  Connection.close_async w = (Raise e, w')
                  /\ trace w' = trace w ++ [Sent (transport wr) quit]
                  /\ conn w' = conn w
                  /\ Connection.open w' = (Return true, w')
              | _ =>
                  Connection.close_async w = (Return tt, w')
                  /\ trace w'
                     = trace w ++ [Sent (transport wr) quit;
                                   Closed (transport wr)]
                  /\ conn w' = set_writer None (conn w)
                  /\ Connection.open w' = (Return false, w')
              end
     end.
Proof.
  split; [reflexivity|].
  unfold Connection.close_async.
  change (pack_i32 1) with (@inr exn bytes [x01; x00; x00; x00]).
  change (int2byte COM_QUIT) with (@inr exn bytes [x01]).
  rewrite !bind_lift, bind_get.
  destruct (_writer (conn w)) as [wr|] eqn:Hw; [|done].
  cbn [attribute]. rewrite bind_ret.
  erewrite bind_returns by reflexivity.
  rewrite bind_get. cbn [log conn _writer]. rewrite Hw.
  cbn [attribute]. rewrite bind_ret.
  destruct (drains w) as [|[e|] rest] eqn:Hd;
    unfold bind, drain, Connection.close, Connection.open, get, modify,
      assign, log, ret; cbn; rewrite ?Hd; cbn; rewrite ?Hw; cbn;
    (eexists; split; [|split; [reflexivity|]]; cbn; [done|]);
    rewrite <- ?app_assoc; cbn; rewrite ?Hw; done.
Qed.

(** ** A query answered by an error packet *)

(** X18. A query that the server answers with an error packet raises
    the error of that packet.  The frames of the query were written and
    the one packet was received and consumed; the Connection keeps the
    result and the server status it had; and the result object created
    for the reply is left without back-reference and inactive, in
    buffered and in streaming mode alike, so the next command has
    nothing to drain. *)
Theorem query_answered_error `{Imports} (w : World) (wr : StreamWriter)
    (rd : StreamReader) (sql : text) (body reply rest : bytes) (seq_id : Z)
    (e : exn) (unbuffered : bool) :
  _writer (conn w) = Some wr -> _reader (conn w) = Some rd -> idle w ->
  encoded (encoding (settings (conn w))) sql = inr body ->
  buffer rd = concat (frames_of (chunks reply) seq_id reply) ++ rest ->
  check_error (Build_Packet reply 0) = Some e ->
  Connection.query sql unbuffered w
  = (Raise e,
     set_results (results w ++ [set_connection None new_result])
       (logs (map (Sent (transport wr))
                (frames_of (chunks (x03 :: body)) 0 (x03 :: body))
              ++ [Received reply])
          (with_buffer rest w))).
Proof.
  intros Hw Hrd Hidle Henc Hbuf Herr. unfold Connection.query.
  erewrite bind_returns by (by eapply (execute_command_frames w wr COM_QUERY)).
  set (sent := map _ _). set (w0 := logs sent w).
  set (n := length (results w0)).
  set (w1 := set_results (results w0 ++ [new_result]) w0).
  assert (Hn : results w1 !! n = Some new_result).
  { unfold w1. autorewrite with world. by apply list_lookup_middle. }
  assert (Hfinal : forall rs,
            rs = alter (set_connection None) n (results w1) ->
            set_results rs (logs [Received reply] (with_buffer rest w1))
            = set_results (results w ++ [set_connection None new_result])
                (logs (sent ++ [Received reply]) (with_buffer rest w))).
  { intros rs ->. unfold w1, n, w0. autorewrite with world.
    by rewrite alter_new. }
  erewrite bind_raises; [reflexivity|].
  unfold Connection._read_query_result.
  erewrite bind_raises; [reflexivity|].
  destruct unbuffered.
  - erewrite bind_returns by apply result_init_returns. fold n w1.
    erewrite bind_raises; [reflexivity|].
    unfold try_except, MySQLResult.init_unbuffered_query.
    erewrite bind_returns by apply update_returns.
    erewrite bind_raises.
    2:{ erewrite (connection_read_packet_frames n
                    (set_unbuffered_active true new_result));
          [by rewrite Herr| |done|done|done].
        autorewrite with world. by apply lookup_alter_same. }
    erewrite bind_returns by apply update_returns.
    erewrite bind_returns by apply update_returns.
    unfold raise. f_equal. autorewrite with world.
    rewrite !list_alter_alter_eq. rewrite <- (Hfinal _ eq_refl).
    f_equal. unfold w1, n, w0. autorewrite with world. by rewrite !alter_new.
  - erewrite bind_returns by apply result_init_returns. fold n w1.
    erewrite bind_raises; [reflexivity|].
    unfold MySQLResult.read, try_finally.
    erewrite bind_raises.
    2:{ erewrite (connection_read_packet_frames n new_result) by done.
        by rewrite Herr. }
    erewrite bind_returns by apply update_returns.
    unfold raise. f_equal. autorewrite with world. by apply Hfinal.
Qed.

(** ** One value per column *)

Lemma read_columns_data `{Imports} (uu : bool) (decs : gmap Z converter)
    (fs : list FieldDescriptor) :
  forall (p : Packet) (row : list pyval),
    MySQLResult.read_columns uu decs fs p = inr row
    <-> exists datas,
          column_data (length fs) p = inr datas
          /\ Forall3
               (fun f data v => MySQLResult.decode_column uu decs f data = inr v)
               fs datas row.
Proof.
  induction fs as [|f fs IH]; intros p row;
    cbn [MySQLResult.read_columns column_data length].
  - split.
    + intros [= <-]. exists []. split; [done|constructor].
    + intros (datas & [= <-] & Hall). by inversion Hall.
  - destruct (read_length_coded_string p) as [e|[data p']].
    { split; [done|]. by intros (datas & ? & _). }
    split.
    + destruct (MySQLResult.decode_column uu decs f data) as [e|v] eqn:Hv;
        [done|].
      destruct (MySQLResult.read_columns uu decs fs p') as [e|row'] eqn:Hrow;
        [done|].
      intros [= <-]. apply IH in Hrow as (datas & -> & Hall).
      exists (data :: datas). split; [done|]. by constructor.
    + intros (datas & Hdata & Hall).
      destruct (column_data (length fs) p') as [e|rest] eqn:Hrest; [done|].
      injection Hdata as <-. inversion Hall as [|? ? v ? ? row' Hv Hall']; subst.
      rewrite Hv. by rewrite (proj2 (IH p' row') (ex_intro _ rest (conj Hrest Hall'))).
Qed.

(** X19. [_read_row_from_packet] returns a row exactly when the result
    still refers to the Connection, its descriptors were read, the
    packet yields one length-coded string per descriptor and each
    decodes.  The row then has one value per column descriptor, in the
    order of the descriptors: the value of a column is the decoding,
    under the Connection's [use_unicode] flag and converters, of the
    data read from the packet at that column's position.  Reading a row
    changes nothing in the world. *)
Theorem row_has_value_per_column `{Imports} (w w' : World) (self : nat)
    (r : MySQLResult) (p : Packet) (row : list pyval) :
  results w !! self = Some r ->
  MySQLResult._read_row_from_packet self p w = (Return row, w')
  <-> w' = w
      /\ connection r <> None
      /\ exists fs datas,
           fields r = Some fs
           /\ column_data (length fs) p = inr datas
           /\ len row = len fs
           /\ Forall3
                (fun f data v =>
                   MySQLResult.decode_column (use_unicode (settings (conn w)))
                     (conn_decoders (settings (conn w))) f data = inr v)
                fs datas row.
Proof.
  intros Hr. rewrite (read_row_from_packet_returns self r) by done. split.
  - destruct (connection r); [|done]. destruct (fields r) as [fs|]; [|done].
    destruct (MySQLResult.read_columns _ _ fs p) as [e|row'] eqn:Hrow; [done|].
    intros [= <- <-]. split; [done|]. split; [done|].
    apply read_columns_data in Hrow as (datas & Hdata & Hall).
    pose proof (Forall3_length_lr _ _ _ _ Hall) as Hlen.
    exists fs, datas. repeat split; try done. unfold len. lia.
  - intros (-> & Hc & fs & datas & -> & Hdata & _ & Hall).
    destruct (connection r); [|done].
    by rewrite (proj2 (read_columns_data _ _ fs p row)
                  (ex_intro _ datas (conj Hdata Hall))).
Qed.

Lemma row_has_value_per_column_witness :
  let w := Sample.store [Sample.described] [] in
  let p := Build_Packet (Sample.lcs "22") 0 in
  MySQLResult._read_row_from_packet (lib:=Reference.imports) 0 p w
  = (Return [VStr "22"], w)
  /\ exists fs datas,
       fields Sample.described = Some fs
       /\ column_data (H:=Reference.imports) (length fs) p = inr datas
       /\ Forall3
            (fun f data v =>
               MySQLResult.decode_column (lib:=Reference.imports)
                 (use_unicode (settings (conn w)))
                 (conn_decoders (settings (conn w))) f data = inr v)
            fs datas [VStr "22"].
Proof.
  intros w p. split; [reflexivity|].
  destruct (proj1 (row_has_value_per_column (H:=Reference.imports) w w 0
                     Sample.described p [VStr "22"] eq_refl) eq_refl)
    as (_ & _ & fs & datas & Hfs & Hdata & _ & Hall).
  exists fs, datas. split; [exact Hfs|]. split; [exact Hdata|exact Hall].
Defined.

(** ** Draining a streaming result before a command *)

(** X20. On a Connection whose current result is a streaming result
    still active, a command first receives packets up to and including
    the first EOF marker met, clears the active flag and the
    back-reference of that result, and only then writes exactly the
    frames of its payload; when the drain fails, the command raises
    with nothing written.  The EOF marker is the first one in the
    stream: the loop does not tell the marker that ends the column
    descriptors from the one that ends the rows. *)
Theorem drain_then_command `{Imports} (w : World) (wr : StreamWriter)
    (result : nat) (r : MySQLResult) (command : Z) (text : text)
    (sql : bytes) :
  _writer (conn w) = Some wr ->
  _result (conn w) = Some result ->
  results w !! result = Some r ->
  unbuffered_active r = true ->
  0 <= command <= 255 ->
  encoded (encoding (settings (conn w))) text = inr sql ->
  spec (Connection._execute_command command text) w (fun o w' =>
    match o with
    | Return _ =>
        exists pkts eofp r',
          trace w'
          = trace w ++ map Received (pkts ++ [eofp])
            ++ map (Sent (transport wr))
                 (frames_of (chunks (byte_of_Z command :: sql)) 0
                    (byte_of_Z command :: sql))
          /\ Forall not_eof pkts
          /\ is_eof_packet (Build_Packet eofp 0) = true
          /\ results w' !! result = Some r'
          /\ unbuffered_active r' = false
          /\ connection r' = None
    | Raise _ =>
        exists received, trace w' = trace w ++ map Received received
    | Stuck => False
    end).
Proof.
  intros Hw Hres Hr Hact Hcmd Henc.
  assert (Hsplit : forall w1 : World,
            _writer (conn w1) = Some wr -> idle w1 ->
            encoding (settings (conn w1)) = encoding (settings (conn w)) ->
            Connection.send_command command text w1
            = (Return tt,
               logs (map (Sent (transport wr))
                       (frames_of (chunks (byte_of_Z command :: sql)) 0
                          (byte_of_Z command :: sql))) w1)).
  { intros w1 Hw1 Hidle Henc1.
    rewrite <- (execute_command_frames w1 wr command text sql Hw1 Hidle Hcmd)
      by (by rewrite Henc1).
    unfold Connection._execute_command. rewrite bind_get, Hw1.
    cbn [truthy negb]. by erewrite bind_returns by (by apply drain_guard_idle). }
  unfold Connection._execute_command.
  apply spec_bind, spec_get. rewrite Hw, Hres. cbn [truthy negb].
  apply spec_bind, spec_bind. eapply spec_deref; [done|]. rewrite Hact.
  eapply spec_mono; [by eapply finish_unbuffered_query_spec|].
  intros o w1 (b & received & rs & -> & Ho).
  destruct o as [[]|e|]; [| |done].
  - destruct Ho as (pkts & eofp & r' & -> & Hpk & Heof & Hr' & Hflag & Hback).
    unfold spec. rewrite Hsplit.
    + cbn [fst snd]. exists pkts, eofp, r'. autorewrite with world.
      split; [by rewrite <- app_assoc|]. done.
    + by autorewrite with world.
    + unfold idle. autorewrite with world. rewrite Hres. by exists r'.
    + by autorewrite with world.
  - exists received. by autorewrite with world.
Qed.

(** After a streaming query on the sample result set, the marker met
    first is the one that ends the column descriptors. *)
Lemma drain_then_command_witness :
  let w :=
    (Connection.query (lib:=Reference.imports) (Str "SELECT c FROM t") true
       (Sample.world Sample.resultset)).2 in
  spec (Connection._execute_command (lib:=Reference.imports) COM_PING (Str ""))
    w (fun o w' =>
         match o with
         | Return _ =>
             exists pkts eofp r',
               trace w'
               = trace w ++ map Received (pkts ++ [eofp])
                 ++ map (Sent 0) (frames_of (chunks [x0e]) 0 [x0e])
               /\ Forall (not_eof (H:=Reference.imports)) pkts
               /\ Reference.is_eof_packet (Build_Packet eofp 0) = true
               /\ results w' !! 0%nat = Some r'
               /\ unbuffered_active r' = false
               /\ connection r' = None
         | Raise _ =>
             exists received, trace w' = trace w ++ map Received received
         | Stuck => False
         end)
  /\ Connection._execute_command (lib:=Reference.imports) COM_PING (Str "") w
     = (Return tt,
        set_results [Sample.drained]
          (logs [Received Sample.column; Received Sample.eof;
                 Sent 0 (Sample.frame 0 [x0e])]
             (with_buffer Sample.rowdata w))).
Proof.
  intros w. split; [|vm_compute; reflexivity].
  apply (drain_then_command (H:=Reference.imports) w (Build_StreamWriter 0) 0
           Sample.streaming COM_PING (Str "") []);
    try (vm_compute; reflexivity).
  unfold COM_PING. lia.
Defined.

(** ** The further properties at work on the reference instance *)

Lemma descriptors_read_in_order_witness :
  spec (MySQLResult._get_descriptions (lib:=Reference.imports) 0)
    descriptors_to_come
    (fun o w' =>
       match o with
       | Return _ =>
           exists pkts eofp fs,
             trace w' = trace descriptors_to_come ++ map Received (pkts ++ [eofp])
             /\ len fs = Z.max 0 1
             /\ descriptors_parsed (H:=Reference.imports)
                  (encoding (settings (conn descriptors_to_come))) pkts fs
             /\ Reference.is_eof_packet (Build_Packet eofp 0) = true
             /\ results w' !! 0%nat
                = Some (set_description (Some (map Reference.description fs))
                          (set_fields (Some fs) counted))
       | Raise _ => True
       | Stuck => False
       end)
  /\ (MySQLResult._get_descriptions (lib:=Reference.imports) 0
        descriptors_to_come).1 = Return tt.
Proof.
  split.
  - exact (descriptors_read_in_order (H:=Reference.imports) descriptors_to_come
             0 counted 1 eq_refl eq_refl).
  - vm_compute. reflexivity.
Defined.

Lemma buffered_result_set_witness :
  spec (MySQLResult._read_result_packet (lib:=Reference.imports) 0
          (Build_Packet [x01] 0))
    result_set_to_come
    (fun o w' =>
       match o with
       | Return _ =>
           exists count descs eof1 rowpkts eof2 fs decoded r',
             (exists rest,
                Reference.read_length_encoded_integer (Build_Packet [x01] 0)
                = inr (Some count, rest))
             /\ trace w'
                = trace result_set_to_come
                  ++ map Received (descs ++ [eof1] ++ rowpkts ++ [eof2])
             /\ len fs = Z.max 0 count
             /\ descriptors_parsed (H:=Reference.imports)
                  (encoding (settings (conn result_set_to_come))) descs fs
             /\ Reference.is_eof_packet (Build_Packet eof1 0) = true
             /\ Forall (not_eof (H:=Reference.imports)) rowpkts
             /\ Reference.is_eof_packet (Build_Packet eof2 0) = true
             /\ Forall2
                  (fun p row =>
                     MySQLResult.read_columns (lib:=Reference.imports)
                       (use_unicode (settings (conn result_set_to_come)))
                       (conn_decoders (settings (conn result_set_to_come))) fs
                       (Build_Packet p 0)
                     = inr row)
                  rowpkts decoded
             /\ results w' !! 0%nat = Some r'
             /\ fields r' = Some fs
             /\ result_description r' = Some (map Reference.description fs)
             /\ rows r' = Some decoded
             /\ affected_rows r' = Some (len decoded)
             /\ connection r' = None
       | Raise _ => True
       | Stuck => False
       end)
  /\ (MySQLResult._read_result_packet (lib:=Reference.imports) 0
        (Build_Packet [x01] 0) result_set_to_come).1 = Return tt
  /\ results (MySQLResult._read_result_packet (lib:=Reference.imports) 0
                (Build_Packet [x01] 0) result_set_to_come).2 !! 0%nat
     = Some (Build_MySQLResult None (Some 2) None None 0 None (Some 1)
               (Some [Reference.description Sample.text_field])
               (Some [[VStr "1"]; [VStr "22"]]) (Some 0) false
               (Some [Sample.text_field])).
Proof.
  split; [|split].
  - exact (buffered_result_set (H:=Reference.imports) result_set_to_come 0
             Sample.created (Build_Packet [x01] 0) eq_refl).
  - vm_compute. reflexivity.
  - vm_compute. reflexivity.
Defined.

Lemma query_answered_error_witness :
  (Connection.query (lib:=Reference.imports) (Str "SELECT") false
     (Sample.world (Sample.frame 1 [xff; x15; x04]))).1
  = Raise (DatabaseError [xff; x15; x04]).
Proof.
  rewrite (query_answered_error (H:=Reference.imports)
             (Sample.world (Sample.frame 1 [xff; x15; x04]))
             (Build_StreamWriter 0)
             (Build_StreamReader (Sample.frame 1 [xff; x15; x04]) PeerClosed)
             (Str "SELECT") (list_byte_of_string "SELECT") [xff; x15; x04] []
             1 (DatabaseError [xff; x15; x04]) false
             eq_refl eq_refl I eq_refl eq_refl eq_refl).
  reflexivity.
Defined.
